(** * Network observation and interception core (juggler NetworkObserver.js)

    A shallow embedding of the response store, the network exchange state
    machine and the per-target tracker, followed by the properties the
    specification states about them. *)

From Stdlib Require Import ZArith String Ascii List Bool Lia.
From Stdlib Require Import DecimalString DecimalN.
From stdpp Require Import base option list gmap.
From Equations Require Import Equations.

Local Open Scope string_scope.
Local Open Scope list_scope.
Local Open Scope Z_scope.

(** ** JavaScript builtins used by the source *)

Module Js.

(** [s.length] of a binary string. *)
Definition len (s : string) : Z := Z.of_nat (String.length s).

(** [chunks.join('')]. *)
Fixpoint join (chunks : list string) : string :=
  match chunks with
  | [] => EmptyString
  | c :: cs => (c ++ join cs)%string
  end.

(** A string is truthy when it is not empty. *)
Definition nonempty (s : string) : bool :=
  match s with
  | EmptyString => false
  | String _ _ => true
  end.

(** [a || b] on optional strings, numbers and arrays. *)
Definition or_string (a : option string) (b : string) : option string :=
  match a with
  | Some s => if nonempty s then Some s else Some b
  | None => Some b
  end.

Definition or_number (a : option Z) (b : Z) : option Z :=
  match a with
  | Some n => if Z.eqb n 0 then Some b else Some n
  | None => Some b
  end.

Definition or_array {A : Type} (a : option (list A)) (b : list A) : option (list A) :=
  match a with
  | Some l => Some l
  | None => Some b
  end.

(** The base64 alphabet of [btoa] and [atob]. *)
Definition alphabet : string :=
  "ABCDEFGHIJKLMNOPQRSTUVWXYZabcdefghijklmnopqrstuvwxyz0123456789+/".

Definition sextet (n : N) : ascii :=
  match String.get (N.to_nat (n mod 64)) alphabet with
  | Some c => c
  | None => "="%char
  end.

Definition quad (a b c : N) : N := (a * 65536 + b * 256 + c)%N.

Fixpoint btoa_bytes (l : list N) : string :=
  match l with
  | [] => EmptyString
  | [a] =>
      let n := quad a 0 0 in
      String (sextet (n / 262144)) (String (sextet (n / 4096)) "==")
  | [a; b] =>
      let n := quad a b 0 in
      String (sextet (n / 262144))
        (String (sextet (n / 4096)) (String (sextet (n / 64)) "="))
  | a :: b :: c :: rest =>
      let n := quad a b c in
      String (sextet (n / 262144))
        (String (sextet (n / 4096))
           (String (sextet (n / 64)) (String (sextet n) (btoa_bytes rest))))
  end.

Fixpoint bytes (s : string) : list N :=
  match s with
  | EmptyString => []
  | String c s' => N_of_ascii c :: bytes s'
  end.

Fixpoint of_bytes (l : list N) : string :=
  match l with
  | [] => EmptyString
  | b :: l' => String (ascii_of_N b) (of_bytes l')
  end.

(** [btoa(s)] on a binary string (every code unit below 256, which is what
    a [string] holds here). *)
Definition btoa (s : string) : string := btoa_bytes (bytes s).

(** Position of a character in the base64 alphabet. *)
Fixpoint index_of (c : ascii) (s : string) (i : N) : option N :=
  match s with
  | EmptyString => None
  | String c' s' => if Ascii.eqb c' c then Some i else index_of c s' (i + 1)%N
  end.

Definition is_ascii_whitespace (c : ascii) : bool :=
  let n := N_of_ascii c in
  (n =? 9)%N || (n =? 10)%N || (n =? 12)%N || (n =? 13)%N || (n =? 32)%N.

Fixpoint strip_whitespace (s : string) : string :=
  match s with
  | EmptyString => EmptyString
  | String c s' =>
      if is_ascii_whitespace c then strip_whitespace s'
      else String c (strip_whitespace s')
  end.

Fixpoint sextets (s : string) : option (list N) :=
  match s with
  | EmptyString => Some []
  | String c s' =>
      match index_of c alphabet 0%N, sextets s' with
      | Some n, Some l => Some (n :: l)
      | _, _ => None
      end
  end.

Fixpoint atob_sextets (l : list N) : list N :=
  match l with
  | a :: b :: c :: d :: rest =>
      let n := (a * 262144 + b * 4096 + c * 64 + d)%N in
      (n / 65536)%N :: ((n / 256) mod 256)%N :: (n mod 256)%N :: atob_sextets rest
  | [a; b; c] =>
      let n := ((a * 4096 + b * 64 + c) / 4)%N in
      [(n / 256)%N; (n mod 256)%N]
  | [a; b] => [((a * 64 + b) / 16)%N]
  | _ => []
  end.

(** Removes up to two trailing [=] of an input whose length is a multiple
    of four. *)
Definition strip_padding (s : string) : string :=
  let n := String.length s in
  if Nat.eqb (n mod 4) 0 then
    if String.eqb (substring (n - 2) 2 s) "==" then substring 0 (n - 2) s
    else if String.eqb (substring (n - 1) 1 s) "=" then substring 0 (n - 1) s
    else s
  else s.

(** [atob(s)]: the forgiving base64 decoding; [None] when it throws. *)
Definition atob (s : string) : option string :=
  let s1 := strip_padding (strip_whitespace s) in
  if Nat.eqb (String.length s1 mod 4) 1 then None
  else match sextets s1 with
       | Some l => Some (of_bytes (atob_sextets l))
       | None => None
       end.

(** A number used as a property key, or concatenated with [''], is its
    decimal numeral. *)
Definition numeral (n : N) : string := NilEmpty.string_of_uint (N.to_uint n).

(** [\s] on a binary string. *)
Definition is_regexp_space (c : ascii) : bool :=
  let n := N_of_ascii c in
  ((9 <=? n)%N && (n <=? 13)%N) || (n =? 32)%N || (n =? 160)%N.

(** [header.split(/\s*\t*,\s*\t*/)]: the pieces between commas, the white
    space next to a comma belonging to the separator. [cur] is the piece
    read so far, [ws] the run of white space that follows it, [skip] says
    that the separator is still being matched. *)
Fixpoint split_commas (s : string) (cur ws : string) (skip : bool) : list string :=
  match s with
  | EmptyString => [(cur ++ ws)%string]
  | String c s' =>
      if Ascii.eqb c ","%char then cur :: split_commas s' EmptyString EmptyString true
      else if is_regexp_space c then
        if skip then split_commas s' cur ws true
        else split_commas s' cur (ws ++ String c EmptyString)%string false
      else split_commas s' (cur ++ ws ++ String c EmptyString)%string EmptyString false
  end.

Definition split_encodings (header : string) : list string :=
  split_commas header EmptyString EmptyString false.

(** [s.toLowerCase()] on a binary string. *)
Definition lower (c : ascii) : ascii :=
  let n := N_of_ascii c in
  if ((65 <=? n)%N && (n <=? 90)%N)
     || ((192 <=? n)%N && (n <=? 222)%N && negb (n =? 215)%N)
  then ascii_of_N (n + 32)
  else c.

Fixpoint toLowerCase (s : string) : string :=
  match s with
  | EmptyString => EmptyString
  | String c s' => String (lower c) (toLowerCase s')
  end.

(** The double quote, for messages. *)
Definition dquote : string := String (ascii_of_nat 34) EmptyString.

End Js.

(** ** Insertion-ordered [Map] with string keys

    A JavaScript [Map] iterates in the order in which keys were first
    inserted; [set] on a key that is present replaces the value in place. *)

Module JsMap.
Section Ordered.
Context {V : Type}.

Fixpoint get (m : list (string * V)) (k : string) : option V :=
  match m with
  | [] => None
  | (k', v) :: m' => if String.eqb k' k then Some v else get m' k
  end.

Fixpoint set (m : list (string * V)) (k : string) (v : V) : list (string * V) :=
  match m with
  | [] => [(k, v)]
  | (k', v') :: m' =>
      if String.eqb k' k then (k', v) :: m' else (k', v') :: set m' k v
  end.

Fixpoint delete (m : list (string * V)) (k : string) : list (string * V) :=
  match m with
  | [] => []
  | (k', v') :: m' =>
      if String.eqb k' k then m' else (k', v') :: delete m' k
  end.

Definition keys (m : list (string * V)) : list string := map fst m.
Definition values (m : list (string * V)) : list V := map snd m.

End Ordered.
End JsMap.

(** ** Platform objects

    What the source reads from an [nsIHttpChannel]. The browser owns these
    objects; a channel is identified by its reference, its state is the
    record found under that reference. *)

Record Header := { name : string; value : string }.

Record HttpChannel := {
  channelId : N;
  isMainDocumentChannel : bool;
  URI : string;
  requestMethod : string;
  requestHeaders : list Header;
  frameId : option string;
  (* the page target of the channel's load context, if it has one *)
  loadTarget : option nat;
  (* responseStatus and responseStatusText throw while there is no response *)
  responseStatus : option Z;
  responseStatusText : string;
  responseHeaders : list Header;
  (* httpChannel instanceof Ci.nsIEncodedChannel *)
  nsIEncodedChannel : bool;
  (* whether httpChannel.contentEncodings is truthy *)
  contentEncodings : bool;
  applyConversion : bool;
  (* getResponseHeader("Content-Encoding") *)
  contentEncodingHeader : string
}.

(** ** Response store *)

Module Stored.
Record t := mk {
  body : string;
  evicted : bool;
  encodings : option (list string)
}.
End Stored.

Module Reply.
Record t := mk {
  base64body : string;
  evicted : bool
}.
End Reply.

Inductive Exn :=
| Error (message : string)
| TypeError (message : string)
| InvalidCharacterError
| Exception (result : N).

Inductive Result (A : Type) :=
| Ok (a : A)
| Throw (e : Exn).
Arguments Ok {A} a.
Arguments Throw {A} e.

Record ResponseStorage := {
  _totalSize : Z;
  _maxResponseSize : Z;
  _maxTotalSize : Z;
  _responses : list (string * Stored.t)
}.

(** [new ResponseStorage(maxTotalSize, maxResponseSize)]. *)
Definition new_ResponseStorage (maxTotalSize maxResponseSize : Z) : ResponseStorage :=
  {| _totalSize := 0;
     _maxResponseSize := maxResponseSize;
     _maxTotalSize := maxTotalSize;
     _responses := [] |}.

(** One pass of the eviction loop body: [response.body = ''] and
    [response.evicted = true]. *)
Definition evict (response : Stored.t) : Stored.t :=
  Stored.mk EmptyString true (Stored.encodings response).

(** [for (let [requestId, response] of this._responses)] of
    [addResponseBody]: returns the running total and the entries after the
    loop. *)
Fixpoint evict_loop (totalSize maxTotalSize : Z) (responses : list (string * Stored.t))
  : Z * list (string * Stored.t) :=
  match responses with
  | [] => (totalSize, [])
  | (requestId, response) :: rest =>
      let totalSize := totalSize - Js.len (Stored.body response) in
      if totalSize <? maxTotalSize then (totalSize, (requestId, evict response) :: rest)
      else
        let '(total, rest') := evict_loop totalSize maxTotalSize rest in
        (total, (requestId, evict response) :: rest')
  end.

(** The [encodings] computed by [addResponseBody] from the channel. *)
Definition channel_encodings (httpChannel : HttpChannel) : list string :=
  if nsIEncodedChannel httpChannel && contentEncodings httpChannel
     && negb (applyConversion httpChannel)
  then Js.split_encodings (contentEncodingHeader httpChannel)
  else [].

Definition addResponseBody (this : ResponseStorage) (requestId : string)
    (httpChannel : HttpChannel) (body : string) : ResponseStorage :=
  if _maxResponseSize this <? Js.len body then
    {| _totalSize := _totalSize this;
       _maxResponseSize := _maxResponseSize this;
       _maxTotalSize := _maxTotalSize this;
       _responses := JsMap.set (_responses this) requestId (Stored.mk EmptyString true None) |}
  else
    let encodings := channel_encodings httpChannel in
    let responses := JsMap.set (_responses this) requestId
                       (Stored.mk body false (Some encodings)) in
    let totalSize := _totalSize this + Js.len body in
    if _maxTotalSize this <? totalSize then
      let '(totalSize, responses) := evict_loop totalSize (_maxTotalSize this) responses in
      {| _totalSize := totalSize;
         _maxResponseSize := _maxResponseSize this;
         _maxTotalSize := _maxTotalSize this;
         _responses := responses |}
    else
      {| _totalSize := totalSize;
         _maxResponseSize := _maxResponseSize this;
         _maxTotalSize := _maxTotalSize this;
         _responses := responses |}.

(** A call of [convertString(s, source, dest)]. *)
Record Conversion := { conv_input : string; conv_source : string; conv_dest : string }.

Definition not_found (requestId : string) : Exn :=
  Error ("Request " ++ Js.dquote ++ requestId ++ Js.dquote ++ " is not found")%string.

Section Decoding.

(** The stream converter service of the browser behind [convertString]. *)
Variable convertString : string -> string -> string -> string.

(** [for (const encoding of response.encodings)]: the converter calls made,
    in order, and the final result. *)
Fixpoint convert_loop (encodings : list string) (result : string)
  : list Conversion * string :=
  match encodings with
  | [] => ([], result)
  | encoding :: rest =>
      let '(calls, final) :=
        convert_loop rest (convertString result encoding "uncompressed") in
      ({| conv_input := result; conv_source := encoding; conv_dest := "uncompressed" |}
         :: calls, final)
  end.

(** Returns the converter calls made and the outcome. *)
Definition getBase64EncodedResponse (this : ResponseStorage) (requestId : string)
  : list Conversion * Result Reply.t :=
  match JsMap.get (_responses this) requestId with
  | None => ([], Throw (not_found requestId))
  | Some response =>
      if Stored.evicted response then ([], Ok (Reply.mk EmptyString true))
      else
        let '(calls, result) :=
          match Stored.encodings response with
          | Some ((_ :: _) as encodings) => convert_loop encodings (Stored.body response)
          | _ => ([], Stored.body response)
          end in
        (calls, Ok (Reply.mk (Js.btoa result) false))
  end.

End Decoding.

(** ** The world of the observer

    Objects of the source ([NetworkRequest], [ResponseInterceptor],
    [PageNetwork]) live in heaps and are named by references, so that the
    lookup tables of the observer and of a page network alias them as in the
    source. Events emitted to a page network and calls made on browser
    objects are logged in order. *)

Module Cr.
(** Values of [Components.results]. *)
Definition NS_OK : N := 0.
Definition NS_ERROR_ABORT : N := 0x80004004.
Definition NS_ERROR_FAILURE : N := 0x80004005.
Definition NS_ERROR_NOT_AVAILABLE : N := 0x80040111.
Definition NS_ERROR_CONNECTION_REFUSED : N := 0x804B000D.
Definition NS_ERROR_NET_TIMEOUT : N := 0x804B000E.
Definition NS_ERROR_OFFLINE : N := 0x804B0010.
Definition NS_ERROR_PORT_ACCESS_NOT_ALLOWED : N := 0x804B0013.
Definition NS_ERROR_NET_RESET : N := 0x804B0014.
Definition NS_ERROR_UNKNOWN_HOST : N := 0x804B001E.
Definition NS_ERROR_NET_INTERRUPT : N := 0x804B0047.
End Cr.

(** Flags of [nsIChannelEventSink]. *)
Definition REDIRECT_INTERNAL : N := 4.
Definition REDIRECT_STS_UPGRADE : N := 8.

Definition errorMap : list (string * N) :=
  [ ("aborted", Cr.NS_ERROR_ABORT);
    ("accessdenied", Cr.NS_ERROR_PORT_ACCESS_NOT_ALLOWED);
    ("addressunreachable", Cr.NS_ERROR_UNKNOWN_HOST);
    ("blockedbyclient", Cr.NS_ERROR_FAILURE);
    ("blockedbyresponse", Cr.NS_ERROR_FAILURE);
    ("connectionaborted", Cr.NS_ERROR_NET_INTERRUPT);
    ("connectionclosed", Cr.NS_ERROR_FAILURE);
    ("connectionfailed", Cr.NS_ERROR_FAILURE);
    ("connectionrefused", Cr.NS_ERROR_CONNECTION_REFUSED);
    ("connectionreset", Cr.NS_ERROR_NET_RESET);
    ("internetdisconnected", Cr.NS_ERROR_OFFLINE);
    ("namenotresolved", Cr.NS_ERROR_UNKNOWN_HOST);
    ("timedout", Cr.NS_ERROR_NET_TIMEOUT);
    ("failed", Cr.NS_ERROR_FAILURE) ].

(** The argument of [abort]: a symbolic name coming from the controller, or
    the number that [channelIntercepted] passes. *)
Inductive ErrorCode :=
| Symbolic (name : string)
| Numeric (code : N).

(** The property key of [errorMap[errorCode]]. *)
Definition property_key (errorCode : ErrorCode) : string :=
  match errorCode with
  | Symbolic name => name
  | Numeric code => Js.numeral code
  end.

(** [errorMap] is an object literal: a lookup that finds no own property
    goes on to [Object.prototype]. These are the properties that
    ECMAScript defines there, the accessors of its Annex B included; their
    values are functions, and the prototype object itself for
    [__proto__], so all of them are truthy. *)
Definition Object_prototype : list string :=
  [ "constructor"; "hasOwnProperty"; "isPrototypeOf"; "propertyIsEnumerable";
    "toLocaleString"; "toString"; "valueOf"; "__proto__";
    "__defineGetter__"; "__defineSetter__"; "__lookupGetter__"; "__lookupSetter__" ].

(** A value that [abort] hands to [cancelInterception]: an error number,
    or the member of [Object.prototype] found under a name. *)
Inductive ErrorValue :=
| Code (error : N)
| Inherited (name : string).

Coercion Code : N >-> ErrorValue.

(** [errorMap[errorCode] || Cr.NS_ERROR_FAILURE]. *)
Definition abort_error (errorCode : ErrorCode) : ErrorValue :=
  match JsMap.get errorMap (property_key errorCode) with
  | Some error => if (error =? 0)%N then Cr.NS_ERROR_FAILURE else error
  | None =>
      if existsb (String.eqb (property_key errorCode)) Object_prototype
      then Inherited (property_key errorCode)
      else Cr.NS_ERROR_FAILURE
  end.

Module Resumed.
Record t := mk {
  method : option string;
  headers : option (list Header);
  postData : option string
}.
End Resumed.

(** The result of [responseHead]. *)
Module Head.
Record t := mk {
  status : Z;
  statusText : string;
  headers : list Header
}.
End Head.

(** [Object.assign({ body }, response)] of [interceptResponse]. *)
Module Intercepted.
Record t := mk {
  body : string;
  status : Z;
  statusText : string;
  headers : list Header
}.
End Intercepted.

(** [notificationCallbacks] found on the channel: whether they are an
    [nsINetworkInterceptController], and what that controller answers. *)
Record Callbacks := {
  isInterceptController : bool;
  controllerPrepares : bool
}.

Record NetworkRequest := {
  httpChannel : nat;
  requestId : string;
  navigationId : option string;
  redirectedFromId : option string;
  _redirectedIndex : N;
  _frameId : option string;
  _pageNetwork : option nat;
  _expectingInterception : bool;
  _expectingResumedRequest : option Resumed.t;
  _sentOnResponse : bool;
  _interceptedChannel : option nat;
  _responseInterceptor : option nat;
  _responseBodyChunks : option (list string);
  _originalListener : nat;
  _previousCallbacks : option Callbacks
}.

Record ResponseInterceptor := {
  _originalRequest : nat;
  _finalRequest : nat;
  _responseChannel : option nat;
  _interceptedResponse : option Intercepted.t
}.

Record PageNetwork := {
  _target : nat;
  _extraHTTPHeaders : option (list Header);
  _responseStorage : ResponseStorage;
  _requestInterceptionEnabled : bool;
  _interceptedRequests : list (string * nat)
}.

(** [target.browserContext()]. *)
Record BrowserContext := {
  requestInterceptionEnabled : bool;
  onlineOverride : option string;
  extraHTTPHeaders : option (list Header)
}.

Module Events.
(** Payloads of [PageNetwork.Events]. What is only copied from the channel
    (request headers, method, post data, cause, timing, security details,
    remote address, transfer sizes, protocol version) is left out;
    [errorCode] is the status code that [helper.getNetworkErrorStatusText]
    turns into a name. *)
Inductive t :=
| Request (url : string) (frameId : option string) (isIntercepted : bool)
    (requestId : string) (redirectedFrom : option string)
    (navigationId : option string)
| Response (requestId : string) (fromCache : bool) (headers : list Header)
    (status : Z) (statusText : string)
| RequestFinished (requestId : string)
| RequestFailed (requestId : string) (errorCode : N).
End Events.

(** Calls on browser objects, logged in order. The browser is taken to
    carry them out without throwing. *)
Inductive Call :=
| resetInterceptionWithURI (intercepted : nat) (uri : option string)
| cancelInterception (intercepted : nat) (error : ErrorValue)
| synthesizeStatus (intercepted : nat) (status : option Z) (statusText : option string)
| synthesizeHeader (intercepted : nat) (name value : string)
| setCookieStringFromHttp (uri value : string) (channel : nat)
| startSynthesizedResponse (intercepted : nat) (body : string)
| finishSynthesizedResponse (intercepted : nat)
| setRequestHeader (channel : nat) (name value : string)
| setRequestMethod (channel : nat) (method : string)
| explicitSetUploadStream (channel : nat) (body contentType : string)
| setNewListener (channel listener : nat)
| setNotificationCallbacks (channel callbacks : nat)
| fallThroughChannelIntercepted (intercepted : nat)
| listenerOnStartRequest (listener channel : nat)
| listenerOnDataAvailable (listener channel : nat) (data : string)
| listenerOnStopRequest (listener channel : nat) (status : N)
| convertString (s source dest : string).

Record World := {
  (* browser state *)
  channel : nat -> HttpChannel;
  channelListener : nat -> nat;
  channelCallbacks : nat -> option Callbacks;
  browserContext : nat -> BrowserContext;
  (* heaps *)
  next : nat;
  requests : gmap nat NetworkRequest;
  interceptors : gmap nat ResponseInterceptor;
  pageNetworks : gmap nat PageNetwork;
  (* NetworkObserver *)
  _channelToRequest : gmap nat nat;
  _expectedRedirect : list (string * nat);
  _responseInterceptionChannels : list nat;
  (* logs *)
  emitted : list (nat * Events.t);
  calls : list Call
}.

Definition with_next (f : nat -> nat) (w : World) : World :=
  {| channel := channel w; channelListener := channelListener w;
     channelCallbacks := channelCallbacks w; browserContext := browserContext w;
     next := f (next w); requests := requests w; interceptors := interceptors w;
     pageNetworks := pageNetworks w; _channelToRequest := _channelToRequest w;
     _expectedRedirect := _expectedRedirect w;
     _responseInterceptionChannels := _responseInterceptionChannels w;
     emitted := emitted w; calls := calls w |}.

Definition with_requests (f : gmap nat NetworkRequest -> gmap nat NetworkRequest)
    (w : World) : World :=
  {| channel := channel w; channelListener := channelListener w;
     channelCallbacks := channelCallbacks w; browserContext := browserContext w;
     next := next w; requests := f (requests w); interceptors := interceptors w;
     pageNetworks := pageNetworks w; _channelToRequest := _channelToRequest w;
     _expectedRedirect := _expectedRedirect w;
     _responseInterceptionChannels := _responseInterceptionChannels w;
     emitted := emitted w; calls := calls w |}.

Definition with_interceptors
    (f : gmap nat ResponseInterceptor -> gmap nat ResponseInterceptor)
    (w : World) : World :=
  {| channel := channel w; channelListener := channelListener w;
     channelCallbacks := channelCallbacks w; browserContext := browserContext w;
     next := next w; requests := requests w; interceptors := f (interceptors w);
     pageNetworks := pageNetworks w; _channelToRequest := _channelToRequest w;
     _expectedRedirect := _expectedRedirect w;
     _responseInterceptionChannels := _responseInterceptionChannels w;
     emitted := emitted w; calls := calls w |}.

Definition with_pageNetworks (f : gmap nat PageNetwork -> gmap nat PageNetwork)
    (w : World) : World :=
  {| channel := channel w; channelListener := channelListener w;
     channelCallbacks := channelCallbacks w; browserContext := browserContext w;
     next := next w; requests := requests w; interceptors := interceptors w;
     pageNetworks := f (pageNetworks w); _channelToRequest := _channelToRequest w;
     _expectedRedirect := _expectedRedirect w;
     _responseInterceptionChannels := _responseInterceptionChannels w;
     emitted := emitted w; calls := calls w |}.

Definition with_channelToRequest (f : gmap nat nat -> gmap nat nat) (w : World) : World :=
  {| channel := channel w; channelListener := channelListener w;
     channelCallbacks := channelCallbacks w; browserContext := browserContext w;
     next := next w; requests := requests w; interceptors := interceptors w;
     pageNetworks := pageNetworks w; _channelToRequest := f (_channelToRequest w);
     _expectedRedirect := _expectedRedirect w;
     _responseInterceptionChannels := _responseInterceptionChannels w;
     emitted := emitted w; calls := calls w |}.

Definition with_expectedRedirect
    (f : list (string * nat) -> list (string * nat)) (w : World) : World :=
  {| channel := channel w; channelListener := channelListener w;
     channelCallbacks := channelCallbacks w; browserContext := browserContext w;
     next := next w; requests := requests w; interceptors := interceptors w;
     pageNetworks := pageNetworks w; _channelToRequest := _channelToRequest w;
     _expectedRedirect := f (_expectedRedirect w);
     _responseInterceptionChannels := _responseInterceptionChannels w;
     emitted := emitted w; calls := calls w |}.

Definition with_responseInterceptionChannels (f : list nat -> list nat)
    (w : World) : World :=
  {| channel := channel w; channelListener := channelListener w;
     channelCallbacks := channelCallbacks w; browserContext := browserContext w;
     next := next w; requests := requests w; interceptors := interceptors w;
     pageNetworks := pageNetworks w; _channelToRequest := _channelToRequest w;
     _expectedRedirect := _expectedRedirect w;
     _responseInterceptionChannels := f (_responseInterceptionChannels w);
     emitted := emitted w; calls := calls w |}.

Definition with_emitted (f : list (nat * Events.t) -> list (nat * Events.t))
    (w : World) : World :=
  {| channel := channel w; channelListener := channelListener w;
     channelCallbacks := channelCallbacks w; browserContext := browserContext w;
     next := next w; requests := requests w; interceptors := interceptors w;
     pageNetworks := pageNetworks w; _channelToRequest := _channelToRequest w;
     _expectedRedirect := _expectedRedirect w;
     _responseInterceptionChannels := _responseInterceptionChannels w;
     emitted := f (emitted w); calls := calls w |}.

Definition with_calls (f : list Call -> list Call) (w : World) : World :=
  {| channel := channel w; channelListener := channelListener w;
     channelCallbacks := channelCallbacks w; browserContext := browserContext w;
     next := next w; requests := requests w; interceptors := interceptors w;
     pageNetworks := pageNetworks w; _channelToRequest := _channelToRequest w;
     _expectedRedirect := _expectedRedirect w;
     _responseInterceptionChannels := _responseInterceptionChannels w;
     emitted := emitted w; calls := f (calls w) |}.

(** Field assignments on a [NetworkRequest]. *)

Definition set_httpChannel (v : nat) (r : NetworkRequest) : NetworkRequest :=
  {| httpChannel := v; requestId := requestId r; navigationId := navigationId r;
     redirectedFromId := redirectedFromId r; _redirectedIndex := _redirectedIndex r;
     _frameId := _frameId r; _pageNetwork := _pageNetwork r;
     _expectingInterception := _expectingInterception r;
     _expectingResumedRequest := _expectingResumedRequest r;
     _sentOnResponse := _sentOnResponse r; _interceptedChannel := _interceptedChannel r;
     _responseInterceptor := _responseInterceptor r;
     _responseBodyChunks := _responseBodyChunks r;
     _originalListener := _originalListener r; _previousCallbacks := _previousCallbacks r |}.

Definition set_expectingInterception (v : bool) (r : NetworkRequest) : NetworkRequest :=
  {| httpChannel := httpChannel r; requestId := requestId r; navigationId := navigationId r;
     redirectedFromId := redirectedFromId r; _redirectedIndex := _redirectedIndex r;
     _frameId := _frameId r; _pageNetwork := _pageNetwork r;
     _expectingInterception := v;
     _expectingResumedRequest := _expectingResumedRequest r;
     _sentOnResponse := _sentOnResponse r; _interceptedChannel := _interceptedChannel r;
     _responseInterceptor := _responseInterceptor r;
     _responseBodyChunks := _responseBodyChunks r;
     _originalListener := _originalListener r; _previousCallbacks := _previousCallbacks r |}.

Definition set_expectingResumedRequest (v : option Resumed.t) (r : NetworkRequest)
  : NetworkRequest :=
  {| httpChannel := httpChannel r; requestId := requestId r; navigationId := navigationId r;
     redirectedFromId := redirectedFromId r; _redirectedIndex := _redirectedIndex r;
     _frameId := _frameId r; _pageNetwork := _pageNetwork r;
     _expectingInterception := _expectingInterception r;
     _expectingResumedRequest := v;
     _sentOnResponse := _sentOnResponse r; _interceptedChannel := _interceptedChannel r;
     _responseInterceptor := _responseInterceptor r;
     _responseBodyChunks := _responseBodyChunks r;
     _originalListener := _originalListener r; _previousCallbacks := _previousCallbacks r |}.

Definition set_sentOnResponse (v : bool) (r : NetworkRequest) : NetworkRequest :=
  {| httpChannel := httpChannel r; requestId := requestId r; navigationId := navigationId r;
     redirectedFromId := redirectedFromId r; _redirectedIndex := _redirectedIndex r;
     _frameId := _frameId r; _pageNetwork := _pageNetwork r;
     _expectingInterception := _expectingInterception r;
     _expectingResumedRequest := _expectingResumedRequest r;
     _sentOnResponse := v; _interceptedChannel := _interceptedChannel r;
     _responseInterceptor := _responseInterceptor r;
     _responseBodyChunks := _responseBodyChunks r;
     _originalListener := _originalListener r; _previousCallbacks := _previousCallbacks r |}.

Definition set_interceptedChannel (v : option nat) (r : NetworkRequest) : NetworkRequest :=
  {| httpChannel := httpChannel r; requestId := requestId r; navigationId := navigationId r;
     redirectedFromId := redirectedFromId r; _redirectedIndex := _redirectedIndex r;
     _frameId := _frameId r; _pageNetwork := _pageNetwork r;
     _expectingInterception := _expectingInterception r;
     _expectingResumedRequest := _expectingResumedRequest r;
     _sentOnResponse := _sentOnResponse r; _interceptedChannel := v;
     _responseInterceptor := _responseInterceptor r;
     _responseBodyChunks := _responseBodyChunks r;
     _originalListener := _originalListener r; _previousCallbacks := _previousCallbacks r |}.

Definition set_responseInterceptor (v : option nat) (r : NetworkRequest) : NetworkRequest :=
  {| httpChannel := httpChannel r; requestId := requestId r; navigationId := navigationId r;
     redirectedFromId := redirectedFromId r; _redirectedIndex := _redirectedIndex r;
     _frameId := _frameId r; _pageNetwork := _pageNetwork r;
     _expectingInterception := _expectingInterception r;
     _expectingResumedRequest := _expectingResumedRequest r;
     _sentOnResponse := _sentOnResponse r; _interceptedChannel := _interceptedChannel r;
     _responseInterceptor := v;
     _responseBodyChunks := _responseBodyChunks r;
     _originalListener := _originalListener r; _previousCallbacks := _previousCallbacks r |}.

Definition set_responseBodyChunks (v : option (list string)) (r : NetworkRequest)
  : NetworkRequest :=
  {| httpChannel := httpChannel r; requestId := requestId r; navigationId := navigationId r;
     redirectedFromId := redirectedFromId r; _redirectedIndex := _redirectedIndex r;
     _frameId := _frameId r; _pageNetwork := _pageNetwork r;
     _expectingInterception := _expectingInterception r;
     _expectingResumedRequest := _expectingResumedRequest r;
     _sentOnResponse := _sentOnResponse r; _interceptedChannel := _interceptedChannel r;
     _responseInterceptor := _responseInterceptor r;
     _responseBodyChunks := v;
     _originalListener := _originalListener r; _previousCallbacks := _previousCallbacks r |}.

(** Field assignments on a [PageNetwork] and a [ResponseInterceptor]. *)

Definition set_extraHTTPHeaders (v : option (list Header)) (p : PageNetwork) : PageNetwork :=
  {| _target := _target p; _extraHTTPHeaders := v;
     _responseStorage := _responseStorage p;
     _requestInterceptionEnabled := _requestInterceptionEnabled p;
     _interceptedRequests := _interceptedRequests p |}.

Definition set_responseStorage (v : ResponseStorage) (p : PageNetwork) : PageNetwork :=
  {| _target := _target p; _extraHTTPHeaders := _extraHTTPHeaders p;
     _responseStorage := v;
     _requestInterceptionEnabled := _requestInterceptionEnabled p;
     _interceptedRequests := _interceptedRequests p |}.

Definition set_requestInterceptionEnabled (v : bool) (p : PageNetwork) : PageNetwork :=
  {| _target := _target p; _extraHTTPHeaders := _extraHTTPHeaders p;
     _responseStorage := _responseStorage p;
     _requestInterceptionEnabled := v;
     _interceptedRequests := _interceptedRequests p |}.

Definition set_interceptedRequests (v : list (string * nat)) (p : PageNetwork) : PageNetwork :=
  {| _target := _target p; _extraHTTPHeaders := _extraHTTPHeaders p;
     _responseStorage := _responseStorage p;
     _requestInterceptionEnabled := _requestInterceptionEnabled p;
     _interceptedRequests := v |}.

Definition set_finalRequest (v : nat) (i : ResponseInterceptor) : ResponseInterceptor :=
  {| _originalRequest := _originalRequest i; _finalRequest := v;
     _responseChannel := _responseChannel i;
     _interceptedResponse := _interceptedResponse i |}.

Definition set_responseChannel (v : option nat) (i : ResponseInterceptor)
  : ResponseInterceptor :=
  {| _originalRequest := _originalRequest i; _finalRequest := _finalRequest i;
     _responseChannel := v;
     _interceptedResponse := _interceptedResponse i |}.

Definition set_interceptedResponse (v : option Intercepted.t) (i : ResponseInterceptor)
  : ResponseInterceptor :=
  {| _originalRequest := _originalRequest i; _finalRequest := _finalRequest i;
     _responseChannel := _responseChannel i;
     _interceptedResponse := v |}.

(** ** Computations: state passing with exceptions

    A thrown exception keeps the state reached so far, as in JavaScript. *)

Definition M (A : Type) : Type := World -> Result A * World.

Definition ret {A : Type} (a : A) : M A := fun w => (Ok a, w).

Definition throw {A : Type} (e : Exn) : M A := fun w => (Throw e, w).

Definition bind {A B : Type} (c : M A) (k : A -> M B) : M B :=
  fun w =>
    match c w with
    | (Ok a, w') => k a w'
    | (Throw e, w') => (Throw e, w')
    end.

(** [try { c } catch (e) { }]. *)
Definition try_ignore (c : M unit) : M unit :=
  fun w =>
    match c w with
    | (Ok a, w') => (Ok a, w')
    | (Throw _, w') => (Ok tt, w')
    end.

Definition read {A : Type} (f : World -> A) : M A := fun w => (Ok (f w), w).

Definition modify (f : World -> World) : M unit := fun w => (Ok tt, f w).

Notation "'let*' x ':=' c 'in' k" := (bind c (fun x => k))
  (at level 10, x name, c at level 99, k at level 200).
Notation "c ;; k" := (bind c (fun _ => k))
  (at level 100, k at level 200, right associativity).

(** [for (const x of l) body(x)]. *)
Fixpoint for_of {A : Type} (l : list A) (body : A -> M unit) : M unit :=
  match l with
  | [] => ret tt
  | x :: l' => body x ;; for_of l' body
  end.

(** Dereferencing. A reference held by the source always names a live
    object; the exception stands for the impossible case. *)
Definition dangling : Exn := TypeError "dangling reference".

Definition the_request (r : nat) : M NetworkRequest :=
  fun w =>
    match requests w !! r with
    | Some x => (Ok x, w)
    | None => (Throw dangling, w)
    end.

Definition the_interceptor (i : nat) : M ResponseInterceptor :=
  fun w =>
    match interceptors w !! i with
    | Some x => (Ok x, w)
    | None => (Throw dangling, w)
    end.

Definition the_pageNetwork (p : nat) : M PageNetwork :=
  fun w =>
    match pageNetworks w !! p with
    | Some x => (Ok x, w)
    | None => (Throw dangling, w)
    end.

Definition update_request (r : nat) (f : NetworkRequest -> NetworkRequest) : M unit :=
  let* x := the_request r in
  modify (with_requests (insert r (f x))).

Definition update_interceptor (i : nat) (f : ResponseInterceptor -> ResponseInterceptor)
  : M unit :=
  let* x := the_interceptor i in
  modify (with_interceptors (insert i (f x))).

Definition update_pageNetwork (p : nat) (f : PageNetwork -> PageNetwork) : M unit :=
  let* x := the_pageNetwork p in
  modify (with_pageNetworks (insert p (f x))).

(** Using a value that may be [null] or [undefined] as an object. *)
Definition non_null {A : Type} (o : option A) : M A :=
  match o with
  | Some x => ret x
  | None => throw (TypeError "value is null or undefined")
  end.

(** [pageNetwork.emit(event, payload)]. *)
Definition emit (pageNetwork : nat) (e : Events.t) : M unit :=
  modify (with_emitted (fun l => l ++ [(pageNetwork, e)])).

Definition call (c : Call) : M unit :=
  modify (with_calls (fun l => l ++ [c])).

(** ** NetworkRequest: emitting events *)

Definition responseHead (httpChannel : HttpChannel) (opt_statusCode : option Z)
    (opt_statusText : option string) : Head.t :=
  match responseStatus httpChannel with
  | Some status =>
      Head.mk status (responseStatusText httpChannel) (responseHeaders httpChannel)
  | None =>
      (* Response headers, status and statusText are not available. *)
      Head.mk (default 0 (Js.or_number opt_statusCode 0))
        (default EmptyString (Js.or_string opt_statusText EmptyString)) []
  end.

Definition _sendOnRequest (this : nat) (isIntercepted : bool) : M unit :=
  let* r := the_request this in
  match _pageNetwork r with
  | None => ret tt
  | Some pageNetwork =>
      let* ch := read (fun w => channel w (httpChannel r)) in
      emit pageNetwork
        (Events.Request (URI ch) (_frameId r) isIntercepted (requestId r)
           (redirectedFromId r) (navigationId r))
  end.

Definition _sendOnResponseImpl (this : nat) (httpChannel : nat) (fromCache : bool)
    (opt_statusCode : option Z) (opt_statusText : option string) : M unit :=
  let* r := the_request this in
  if _sentOnResponse r then
    (* We can come here twice because of internal redirects. *)
    ret tt
  else
    update_request this (set_sentOnResponse true) ;;
    match _pageNetwork r with
    | None => ret tt
    | Some pageNetwork =>
        let* ch := read (fun w => channel w httpChannel) in
        let head := responseHead ch opt_statusCode opt_statusText in
        emit pageNetwork
          (Events.Response (requestId r) fromCache (Head.headers head)
             (Head.status head) (Head.statusText head))
    end.

Definition _sendOnRequestFailedImpl (this : nat) (error : N) : M unit :=
  let* r := the_request this in
  match _pageNetwork r with
  | Some pageNetwork => emit pageNetwork (Events.RequestFailed (requestId r) error)
  | None => ret tt
  end ;;
  modify (with_channelToRequest (delete (httpChannel r))).

Definition _sendOnRequestFinishedImpl (this : nat) (httpChannel : nat) : M unit :=
  let* r := the_request this in
  match _pageNetwork r with
  | Some pageNetwork => emit pageNetwork (Events.RequestFinished (requestId r))
  | None => ret tt
  end ;;
  modify (with_channelToRequest (delete httpChannel)).

(** ** ResponseInterceptor *)

(** [new ResponseInterceptor(request)]. *)
Definition new_ResponseInterceptor (request : nat) : M nat :=
  let* r := the_request request in
  match _responseInterceptor r with
  | Some _ => throw (Error "Already intercepting response for this request")
  | None =>
      let* this := read next in
      modify (with_next S) ;;
      modify (with_interceptors (insert this
        {| _originalRequest := request; _finalRequest := request;
           _responseChannel := None; _interceptedResponse := None |})) ;;
      update_request request (set_responseInterceptor (Some this)) ;;
      ret this
  end.

Definition isInterceptedRequest (this : nat) (request : nat) : M bool :=
  let* i := the_interceptor this in
  ret (Nat.eqb (_originalRequest i) request).

(** Reading the status of a channel without a response throws. *)
Definition _isRedirectResponse (httpChannel : nat) : M bool :=
  let* ch := read (fun w => channel w httpChannel) in
  match responseStatus ch with
  | None => throw (Exception Cr.NS_ERROR_NOT_AVAILABLE)
  | Some status => ret ((300 <=? status) && (status <? 400))
  end.

Definition interceptOnResponse (this : nat) (request : nat) (fromCache : bool)
    (opt_statusCode : option Z) (opt_statusText : option string) : M unit :=
  let* i := the_interceptor this in
  match _interceptedResponse i with
  | Some _ =>
      let* original := the_request (_originalRequest i) in
      _sendOnResponseImpl (_finalRequest i) (httpChannel original) fromCache
        opt_statusCode opt_statusText
  | None =>
      (* When fetching the original response the first redirect is reported
         using the original request id but with data received via the
         alternative response channel. *)
      let* r := the_request request in
      let* httpChannel :=
        non_null (if Nat.eqb (_originalRequest i) request then _responseChannel i
                  else Some (httpChannel r)) in
      let* redirect := _isRedirectResponse httpChannel in
      if redirect then
        _sendOnResponseImpl request httpChannel fromCache opt_statusCode opt_statusText
      else
        (* Drop non-redirect response on the floor, it will be fulfilled later. *)
        ret tt
  end.

Definition interceptOnRequestFinished (this : nat) (request : nat) : M unit :=
  let* i := the_interceptor this in
  match _interceptedResponse i with
  | Some _ =>
      let* original := the_request (_originalRequest i) in
      _sendOnRequestFinishedImpl (_finalRequest i) (httpChannel original)
  | None =>
      let* r := the_request request in
      let* httpChannel :=
        non_null (if Nat.eqb (_originalRequest i) request then _responseChannel i
                  else Some (httpChannel r)) in
      let* redirect := _isRedirectResponse httpChannel in
      if redirect then
        _sendOnRequestFinishedImpl request httpChannel
      else
        ret tt
  end.

Definition interceptOnRequestFailed (this : nat) (error : N) : M unit :=
  let* i := the_interceptor this in
  _sendOnRequestFailedImpl (_finalRequest i) error.

(** [pageNetwork._responseStorage.addResponseBody(key, httpChannel, body)]. *)
Definition storeResponseBody (pageNetwork : nat) (key : nat) (httpChannel : nat)
    (body : string) : M unit :=
  let* k := the_request key in
  let* ch := read (fun w => channel w httpChannel) in
  update_pageNetwork pageNetwork (fun p =>
    set_responseStorage (addResponseBody (_responseStorage p) (requestId k) ch body) p).

Definition interceptAddResponseBody (this : nat) (request : nat) (body : string) : M unit :=
  let* i := the_interceptor this in
  let key :=
    match _interceptedResponse i with
    | Some _ => _finalRequest i
    | None => request
    end in
  let* r := the_request request in
  match _pageNetwork r with
  | None => throw (TypeError "request._pageNetwork is undefined")
  | Some pageNetwork => storeResponseBody pageNetwork key (httpChannel r) body
  end.

(** ** NetworkRequest: dispatch of the events *)

Definition _sendOnResponse (this : nat) (fromCache : bool)
    (opt_statusCode : option Z) (opt_statusText : option string) : M unit :=
  let* r := the_request this in
  match _responseInterceptor r with
  | Some interceptor =>
      interceptOnResponse interceptor this fromCache opt_statusCode opt_statusText
  | None =>
      _sendOnResponseImpl this (httpChannel r) fromCache opt_statusCode opt_statusText
  end.

Definition _sendOnRequestFailed (this : nat) (error : N) : M unit :=
  let* r := the_request this in
  match _responseInterceptor r with
  | Some interceptor => interceptOnRequestFailed interceptor error
  | None => _sendOnRequestFailedImpl this error
  end.

Definition _sendOnRequestFinished (this : nat) : M unit :=
  let* r := the_request this in
  match _responseInterceptor r with
  | Some interceptor => interceptOnRequestFinished interceptor this
  | None => _sendOnRequestFinishedImpl this (httpChannel r)
  end.

(** ** NetworkRequest: public interception API *)

Definition resume (this : nat) (url method : option string)
    (headers : option (list Header)) (postData : option string) : M unit :=
  update_request this (set_expectingResumedRequest
    (Some (Resumed.mk method headers postData))) ;;
  let newUri :=
    match url with
    | Some u => if Js.nonempty u then Some u else None
    | None => None
    end in
  let* r := the_request this in
  let* intercepted := non_null (_interceptedChannel r) in
  call (resetInterceptionWithURI intercepted newUri) ;;
  update_request this (set_interceptedChannel None).

Definition _failWithErrorCode (this : nat) (error : ErrorValue) : M unit :=
  let* r := the_request this in
  let* intercepted := non_null (_interceptedChannel r) in
  call (cancelInterception intercepted error) ;;
  update_request this (set_interceptedChannel None).

Definition abort (this : nat) (errorCode : ErrorCode) : M unit :=
  let error := abort_error errorCode in
  _failWithErrorCode this error.

(** The body of [for (const header of headers)] in [fulfill]. *)
Definition synthesize_header (intercepted : nat) (uri : string) (httpChannel : nat)
    (header : Header) : M unit :=
  call (synthesizeHeader intercepted (name header) (value header)) ;;
  if String.eqb (Js.toLowerCase (name header)) "set-cookie" then
    call (setCookieStringFromHttp uri (value header) httpChannel)
  else ret tt.

(** [base64body ? atob(base64body) : ''], [None] when [atob] throws. *)
Definition decode_base64body (base64body : option string) : option string :=
  match base64body with
  | Some b => if Js.nonempty b then Js.atob b else Some EmptyString
  | None => Some EmptyString
  end.

Definition fulfill (this : nat) (status : option Z) (statusText : option string)
    (headers : option (list Header)) (base64body : option string) : M unit :=
  let* body :=
    match decode_base64body base64body with
    | Some body => ret body
    | None => throw InvalidCharacterError
    end in
  let* r := the_request this in
  let* originalResponse :=
    match _responseInterceptor r with
    | Some interceptor =>
        let* i := the_interceptor interceptor in ret (_interceptedResponse i)
    | None => ret None
    end in
  let '(status, statusText, headers) :=
    match originalResponse with
    | Some original =>
        (Js.or_number status (Intercepted.status original),
         Js.or_string statusText (Intercepted.statusText original),
         Js.or_array headers (Intercepted.headers original))
    | None => (status, statusText, headers)
    end in
  let* intercepted := non_null (_interceptedChannel r) in
  call (synthesizeStatus intercepted status statusText) ;;
  let* headers :=
    match headers with
    | Some l => ret l
    | None => throw (TypeError "headers is not iterable")
    end in
  let* ch := read (fun w => channel w (httpChannel r)) in
  for_of headers (synthesize_header intercepted (URI ch) (httpChannel r)) ;;
  call (startSynthesizedResponse intercepted body) ;;
  call (finishSynthesizedResponse intercepted) ;;
  update_request this (set_interceptedChannel None).

(** ** NetworkRequest: instrumentation called by the observer *)

Definition _onInternalRedirect (this : nat) (newChannel : nat) : M unit :=
  let* r := the_request this in
  modify (with_channelToRequest (delete (httpChannel r))) ;;
  update_request this (set_httpChannel newChannel) ;;
  modify (with_channelToRequest (insert newChannel this)).

(** [overriddenHeader] of [setPostData]. *)
Fixpoint overriddenHeader (headers : list Header) (lowerCaseName defaultValue : string)
  : string :=
  match headers with
  | [] => defaultValue
  | header :: rest =>
      if String.eqb (Js.toLowerCase (name header)) lowerCaseName then value header
      else overriddenHeader rest lowerCaseName defaultValue
  end.

(** [setPostData], on a channel that is an [nsIUploadChannel2]. *)
Definition setPostData (httpChannel : nat) (postData : string)
    (headers : option (list Header)) : M unit :=
  match Js.atob postData with
  | None => throw InvalidCharacterError
  | Some body =>
      let hs := default [] headers in
      call (setRequestHeader httpChannel "content-length"
              (overriddenHeader hs "content-length" EmptyString)) ;;
      call (explicitSetUploadStream httpChannel body
              (overriddenHeader hs "content-type" "application/octet-stream"))
  end.

Definition _onInternalRedirectReady (this : nat) : M unit :=
  let* r := the_request this in
  match _expectingResumedRequest r with
  | None => ret tt
  | Some resumed =>
      update_request this (set_expectingResumedRequest None) ;;
      match Resumed.headers resumed with
      | Some headers =>
          let* ch := read (fun w => channel w (httpChannel r)) in
          for_of (requestHeaders ch) (fun header =>
            call (setRequestHeader (httpChannel r) (name header) EmptyString)) ;;
          for_of headers (fun header =>
            call (setRequestHeader (httpChannel r) (name header) (value header)))
      | None => ret tt
      end ;;
      match Resumed.method resumed with
      | Some method =>
          if Js.nonempty method then call (setRequestMethod (httpChannel r) method)
          else ret tt
      | None => ret tt
      end ;;
      match Resumed.postData resumed with
      | Some postData =>
          if Js.nonempty postData
          then setPostData (httpChannel r) postData (Resumed.headers resumed)
          else ret tt
      | None => ret tt
      end
  end.

(** ** NetworkRequest: nsINetworkInterceptController *)

Definition _shouldIntercept (this : nat) : M bool :=
  let* r := the_request this in
  match _pageNetwork r with
  | None => ret false
  | Some pageNetwork =>
      let* p := the_pageNetwork pageNetwork in
      if _requestInterceptionEnabled p then ret true
      else
        let* browserContext := read (fun w => browserContext w (_target p)) in
        if requestInterceptionEnabled browserContext then ret true
        else if bool_decide (onlineOverride browserContext = Some "offline") then ret true
        else ret false
  end.

Definition _fallThroughInterceptController (r : NetworkRequest) : option Callbacks :=
  match _previousCallbacks r with
  | Some callbacks => if isInterceptController callbacks then Some callbacks else None
  | None => None
  end.

Definition shouldPrepareForIntercept (this : nat) (channel : nat) : M bool :=
  let* r := the_request this in
  let prepares :=
    match _fallThroughInterceptController r with
    | Some interceptController => controllerPrepares interceptController
    | None => false
    end in
  if prepares then
    (* We assume that interceptController is a service worker if there is
       one, and yield interception to it. *)
    _sendOnRequest this false ;;
    ret true
  else if negb (Nat.eqb channel (httpChannel r)) then
    (* Not our channel? Just in case this happens, don't do anything. *)
    ret false
  else if match redirectedFromId r with Some s => Js.nonempty s | None => false end then
    (* We do not want to intercept any redirects. *)
    ret false
  else
    let* shouldIntercept := _shouldIntercept this in
    if negb shouldIntercept then
      (* We are not intercepting - ready to issue onRequest. *)
      _sendOnRequest this false ;;
      ret false
    else
      update_request this (set_expectingInterception true) ;;
      ret true.

Definition channelIntercepted (this : nat) (intercepted : nat) : M unit :=
  let* r := the_request this in
  if negb (_expectingInterception r) then
    (* We are not intercepting, fall-through. *)
    match _fallThroughInterceptController r with
    | Some _ => call (fallThroughChannelIntercepted intercepted)
    | None => ret tt
    end
  else
    update_request this (set_expectingInterception false) ;;
    update_request this (set_interceptedChannel (Some intercepted)) ;;
    match _pageNetwork r with
    | None =>
        (* Just in case we disabled instrumentation while intercepting,
           resume and forget. *)
        resume this None None None None
    | Some pageNetwork =>
        let* p := the_pageNetwork pageNetwork in
        let* browserContext := read (fun w => browserContext w (_target p)) in
        if bool_decide (onlineOverride browserContext = Some "offline") then
          (* Implement offline. *)
          abort this (Numeric Cr.NS_ERROR_OFFLINE)
        else
          let* interceptionEnabled := _shouldIntercept this in
          _sendOnRequest this interceptionEnabled ;;
          if interceptionEnabled then
            update_pageNetwork pageNetwork (fun p =>
              set_interceptedRequests
                (JsMap.set (_interceptedRequests p) (requestId r) this) p)
          else
            resume this None None None None
    end.

(** ** NetworkRequest: nsIStreamListener *)

Definition onDataAvailable (this : nat) (aRequest : nat) (data : string) : M unit :=
  let* r := the_request this in
  if negb (Nat.eqb aRequest (httpChannel r)) then ret tt
  else
    (* For requests with internal redirect we do not get onResponse
       normally, but we do get nsIStreamListener notifications. *)
    _sendOnResponse this false None None ;;
    let* r := the_request this in
    let* chunks := non_null (_responseBodyChunks r) in
    update_request this (set_responseBodyChunks (Some (chunks ++ [data]))) ;;
    try_ignore (call (listenerOnDataAvailable (_originalListener r) aRequest data)).

Definition onStartRequest (this : nat) (aRequest : nat) : M unit :=
  let* r := the_request this in
  if negb (Nat.eqb aRequest (httpChannel r)) then ret tt
  else try_ignore (call (listenerOnStartRequest (_originalListener r) aRequest)).

Definition onStopRequest (this : nat) (aRequest : nat) (aStatusCode : N) : M unit :=
  let* r := the_request this in
  if negb (Nat.eqb aRequest (httpChannel r)) then ret tt
  else
    try_ignore (call (listenerOnStopRequest (_originalListener r) aRequest aStatusCode)) ;;
    (if (aStatusCode =? 0)%N then
       _sendOnResponse this false None None ;;
       let* r := the_request this in
       let* chunks := non_null (_responseBodyChunks r) in
       let body := Js.join chunks in
       match _pageNetwork r with
       | Some pageNetwork =>
           match _responseInterceptor r with
           | Some interceptor => interceptAddResponseBody interceptor this body
           | None => storeResponseBody pageNetwork this (httpChannel r) body
           end
       | None => ret tt
       end ;;
       _sendOnRequestFinished this
     else
       _sendOnRequestFailed this aStatusCode) ;;
    update_request this (set_responseBodyChunks None).

(** ** PageNetwork and NetworkObserver lookups *)

(** [new PageNetwork(target)], with the configured caps. *)
Definition MAX_RESPONSE_STORAGE_SIZE : Z := 100 * 1024 * 1024.

Definition new_PageNetwork (target : nat) : PageNetwork :=
  {| _target := target;
     _extraHTTPHeaders := None;
     _responseStorage :=
       new_ResponseStorage MAX_RESPONSE_STORAGE_SIZE (MAX_RESPONSE_STORAGE_SIZE / 10);
     _requestInterceptionEnabled := false;
     _interceptedRequests := [] |}.

(** [PageNetwork.forPageTarget(target)]: the page network of a target is
    kept under the target's reference. *)
Definition forPageTarget (target : nat) : M nat :=
  let* existing := read (fun w => pageNetworks w !! target) in
  match existing with
  | Some _ => ret target
  | None =>
      modify (with_pageNetworks (insert target (new_PageNetwork target))) ;;
      ret target
  end.

Definition _findPageNetwork (httpChannel : nat) : M (option nat) :=
  let* ch := read (fun w => channel w httpChannel) in
  match loadTarget ch with
  | None => ret None
  | Some target => let* p := forPageTarget target in ret (Some p)
  end.

Definition appendExtraHTTPHeaders (httpChannel : nat) (headers : option (list Header))
  : M unit :=
  match headers with
  | None => ret tt
  | Some l =>
      for_of l (fun header =>
        call (setRequestHeader httpChannel (name header) (value header)))
  end.

(** ** NetworkRequest: constructor *)

(** The identity that the constructor gives to an exchange:
    [requestId], [navigationId], [redirectedFromId] and [_redirectedIndex]. *)
Record Identity := {
  id_requestId : string;
  id_navigationId : option string;
  id_redirectedFromId : option string;
  id_redirectedIndex : N
}.

Definition identify (httpChannel : HttpChannel) (redirectedFrom : option NetworkRequest)
  : Identity :=
  let id := Js.numeral (channelId httpChannel) in
  match redirectedFrom with
  | None =>
      {| id_requestId := id;
         id_navigationId := if isMainDocumentChannel httpChannel then Some id else None;
         id_redirectedFromId := None;
         id_redirectedIndex := 0 |}
  | Some from =>
      let redirectedIndex := (_redirectedIndex from + 1)%N in
      {| id_requestId := (id ++ "-redirect" ++ Js.numeral redirectedIndex)%string;
         id_navigationId := navigationId from;
         id_redirectedFromId := Some (requestId from);
         id_redirectedIndex := redirectedIndex |}
  end.

(** [new NetworkRequest(networkObserver, httpChannel, redirectedFrom)]. *)
Definition new_NetworkRequest (httpChannel : nat) (redirectedFrom : option nat) : M nat :=
  let* this := read next in
  modify (with_next S) ;;
  modify (with_channelToRequest (insert httpChannel this)) ;;
  let* ch := read (fun w => channel w httpChannel) in
  let* from :=
    match redirectedFrom with
    | Some f => let* r := the_request f in ret (Some r)
    | None => ret None
    end in
  let identity := identify ch from in
  let* interceptor :=
    match redirectedFrom, from with
    | Some f, Some r =>
        (* Finish previous request now. *)
        _sendOnRequestFinished f ;;
        match _responseInterceptor r with
        | Some i => update_interceptor i (set_finalRequest this) ;; ret (Some i)
        | None => ret None
        end
    | _, _ => ret None
    end in
  let* pageNetwork :=
    match from with
    | Some r => ret (_pageNetwork r)
    | None => _findPageNetwork httpChannel
    end in
  match pageNetwork with
  | Some p =>
      let* pn := the_pageNetwork p in
      let* browserContext := read (fun w => browserContext w (_target pn)) in
      appendExtraHTTPHeaders httpChannel (extraHTTPHeaders browserContext) ;;
      appendExtraHTTPHeaders httpChannel (_extraHTTPHeaders pn)
  | None => ret tt
  end ;;
  let* previousListener := read (fun w => channelListener w httpChannel) in
  call (setNewListener httpChannel this) ;;
  (* When fetching the original response ResponseInterceptor creates a new
     channel with a custom listener; in that case the listener of the
     original request is not inherited. *)
  let* originalListener :=
    match redirectedFrom, from with
    | Some f, Some r =>
        let* intercepting :=
          match _responseInterceptor r with
          | Some i => isInterceptedRequest i f
          | None => ret false
          end in
        if negb intercepting then ret (_originalListener r) else ret previousListener
    | _, _ => ret previousListener
    end in
  let* previousCallbacks := read (fun w => channelCallbacks w httpChannel) in
  call (setNotificationCallbacks httpChannel this) ;;
  modify (with_requests (insert this
    {| httpChannel := httpChannel;
       requestId := id_requestId identity;
       navigationId := id_navigationId identity;
       redirectedFromId := id_redirectedFromId identity;
       _redirectedIndex := id_redirectedIndex identity;
       _frameId := frameId ch;
       _pageNetwork := pageNetwork;
       _expectingInterception := false;
       _expectingResumedRequest := None;
       _sentOnResponse := false;
       _interceptedChannel := None;
       _responseInterceptor := interceptor;
       _responseBodyChunks := Some [];
       _originalListener := originalListener;
       _previousCallbacks := previousCallbacks |})) ;;
  if match id_redirectedFromId identity with Some s => Js.nonempty s | None => false end
  then
    (* Redirects are not interceptable. *)
    _sendOnRequest this false ;; ret this
  else ret this.

(** ** NetworkObserver

    Every channel of the model is an [nsIHttpChannel]: the tests that skip
    other channels are left out. *)

Definition _expectRedirect (channelId : string) (previous : nat) : M unit :=
  modify (with_expectedRedirect (fun m => JsMap.set m channelId previous)).

Definition _onRedirect (oldChannel newChannel : nat) (flags : N) : M unit :=
  let* request := read (fun w => _channelToRequest w !! oldChannel) in
  if negb (N.land flags REDIRECT_INTERNAL =? 0)%N then
    match request with
    | Some r => _onInternalRedirect r newChannel
    | None => ret tt
    end
  else if negb (N.land flags REDIRECT_STS_UPGRADE =? 0)%N then
    match request with
    | Some r =>
        (* An internal HSTS upgrade: we forge a 307 redirect. *)
        _sendOnResponse r false (Some 307) (Some "Temporary Redirect") ;;
        let* ch := read (fun w => channel w newChannel) in
        _expectRedirect (Js.numeral (channelId ch)) r
    | None => ret tt
    end
  else
    match request with
    | Some r =>
        let* ch := read (fun w => channel w newChannel) in
        _expectRedirect (Js.numeral (channelId ch)) r
    | None => ret tt
    end.

Definition _onRequest (channel_ : nat) : M unit :=
  let* excluded := read (fun w => bool_decide (channel_ ∈ _responseInterceptionChannels w)) in
  if excluded then ret tt
  else
    let* ch := read (fun w => channel w channel_) in
    let channelId := Js.numeral (channelId ch) in
    let* redirectedFrom := read (fun w => JsMap.get (_expectedRedirect w) channelId) in
    match redirectedFrom with
    | Some from =>
        modify (with_expectedRedirect (fun m => JsMap.delete m channelId)) ;;
        let* _ := new_NetworkRequest channel_ (Some from) in ret tt
    | None =>
        let* redirectedRequest := read (fun w => _channelToRequest w !! channel_) in
        match redirectedRequest with
        | Some r => _onInternalRedirectReady r
        | None => let* _ := new_NetworkRequest channel_ None in ret tt
        end
    end.

Definition _onResponse (fromCache : bool) (httpChannel : nat) : M unit :=
  let* request := read (fun w => _channelToRequest w !! httpChannel) in
  match request with
  | Some r => _sendOnResponse r fromCache None None
  | None => ret tt
  end.

(** [promptAuth], when credentials are available: the retried request will
    have the same id and is treated as a redirect of this one. *)
Definition promptAuth_expect (this : nat) : M unit :=
  let* r := the_request this in
  let* ch := read (fun w => channel w (httpChannel r)) in
  _expectRedirect (Js.numeral (channelId ch)) this.

(** ** PageNetwork *)

Definition setExtraHTTPHeaders (this : nat) (headers : option (list Header)) : M unit :=
  update_pageNetwork this (set_extraHTTPHeaders headers).

Definition enableRequestInterception (this : nat) : M unit :=
  update_pageNetwork this (set_requestInterceptionEnabled true).

Definition disableRequestInterception (this : nat) : M unit :=
  update_pageNetwork this (set_requestInterceptionEnabled false) ;;
  let* p := the_pageNetwork this in
  for_of (JsMap.values (_interceptedRequests p)) (fun intercepted =>
    resume intercepted None None None None) ;;
  update_pageNetwork this (set_interceptedRequests []).

Definition cannot_find (requestId : string) : Exn :=
  Error ("Cannot find request " ++ Js.dquote ++ requestId ++ Js.dquote)%string.

Definition _takeIntercepted (this : nat) (requestId : string) : M nat :=
  let* p := the_pageNetwork this in
  match JsMap.get (_interceptedRequests p) requestId with
  | None => throw (cannot_find requestId)
  | Some intercepted =>
      update_pageNetwork this (fun p =>
        set_interceptedRequests (JsMap.delete (_interceptedRequests p) requestId) p) ;;
      ret intercepted
  end.

(** [resumeInterceptedRequest] without [interceptResponse]. *)
Definition resumeInterceptedRequest (this : nat) (requestId : string)
    (url method : option string) (headers : option (list Header))
    (postData : option string) : M unit :=
  let* intercepted := _takeIntercepted this requestId in
  resume intercepted url method headers postData.

Definition fulfillInterceptedRequest (this : nat) (requestId : string)
    (status : option Z) (statusText : option string) (headers : option (list Header))
    (base64body : option string) : M unit :=
  let* intercepted := _takeIntercepted this requestId in
  fulfill intercepted status statusText headers base64body.

Definition abortInterceptedRequest (this : nat) (requestId : string)
    (errorCode : ErrorCode) : M unit :=
  let* intercepted := _takeIntercepted this requestId in
  abort intercepted errorCode.

Section GetResponseBody.
Variable converter : string -> string -> string -> string.

Definition getResponseBody (this : nat) (requestId : string) : M Reply.t :=
  let* p := the_pageNetwork this in
  let '(conversions, outcome) :=
    getBase64EncodedResponse converter (_responseStorage p) requestId in
  for_of conversions (fun c =>
    call (convertString (conv_input c) (conv_source c) (conv_dest c))) ;;
  match outcome with
  | Ok reply => ret reply
  | Throw e => throw e
  end.

End GetResponseBody.

(** ** ResponseInterceptor: the substitute fetch

    [interceptResponse] suspends once, on the fetch of the substitute
    channel. The part before the suspension, the callback of the fetch and
    the two continuations are separate steps of the dispatch loop. The
    preparation of the substitute channel [newChannel] (uri, headers, upload
    stream, method) is the browser's; [_responseChannel] is set before the
    suspension, so it is not [null] in the continuations. *)

Definition interceptResponse_begin (this : nat) (newChannel : nat) : M unit :=
  let* i := the_interceptor this in
  update_interceptor this (set_responseChannel (Some newChannel)) ;;
  modify (with_responseInterceptionChannels (fun l => newChannel :: l)) ;;
  modify (with_channelToRequest (insert newChannel (_originalRequest i))).

Definition interceptResponse_fetched (this : nat) (newChannel : nat) : M unit :=
  modify (with_responseInterceptionChannels (filter (fun c => c ≠ newChannel))) ;;
  modify (with_channelToRequest (delete newChannel)).

(** The fetch failed with [error]. *)
Definition interceptResponse_rejected (this : nat) (error : N) : M unit :=
  let* i := the_interceptor this in
  let* original := the_request (_originalRequest i) in
  match _pageNetwork original with
  | Some pageNetwork =>
      update_pageNetwork pageNetwork (fun p =>
        set_interceptedRequests
          (JsMap.delete (_interceptedRequests p) (requestId original)) p)
  | None => ret tt
  end ;;
  _failWithErrorCode (_originalRequest i) error.

(** The fetch succeeded with [body]. *)
Definition interceptResponse_resolved (this : nat) (body : string) : M Head.t :=
  let* i := the_interceptor this in
  let* original := the_request (_originalRequest i) in
  let* final := the_request (_finalRequest i) in
  let* responseChannel :=
    if Nat.eqb (_finalRequest i) (_originalRequest i) then non_null (_responseChannel i)
    else ret (httpChannel final) in
  match _pageNetwork original with
  | Some pageNetwork => storeResponseBody pageNetwork (_finalRequest i) responseChannel body
  | None => ret tt
  end ;;
  let* ch := read (fun w => channel w responseChannel) in
  let response := responseHead ch None None in
  update_interceptor this (set_interceptedResponse
    (Some (Intercepted.mk body (Head.status response) (Head.statusText response)
             (Head.headers response)))) ;;
  ret response.

(** ** Vocabulary of the properties *)

(** Bytes held by the entries of a store, evicted or not. *)
Fixpoint body_bytes (responses : list (string * Stored.t)) : Z :=
  match responses with
  | [] => 0
  | (_, response) :: rest => Js.len (Stored.body response) + body_bytes rest
  end.

(** Bytes retained by the entries that are not evicted. *)
Fixpoint retained_bytes (responses : list (string * Stored.t)) : Z :=
  match responses with
  | [] => 0
  | (_, response) :: rest =>
      (if Stored.evicted response then 0 else Js.len (Stored.body response))
      + retained_bytes rest
  end.

(** The eviction loop body applied to a run of entries. *)
Definition evict_all (responses : list (string * Stored.t)) : list (string * Stored.t) :=
  map (fun '(requestId, response) => (requestId, evict response)) responses.

(** Stores built by the constructor and calls of [addResponseBody]. *)
Inductive reachable (maxTotalSize maxResponseSize : Z) : ResponseStorage -> Prop :=
| reachable_new : reachable maxTotalSize maxResponseSize
                    (new_ResponseStorage maxTotalSize maxResponseSize)
| reachable_add this requestId httpChannel body :
    reachable maxTotalSize maxResponseSize this ->
    reachable maxTotalSize maxResponseSize
      (addResponseBody this requestId httpChannel body).


(** What [getBase64EncodedResponse] answers for an evicted entry. *)
Definition evicted_reply : Reply.t := Reply.mk EmptyString true.

(** Undoing the recorded encodings one after the other, first recorded
    first. *)
Definition decoded (converter : string -> string -> string -> string)
    (encodings : list string) (body : string) : string :=
  fold_left (fun result encoding => converter result encoding "uncompressed")
    encodings body.

(** ** Transport encodings

    The original bytes of a response are its bytes before the server
    encoded them for transport. HTTP lists the content codings of a
    response in the order in which they were applied (RFC 9110, section
    8.4), and the spec keeps them as an ordered sequence, in the order they
    were applied. *)

Section Transport.

(** The encoder of a content coding on the side of the server:
    [encode coding bytes]. *)
Variable encode : string -> string -> string.




End Transport.


(** The upstream response that a response interceptor has fetched for an
    exchange, if any. *)
Inductive upstream (w : World) (r : NetworkRequest) : option Intercepted.t -> Prop :=
| upstream_no_interceptor :
    _responseInterceptor r = None -> upstream w r None
| upstream_interceptor i interceptor :
    _responseInterceptor r = Some i ->
    interceptors w !! i = Some interceptor ->
    upstream w r (_interceptedResponse interceptor).

(** The calls that [fulfill] makes for a list of headers. *)
Fixpoint header_calls (intercepted : nat) (uri : string) (httpChannel : nat)
    (headers : list Header) : list Call :=
  match headers with
  | [] => []
  | header :: rest =>
      synthesizeHeader intercepted (name header) (value header)
      :: (if String.eqb (Js.toLowerCase (name header)) "set-cookie"
          then [setCookieStringFromHttp uri (value header) httpChannel]
          else [])
      ++ header_calls intercepted uri httpChannel rest
  end.

(** Notifications that the browser delivers to one exchange: the response
    notifications of the observer ([_onResponse], and [_onRedirect] for an
    HSTS upgrade), the stream listener calls, and internal redirects. *)
Inductive Notification :=
| ResponseNotification (fromCache : bool) (opt_statusCode : option Z)
    (opt_statusText : option string)
| StartRequest (aRequest : nat)
| DataAvailable (aRequest : nat) (data : string)
| StopRequest (aRequest : nat) (aStatusCode : N)
| InternalRedirect (newChannel : nat)
| InternalRedirectReady.

Definition notify (this : nat) (n : Notification) : M unit :=
  match n with
  | ResponseNotification fromCache opt_statusCode opt_statusText =>
      _sendOnResponse this fromCache opt_statusCode opt_statusText
  | StartRequest aRequest => onStartRequest this aRequest
  | DataAvailable aRequest data => onDataAvailable this aRequest data
  | StopRequest aRequest aStatusCode => onStopRequest this aRequest aStatusCode
  | InternalRedirect newChannel => _onInternalRedirect this newChannel
  | InternalRedirectReady => _onInternalRedirectReady this
  end.

(** The dispatch loop: a handler that throws does not stop the delivery of
    the notifications that follow. *)
Definition dispatch (this : nat) (w : World) (n : Notification) : World :=
  snd (notify this n w).

Definition deliver (this : nat) (ns : list Notification) (w : World) : World :=
  fold_left (dispatch this) ns w.

(** The channel that an exchange bound to [c] is bound to after [ns]. *)
Fixpoint channel_after (c : nat) (ns : list Notification) : nat :=
  match ns with
  | [] => c
  | InternalRedirect newChannel :: rest => channel_after newChannel rest
  | _ :: rest => channel_after c rest
  end.

(** No [onStopRequest] in [ns] is for the channel that the exchange is bound
    to when it is delivered. *)
Fixpoint stop_free (c : nat) (ns : list Notification) : bool :=
  match ns with
  | [] => true
  | StopRequest aRequest _ :: rest => negb (Nat.eqb aRequest c) && stop_free c rest
  | InternalRedirect newChannel :: rest => stop_free newChannel rest
  | _ :: rest => stop_free c rest
  end.

Definition is_response (requestId : string) (e : Events.t) : Prop :=
  match e with
  | Events.Response id _ _ _ _ => id = requestId
  | _ => False
  end.



(** Worlds that differ at most in the log of browser calls. *)
Definition same_objects (w w' : World) : Prop :=
  requests w' = requests w /\ interceptors w' = interceptors w
  /\ pageNetworks w' = pageNetworks w /\ emitted w' = emitted w
  /\ _channelToRequest w' = _channelToRequest w /\ channel w' = channel w
  /\ browserContext w' = browserContext w.

Definition only_calls {A : Type} (c : M A) : Prop :=
  forall w, same_objects w (snd (c w)).



(** An exchange after [resume()] without arguments. *)
Definition passed_through (r : NetworkRequest) : NetworkRequest :=
  set_interceptedChannel None
    (set_expectingResumedRequest (Some (Resumed.mk None None None)) r).

(** The pass-through calls for the paused exchanges [l], in order. *)
Fixpoint pass_through_calls (w : World) (l : list nat) : list Call :=
  match l with
  | [] => []
  | r :: rest =>
      match requests w !! r with
      | Some req =>
          match _interceptedChannel req with
          | Some intercepted => [resetInterceptionWithURI intercepted None]
          | None => []
          end
      | None => []
      end ++ pass_through_calls w rest
  end.

(** Every exchange of [l] is paused on an intercepted channel, and no
    exchange occurs twice. *)
Definition all_paused (w : World) (l : list nat) : Prop :=
  NoDup l
  /\ forall r, r ∈ l ->
       exists req intercepted,
         requests w !! r = Some req /\ _interceptedChannel req = Some intercepted.

(** [r] carries the identity that the constructor computes from the state
    [ch] of its channel and from its predecessor. *)
Definition constructed (ch : HttpChannel) (from : option NetworkRequest)
    (r : NetworkRequest) : Prop :=
  requestId r = id_requestId (identify ch from)
  /\ navigationId r = id_navigationId (identify ch from)
  /\ redirectedFromId r = id_redirectedFromId (identify ch from)
  /\ _redirectedIndex r = id_redirectedIndex (identify ch from).

(** Each exchange of [rest] is constructed as a redirect of the one before
    it, the first of them as a redirect of [prev]. *)
Fixpoint follows (prev : NetworkRequest) (rest : list NetworkRequest) : Prop :=
  match rest with
  | [] => True
  | r :: rest' => (exists ch, constructed ch (Some prev) r) /\ follows r rest'
  end.

(** A redirect chain: [first] is constructed from channel state [ch0]
    without predecessor, and [rest] follows it. *)
Definition redirect_chain (ch0 : HttpChannel) (first : NetworkRequest)
    (rest : list NetworkRequest) : Prop :=
  constructed ch0 None first /\ follows first rest.

(** Looking [redirectedFromId] up among the exchanges of a chain. *)
Definition predecessor (chain : list NetworkRequest) (r : NetworkRequest)
  : option NetworkRequest :=
  match redirectedFromId r with
  | Some id => List.find (fun x => String.eqb (requestId x) id) chain
  | None => None
  end.

(** Following the back-references [n] times. *)
Fixpoint walk_back (chain : list NetworkRequest) (r : NetworkRequest) (n : nat)
  : option NetworkRequest :=
  match n with
  | O => Some r
  | S n' =>
      match predecessor chain r with
      | Some prev => walk_back chain prev n'
      | None => None
      end
  end.

Fixpoint digits_only (s : string) : Prop :=
  match s with
  | EmptyString => True
  | String c s' => c <> "-"%char /\ digits_only s'
  end.

(** The id of a redirect with ordinal [n] on a channel with id [c]. *)
Definition redirect_id (c n : N) : string :=
  (Js.numeral c ++ "-redirect" ++ Js.numeral n)%string.

(** Sentences of the specification that the code does not satisfy as they
    are written, for the counterexamples. *)

(** "All member exchanges share one navigationId that equals the first
    exchange's id." *)
Definition navigationId_is_first_id (first : NetworkRequest)
    (rest : list NetworkRequest) : Prop :=
  forall r, r ∈ first :: rest -> navigationId r = Some (requestId first).

(** "The operation fails with an exception before synthesizing anything." *)
Definition fails_before_synthesizing (c : M unit) (w : World) : Prop :=
  exists e w', c w = (Throw e, w') /\ calls w' = calls w.

(** ** Sample worlds for the examples *)

Module Sample.

Definition plainChannel (id : N) (main : bool) : HttpChannel :=
  {| channelId := id;
     isMainDocumentChannel := main;
     URI := "http://example.test/";
     requestMethod := "GET";
     requestHeaders := [];
     frameId := Some "frame-1";
     loadTarget := Some 1%nat;
     responseStatus := None;
     responseStatusText := EmptyString;
     responseHeaders := [];
     nsIEncodedChannel := false;
     contentEncodings := false;
     applyConversion := true;
     contentEncodingHeader := EmptyString |}.

(** A channel whose response is compressed twice and not converted by the
    browser. *)
Definition encodedChannel : HttpChannel :=
  {| channelId := 30;
     isMainDocumentChannel := false;
     URI := "http://example.test/data";
     requestMethod := "GET";
     requestHeaders := [];
     frameId := Some "frame-1";
     loadTarget := Some 1%nat;
     responseStatus := Some 200;
     responseStatusText := "OK";
     responseHeaders := [];
     nsIEncodedChannel := true;
     contentEncodings := true;
     applyConversion := false;
     contentEncodingHeader := "gzip, br" |}.





(** A converter that marks what it undoes, to make the order visible. *)
Definition marking (s source dest : string) : string :=
  (s ++ "<" ++ source ++ ">")%string.

Definition context (offline : bool) : BrowserContext :=
  {| requestInterceptionEnabled := false;
     onlineOverride := if offline then Some "offline" else None;
     extraHTTPHeaders := None |}.

(** A browser with channels [c] of channel id [c], channel 10 loading a
    main document, and no object of the observer yet. *)
Definition browser (offline : bool) : World :=
  {| channel := fun c => plainChannel (N.of_nat c) (Nat.eqb c 10);
     channelListener := fun _ => 0%nat;
     channelCallbacks := fun _ => None;
     browserContext := fun _ => context offline;
     next := 0;
     requests := ∅;
     interceptors := ∅;
     pageNetworks := ∅;
     _channelToRequest := ∅;
     _expectedRedirect := [];
     _responseInterceptionChannels := [];
     emitted := [];
     calls := [] |}.

Definition after {A : Type} (c : M A) (w : World) : World := snd (c w).

Definition no_exchange : NetworkRequest :=
  {| httpChannel := 0; requestId := EmptyString; navigationId := None;
     redirectedFromId := None; _redirectedIndex := 0; _frameId := None;
     _pageNetwork := None; _expectingInterception := false;
     _expectingResumedRequest := None; _sentOnResponse := false;
     _interceptedChannel := None; _responseInterceptor := None;
     _responseBodyChunks := None; _originalListener := 0;
     _previousCallbacks := None |}.

(** The exchange under reference [r]. *)
Definition exchange (w : World) (r : nat) : NetworkRequest :=
  default no_exchange (requests w !! r).

(** Channel 10 is about to send a request: exchange 0 of page network 1. *)
Definition requested (offline : bool) : World :=
  after (_onRequest 10) (browser offline).

(** The browser asks whether to intercept, with interception enabled. *)
Definition expecting : World :=
  after (shouldPrepareForIntercept 0 10)
    (after (enableRequestInterception 1) (requested false)).

(** The exchange is paused on intercepted channel 20, awaiting a decision. *)
Definition paused : World := after (channelIntercepted 0 20) expecting.

(** The same in a context forced offline, before [channelIntercepted]. *)
Definition expecting_offline : World :=
  after (shouldPrepareForIntercept 0 10) (requested true).

(** A response interceptor has fetched an upstream response for the paused
    exchange through substitute channel 21. *)
Definition fetched : World :=
  after (interceptResponse_resolved 1 "upstream")
    (after (interceptResponse_fetched 1 21)
       (after (interceptResponse_begin 1 21)
          (after (new_ResponseInterceptor 0) paused))).

(** The main document of channel 10 redirected to channel 13, then to 14. *)
Definition redirected_document : World :=
  after (_onRequest 14)
    (after (_onRedirect 13 14 0)
       (after (_onRequest 13)
          (after (_onRedirect 10 13 0) (requested false)))).

(** A subresource of channel 11 redirected to channel 12. *)
Definition redirected_subresource : World :=
  after (_onRequest 12)
    (after (_onRedirect 11 12 0)
       (after (_onRequest 11) (browser false))).

(** The page network of target 1. *)
Definition tracker (w : World) : PageNetwork :=
  default (new_PageNetwork 1) (pageNetworks w !! 1%nat).

Definition new_tracker : PageNetwork := new_PageNetwork 1.

(** A store with caps of ten bytes holding two bodies of five bytes. *)
Definition two_bodies : ResponseStorage :=
  addResponseBody
    (addResponseBody (new_ResponseStorage 10 10) "a" (plainChannel 1 false) "aaaaa")
    "b" (plainChannel 2 false) "bbbbb".

(** The binary string holding every byte value once, in order. *)
Definition all_bytes : string := Js.of_bytes (map N.of_nat (seq 0 256)).

End Sample.

(** * Further definitions *)


(** The data that [onDataAvailable] records from the notifications [ns]
    for an exchange bound to channel [c]: what is delivered for the channel
    that the exchange is bound to at that moment, in order. *)
Fixpoint received (c : nat) (ns : list Notification) : list string :=
  match ns with
  | [] => []
  | DataAvailable aRequest data :: rest =>
      if Nat.eqb aRequest c then data :: received c rest else received c rest
  | InternalRedirect newChannel :: rest => received newChannel rest
  | _ :: rest => received c rest
  end.

(** The table [_channelToRequest] after the internal redirects of [ns] for
    the exchange [this], bound to [c]. *)
Fixpoint rebound (this c : nat) (ns : list Notification) (m : gmap nat nat)
  : gmap nat nat :=
  match ns with
  | [] => m
  | InternalRedirect newChannel :: rest =>
      rebound this newChannel rest (<[newChannel := this]> (delete c m))
  | _ :: rest => rebound this c rest m
  end.

(** A request event of the exchange [requestId], whatever the data it
    copies from the channel. *)
Definition is_request (requestId : string) (isIntercepted : bool)
    (redirectedFrom navigationId : option string) (e : Events.t) : Prop :=
  match e with
  | Events.Request _ _ intercepted id from navigation =>
      intercepted = isIntercepted /\ id = requestId /\ from = redirectedFrom
      /\ navigation = navigationId
  | _ => False
  end.

(** The awaiting map of a page network, empty when there is none. *)
Definition awaiting (w : World) (p : nat) : list (string * nat) :=
  match pageNetworks w !! p with
  | Some pn => _interceptedRequests pn
  | None => []
  end.

(** [url ? Services.io.newURI(url) : null] of [resume]. *)
Definition resumed_uri (url : option string) : option string :=
  match url with
  | Some u => if Js.nonempty u then Some u else None
  | None => None
  end.

(** Failure codes have the severity bit set ([NS_FAILED]). *)
Definition NS_FAILED (code : N) : Prop := (0x80000000 <= code)%N.

(** The [setRequestHeader] calls of a loop over [headers]. *)
Definition header_sets (httpChannel : nat) (headers : list Header) : list Call :=
  map (fun header => setRequestHeader httpChannel (name header) (value header)) headers.

(** The calls clearing the request headers that a channel has. *)
Definition header_clears (httpChannel : nat) (headers : list Header) : list Call :=
  map (fun header => setRequestHeader httpChannel (name header) EmptyString) headers.

(** What [responseHead] reports for a channel when the forged status of an
    HSTS upgrade is passed along. *)
Definition forged_head (ch : HttpChannel) : Head.t :=
  responseHead ch (Some 307) (Some "Temporary Redirect").

(** The calls by which [_onInternalRedirectReady] applies the overrides
    [resumed] to channel [c], whose state is [ch]: the headers that the
    channel has are cleared and the given ones set, then the method, then
    the post data, which is not applied when it is not base64. *)
Definition override_calls (c : nat) (ch : HttpChannel) (resumed : Resumed.t) : list Call :=
  match Resumed.headers resumed with
  | Some headers => header_clears c (requestHeaders ch) ++ header_sets c headers
  | None => []
  end
  ++ match Resumed.method resumed with
     | Some method => if Js.nonempty method then [setRequestMethod c method] else []
     | None => []
     end
  ++ match Resumed.postData resumed with
     | Some postData =>
         if Js.nonempty postData then
           match Js.atob postData with
           | Some body =>
               [setRequestHeader c "content-length"
                  (overriddenHeader (default [] (Resumed.headers resumed))
                     "content-length" EmptyString);
                explicitSetUploadStream c body
                  (overriddenHeader (default [] (Resumed.headers resumed))
                     "content-type" "application/octet-stream")]
           | None => []
           end
         else []
     | None => []
     end.

(** Whether applying the overrides throws: it does when there is post
    data that is not base64. *)
Definition override_outcome (resumed : Resumed.t) : Result unit :=
  match Resumed.postData resumed with
  | Some postData =>
      if Js.nonempty postData then
        match Js.atob postData with
        | Some _ => Ok tt
        | None => Throw InvalidCharacterError
        end
      else Ok tt
  | None => Ok tt
  end.

(** The sextets that [btoa] writes for the bytes [l], padding left out, and
    the padding it adds. *)
Fixpoint sextet_values (l : list N) : list N :=
  match l with
  | [] => []
  | [a] =>
      let n := Js.quad a 0 0 in
      [(n / 262144)%N; (n / 4096)%N]
  | [a; b] =>
      let n := Js.quad a b 0 in
      [(n / 262144)%N; (n / 4096)%N; (n / 64)%N]
  | a :: b :: c :: rest =>
      let n := Js.quad a b c in
      (n / 262144)%N :: (n / 4096)%N :: (n / 64)%N :: n :: sextet_values rest
  end.

Fixpoint padding (l : list N) : string :=
  match l with
  | [] => EmptyString
  | [_] => "=="
  | [_; _] => "="
  | _ :: _ :: _ :: rest => padding rest
  end.

Fixpoint sextet_string (values : list N) : string :=
  match values with
  | [] => EmptyString
  | v :: rest => String (Js.sextet v) (sextet_string rest)
  end.

(** [resumeInterceptedRequest] with [interceptResponse] set, up to the
    construction of the response interceptor: the exchange is looked up,
    not taken. *)
Definition resumeInterceptedRequest_interceptResponse (this : nat) (requestId : string)
  : M nat :=
  let* p := the_pageNetwork this in
  match JsMap.get (_interceptedRequests p) requestId with
  | None => throw (cannot_find requestId)
  | Some intercepted => new_ResponseInterceptor intercepted
  end.

Definition already_intercepting : Exn :=
  Error "Already intercepting response for this request".

(** ** NetworkRequest: nsIAuthPrompt2 *)

(** Flags of [nsIAuthInformation]. *)
Definition AUTH_PROXY : N := 2.
Definition PREVIOUS_FAILED : N := 16.

Module Credentials.
Record t := mk { username : string; password : string }.
End Credentials.

Module AuthInfo.
Record t := mk { flags : N; username : string; password : string }.
End AuthInfo.

Section Auth.

(** [this._networkObserver._targetRegistry.getProxyInfo(aChannel)], when the
    channel goes through a proxy. *)
Variable getProxyInfo : nat -> option Credentials.t.

(** [browserContext().httpCredentials] of a target. *)
Variable httpCredentials : nat -> option Credentials.t.

(** [promptAuth(aChannel, level, authInfo)]: whether credentials are
    supplied, and [authInfo] as the call leaves it. *)
Definition promptAuth (this : nat) (aChannel : nat) (authInfo : AuthInfo.t)
  : M (bool * AuthInfo.t) :=
  if negb (N.land (AuthInfo.flags authInfo) PREVIOUS_FAILED =? 0)%N then ret (false, authInfo)
  else
    let* r := the_request this in
    match _pageNetwork r with
    | None => ret (false, authInfo)
    | Some pageNetwork =>
        let* credentials :=
          if negb (N.land (AuthInfo.flags authInfo) AUTH_PROXY =? 0)%N
          then ret (getProxyInfo aChannel)
          else
            let* p := the_pageNetwork pageNetwork in
            ret (httpCredentials (_target p)) in
        match credentials with
        | None => ret (false, authInfo)
        | Some credentials =>
            let authInfo :=
              AuthInfo.mk (AuthInfo.flags authInfo) (Credentials.username credentials)
                (Credentials.password credentials) in
            (* This will produce a new request with respective auth header
               set. It will have the same id as ours. *)
            promptAuth_expect this ;;
            ret (true, authInfo)
        end
    end.

End Auth.

(** The credentials that [promptAuth] looks up for a challenge. *)
Definition challenge_credentials (getProxyInfo httpCredentials : nat -> option Credentials.t)
    (aChannel target : nat) (authInfo : AuthInfo.t) : option Credentials.t :=
  if negb (N.land (AuthInfo.flags authInfo) AUTH_PROXY =? 0)%N then getProxyInfo aChannel
  else httpCredentials target.

(** ** convertString

    The stream converter of the browser hands its output to
    [onStreamComplete] as [data], with its [length]; the callback turns it
    into a string by chunks of [kChunk] code units. *)

Definition kChunk : N := 100000.

(** [for (let i = 0; i < length; i += kChunk)] of [onStreamComplete]: the
    chunks pushed to [result]. *)
Equations chunk_loop (array : list N) (size i : N) : list string
  by wf (N.to_nat (size - i)) lt :=
chunk_loop array size i with decide (i < size)%N := {
  | left _ =>
      let len := N.min kChunk (size - i) in
      Js.of_bytes (take (N.to_nat len) (drop (N.to_nat i) array))
      :: chunk_loop array size (i + kChunk)
  | right _ => []
}.
Next Obligation. unfold kChunk. lia. Qed.

(** [result.join('')] after [onStreamComplete(loader, context, status,
    length, data)]. *)
Definition onStreamComplete (size : N) (data : list N) : string :=
  Js.join (chunk_loop data size 0).

(** Whether a status is a redirect for [_isRedirectResponse]. *)
Definition is_redirect_status (status : Z) : bool := (300 <=? status) && (status <? 400).

(** The channel whose response a resolved upstream fetch reports: the
    substitute channel, or the channel of the final exchange when the
    substitute fetch was redirected. *)
Definition upstream_channel (interceptor : ResponseInterceptor) (substitute : nat)
    (final : NetworkRequest) : nat :=
  if Nat.eqb (_finalRequest interceptor) (_originalRequest interceptor) then substitute
  else httpChannel final.

(** * Further sample worlds *)

Module Scene.

(** A browser as [Sample.browser false], with the given channels and
    notification callbacks. *)
Definition browser (channel : nat -> HttpChannel)
    (channelCallbacks : nat -> option Callbacks) : World :=
  {| channel := channel;
     channelListener := fun _ => 0%nat;
     channelCallbacks := channelCallbacks;
     browserContext := fun _ => Sample.context false;
     next := 0;
     requests := ∅;
     interceptors := ∅;
     pageNetworks := ∅;
     _channelToRequest := ∅;
     _expectedRedirect := [];
     _responseInterceptionChannels := [];
     emitted := [];
     calls := [] |}.

(** A channel that is loaded for no page target. *)
Definition orphanChannel (id : N) : HttpChannel :=
  {| channelId := id;
     isMainDocumentChannel := false;
     URI := "http://example.test/worker.js";
     requestMethod := "GET";
     requestHeaders := [];
     frameId := None;
     loadTarget := None;
     responseStatus := None;
     responseStatusText := EmptyString;
     responseHeaders := [];
     nsIEncodedChannel := false;
     contentEncodings := false;
     applyConversion := true;
     contentEncodingHeader := EmptyString |}.

(** A channel that holds a redirect response. *)
Definition redirectingChannel (id : N) : HttpChannel :=
  {| channelId := id;
     isMainDocumentChannel := false;
     URI := "http://example.test/";
     requestMethod := "GET";
     requestHeaders := [];
     frameId := Some "frame-1";
     loadTarget := Some 1%nat;
     responseStatus := Some 302;
     responseStatusText := "Found";
     responseHeaders := [{| name := "location"; value := "http://example.test/next" |}];
     nsIEncodedChannel := false;
     contentEncodings := false;
     applyConversion := true;
     contentEncodingHeader := EmptyString |}.

(** A channel that has request headers of its own. *)
Definition sendingChannel (id : N) : HttpChannel :=
  {| channelId := id;
     isMainDocumentChannel := false;
     URI := "http://example.test/";
     requestMethod := "GET";
     requestHeaders := [{| name := "accept"; value := "*/*" |}];
     frameId := Some "frame-1";
     loadTarget := Some 1%nat;
     responseStatus := None;
     responseStatusText := EmptyString;
     responseHeaders := [];
     nsIEncodedChannel := false;
     contentEncodings := false;
     applyConversion := true;
     contentEncodingHeader := EmptyString |}.

(** Channel 11, of no page target, is about to send a request: exchange 0
    has no page network. *)
Definition untracked : World :=
  Sample.after (_onRequest 11) (browser (fun c => orphanChannel (N.of_nat c)) (fun _ => None)).

(** Channel 10 already carries the intercept controller of a service
    worker, which prepares to intercept. *)
Definition service_worker : World :=
  Sample.after (_onRequest 10)
    (browser (fun c => Sample.plainChannel (N.of_nat c) (Nat.eqb c 10))
       (fun _ => Some {| isInterceptController := true; controllerPrepares := true |})).

(** Interception is disabled again between the two questions of the
    browser. *)
Definition disabled_again : World :=
  Sample.after (disableRequestInterception 1) Sample.expecting.

(** The exchange of channel 10 paused on intercepted channel 20, in a
    browser [b]. *)
Definition paused_in (b : World) : World :=
  Sample.after (channelIntercepted 0 20)
    (Sample.after (shouldPrepareForIntercept 0 10)
       (Sample.after (enableRequestInterception 1) (Sample.after (_onRequest 10) b))).

(** A response interceptor, under reference 1, for the paused exchange. *)
Definition intercepting : World :=
  Sample.after (new_ResponseInterceptor 0) Sample.paused.

(** The same in a browser where channel 21 holds a redirect response, channel
    23 has a request header and channel 16 retries channel 10 with its
    channel id; the fetch of the upstream response is pending on
    substitute channel 21. *)
Definition channels (c : nat) : HttpChannel :=
  if Nat.eqb c 21 then redirectingChannel 21
  else if Nat.eqb c 23 then sendingChannel 23
  else if Nat.eqb c 16 then Sample.plainChannel 10 true
  else Sample.plainChannel (N.of_nat c) (Nat.eqb c 10).

Definition fetching_redirect : World :=
  Sample.after (interceptResponse_begin 1 21)
    (Sample.after (new_ResponseInterceptor 0)
       (paused_in (browser channels (fun _ => None)))).

(** The substitute fetch was redirected to channel 22, exchange 2, and
    then gave an upstream response. *)
Definition fetched_after_redirect : World :=
  Sample.after (interceptResponse_resolved 1 "upstream")
    (Sample.after (interceptResponse_fetched 1 21)
       (Sample.after (_onRedirect 21 22 0 ;; _onRequest 22) fetching_redirect)).

(** The credentials of the browser context of target 1, and of the proxy
    of channel 10. *)
Definition httpCredentials (target : nat) : option Credentials.t :=
  if Nat.eqb target 1 then Some (Credentials.mk "user" "secret") else None.

Definition getProxyInfo (aChannel : nat) : option Credentials.t :=
  if Nat.eqb aChannel 10 then Some (Credentials.mk "proxy-user" "proxy-secret") else None.

End Scene.

(** * Properties *)


(** ** Insertion-ordered maps *)

Section JsMapFacts.
Context {V : Type}.
Implicit Types (m : list (string * V)) (k : string) (v : V).

Lemma get_set_eq m k v : JsMap.get (JsMap.set m k v) k = Some v.
Proof.
  induction m as [|[k' v'] m IH]; simpl.
  - now rewrite String.eqb_refl.
  - destruct (String.eqb k' k) eqn:E; simpl; rewrite E; auto.
Qed.

Lemma get_set_ne m k k' v : k <> k' -> JsMap.get (JsMap.set m k v) k' = JsMap.get m k'.
Proof.
  intros Hne. induction m as [|[k0 v0] m IH]; simpl.
  - destruct (String.eqb_spec k k'); congruence.
  - destruct (String.eqb_spec k0 k) as [->|Hk]; simpl.
    + destruct (String.eqb_spec k k'); congruence.
    + destruct (String.eqb_spec k0 k'); auto.
Qed.

Lemma get_delete_eq m k : NoDup (JsMap.keys m) -> JsMap.get (JsMap.delete m k) k = None.
Proof.
  induction m as [|[k0 v0] m IH]; simpl; intros Hnd; [reflexivity|].
  apply NoDup_cons in Hnd as [Hnotin Hnd].
  destruct (String.eqb_spec k0 k) as [->|Hk]; simpl.
  - clear IH. induction m as [|[k1 v1] m IH]; simpl; [reflexivity|].
    destruct (String.eqb_spec k1 k) as [->|Hk1].
    + exfalso. apply Hnotin. simpl. left.
    + apply IH.
      * intros Hin. apply Hnotin. simpl. now right.
      * now apply NoDup_cons in Hnd as [_ Hnd].
  - destruct (String.eqb_spec k0 k); [congruence|]. auto.
Qed.

Lemma set_nonempty m k v : JsMap.set m k v <> [].
Proof. destruct m as [|[k0 v0] m]; simpl; [|destruct (String.eqb k0 k)]; discriminate. Qed.

Lemma keys_set_NoDup m k v : NoDup (JsMap.keys m) -> NoDup (JsMap.keys (JsMap.set m k v)).
Proof.
  induction m as [|[k0 v0] m IH]; simpl; intros Hnd.
  - apply NoDup_singleton.
  - apply NoDup_cons in Hnd as [Hnotin Hnd].
    destruct (String.eqb_spec k0 k) as [->|Hk]; simpl.
    + apply NoDup_cons. auto.
    + apply NoDup_cons. split; [|auto].
      intros Hin. apply Hnotin. clear -Hin Hk.
      induction m as [|[k1 v1] m IH]; simpl in *.
      * apply list_elem_of_singleton in Hin. congruence.
      * destruct (String.eqb_spec k1 k) as [->|Hk1]; simpl in *; [exact Hin|].
        apply elem_of_cons in Hin as [->|Hin]; [left|right; auto].
Qed.

End JsMapFacts.

(** ** Response store *)

Lemma len_nonneg s : 0 <= Js.len s.
Proof. unfold Js.len. lia. Qed.



Lemma retained_bytes_nonneg l : 0 <= retained_bytes l.
Proof.
  induction l as [|[k r] l IH]; simpl; [lia|].
  pose proof (len_nonneg (Stored.body r)).
  destruct (Stored.evicted r); lia.
Qed.

Lemma body_bytes_app l1 l2 : body_bytes (l1 ++ l2) = body_bytes l1 + body_bytes l2.
Proof. induction l1 as [|[k r] l1 IH]; simpl; lia. Qed.


Lemma retained_bytes_app l1 l2 :
  retained_bytes (l1 ++ l2) = retained_bytes l1 + retained_bytes l2.
Proof. induction l1 as [|[k r] l1 IH]; simpl; lia. Qed.

Lemma retained_bytes_evict_all l : retained_bytes (evict_all l) = 0.
Proof. induction l as [|[k r] l IH]; simpl; auto. Qed.



Lemma retained_bytes_set_le l k v :
  retained_bytes (JsMap.set l k v)
  <= retained_bytes l + (if Stored.evicted v then 0 else Js.len (Stored.body v)).
Proof.
  induction l as [|[k0 r0] l IH]; simpl; [lia|].
  pose proof (len_nonneg (Stored.body r0)).
  destruct (String.eqb k0 k); simpl; destruct (Stored.evicted r0); lia.
Qed.

(** The loop evicts a non-empty prefix of the entries, in their order, and
    stops at the first entry after which the running total is below the
    cap, or at the last entry. *)
Lemma evict_loop_prefix total maxTotal l :
  l <> [] ->
  exists n : nat,
    (0 < n <= length l)%nat
    /\ evict_loop total maxTotal l
       = (total - body_bytes (take n l), evict_all (take n l) ++ drop n l)
    /\ (forall m : nat, (0 < m < n)%nat -> maxTotal <= total - body_bytes (take m l))
    /\ (total - body_bytes (take n l) < maxTotal \/ n = length l).
Proof.
  revert total. induction l as [|[k r] rest IH]; intros total Hne; [congruence|].
  simpl evict_loop.
  destruct (Z.ltb_spec (total - Js.len (Stored.body r)) maxTotal) as [Hlt|Hge].
  - exists 1%nat. simpl. rewrite drop_0.
    split; [lia|]. split; [f_equal; lia|]. split; [intros m Hm; lia|].
    left. lia.
  - destruct rest as [|e rest'].
    + exists 1%nat. simpl.
      split; [lia|]. split; [f_equal; lia|]. split; [intros m Hm; lia|].
      right. reflexivity.
    + destruct (IH (total - Js.len (Stored.body r))) as (n & Hn & Hloop & Hmin & Hstop);
        [discriminate|].
      exists (S n). rewrite Hloop. simpl take. simpl drop.
      change (body_bytes ((k, r) :: take n (e :: rest')))
        with (Js.len (Stored.body r) + body_bytes (take n (e :: rest'))).
      change (evict_all ((k, r) :: take n (e :: rest')))
        with ((k, evict r) :: evict_all (take n (e :: rest'))).
      split; [simpl length in *; lia|].
      split; [simpl; f_equal; lia|].
      split.
      * intros m Hm. destruct m as [|m]; [lia|].
        change (take (S m) ((k, r) :: e :: rest')) with ((k, r) :: take m (e :: rest')).
        change (body_bytes ((k, r) :: take m (e :: rest')))
          with (Js.len (Stored.body r) + body_bytes (take m (e :: rest'))).
        destruct m as [|m].
        -- simpl. lia.
        -- assert (Hm' : (0 < S m < n)%nat) by lia. specialize (Hmin _ Hm'). lia.
      * destruct Hstop as [Hs|Hs]; [left; lia | right; simpl length in *; lia].
Qed.



(** The shape of a store after an insertion that is within the
    per-response cap. *)
Lemma addResponseBody_within s requestId httpChannel body :
  Js.len body <= _maxResponseSize s ->
  let inserted := JsMap.set (_responses s) requestId
                    (Stored.mk body false (Some (channel_encodings httpChannel))) in
  let s' := addResponseBody s requestId httpChannel body in
  _maxTotalSize s' = _maxTotalSize s
  /\ _maxResponseSize s' = _maxResponseSize s
  /\ (_totalSize s + Js.len body <= _maxTotalSize s ->
      _responses s' = inserted /\ _totalSize s' = _totalSize s + Js.len body)
  /\ (_maxTotalSize s < _totalSize s + Js.len body ->
      exists n : nat,
        (0 < n <= length inserted)%nat
        /\ _responses s' = evict_all (take n inserted) ++ drop n inserted
        /\ _totalSize s' = _totalSize s + Js.len body - body_bytes (take n inserted)
        /\ (forall m : nat, (0 < m < n)%nat ->
              _maxTotalSize s <= _totalSize s + Js.len body - body_bytes (take m inserted))
        /\ (_totalSize s' < _maxTotalSize s \/ n = length inserted)).
Proof.
  intros Hlen inserted s'. subst s'. unfold addResponseBody.
  destruct (Z.ltb_spec (_maxResponseSize s) (Js.len body)) as [Hbig|_]; [lia|].
  fold inserted.
  destruct (Z.ltb_spec (_maxTotalSize s) (_totalSize s + Js.len body)) as [Hover|Hfit].
  - destruct (evict_loop_prefix (_totalSize s + Js.len body) (_maxTotalSize s) inserted)
      as (n & Hn & Hloop & Hmin & Hstop); [apply set_nonempty|].
    rewrite Hloop. simpl.
    split; [reflexivity|]. split; [reflexivity|]. split; [lia|].
    intros _. exists n. auto.
  - simpl. split; [reflexivity|]. split; [reflexivity|]. split; [auto|]. lia.
Qed.



(** An evicted entry of a store built from the constructor has an empty
    body. *)
Lemma reachable_evicted_empty maxTotalSize maxResponseSize s :
  reachable maxTotalSize maxResponseSize s ->
  forall requestId response,
    In (requestId, response) (_responses s) ->
    Stored.evicted response = true ->
    Stored.body response = EmptyString.
Proof.
  intros Hreach. induction Hreach as [|s k ch body Hreach IH]; [intros ? ? []|].
  assert (Hset : forall l v,
             (forall id resp, In (id, resp) l -> Stored.evicted resp = true ->
                              Stored.body resp = EmptyString) ->
             (Stored.evicted v = true -> Stored.body v = EmptyString) ->
             forall id resp, In (id, resp) (JsMap.set l k v) ->
                             Stored.evicted resp = true -> Stored.body resp = EmptyString).
  { intros l v Hl Hv. induction l as [|[k0 r0] l IHl]; simpl; intros id resp Hin Hev.
    - destruct Hin as [[= <- <-]|[]]. auto.
    - destruct (String.eqb k0 k).
      + destruct Hin as [[= <- <-]|Hin]; [auto|]. apply (Hl id resp); [now right|auto].
      + destruct Hin as [[= <- <-]|Hin].
        * apply (Hl k0 r0); [now left|auto].
        * apply (IHl ltac:(intros id' resp' Hin'; apply (Hl id' resp'); now right)
                   id resp Hin Hev). }
  assert (Hloop : forall l total,
             (forall id resp, In (id, resp) l -> Stored.evicted resp = true ->
                              Stored.body resp = EmptyString) ->
             forall id resp, In (id, resp) (snd (evict_loop total (_maxTotalSize s) l)) ->
                             Stored.evicted resp = true -> Stored.body resp = EmptyString).
  { induction l as [|[k0 r0] l IHl]; intros total Hl id resp; simpl; [intros []|].
    destruct (total - Js.len (Stored.body r0) <? _maxTotalSize s).
    - simpl. intros [[= <- <-]|Hin] Hev; [reflexivity|]. apply (Hl id resp); [now right|auto].
    - specialize (IHl (total - Js.len (Stored.body r0))).
      destruct (evict_loop (total - Js.len (Stored.body r0)) (_maxTotalSize s) l) as [t l'].
      simpl in *. intros [[= <- <-]|Hin] Hev; [reflexivity|].
      apply (IHl ltac:(intros id' resp' Hin'; apply (Hl id' resp'); now right)
               id resp Hin Hev). }
  intros id resp. unfold addResponseBody.
  destruct (_maxResponseSize s <? Js.len body).
  - simpl. apply Hset; [exact IH|reflexivity].
  - destruct (_maxTotalSize s <? _totalSize s + Js.len body).
    + pose proof (Hloop (JsMap.set (_responses s) k
                           (Stored.mk body false (Some (channel_encodings ch))))
                    (_totalSize s + Js.len body)) as H.
      destruct (evict_loop (_totalSize s + Js.len body) (_maxTotalSize s)
                  (JsMap.set (_responses s) k
                     (Stored.mk body false (Some (channel_encodings ch))))) as [t l'].
      simpl in *. apply H. apply Hset; [exact IH|discriminate].
    + simpl. apply Hset; [exact IH|discriminate].
Qed.


(** C6. A body longer than the per-response cap leaves an evicted entry
    with an empty body under its id and nothing else changes: the running
    total and every other entry stay as they were, no byte of the body is
    retained, and reading the id back answers the evicted marker. *)
Theorem addResponseBody_over_response_cap s requestId httpChannel body :
  _maxResponseSize s < Js.len body ->
  let s' := addResponseBody s requestId httpChannel body in
  JsMap.get (_responses s') requestId = Some (Stored.mk EmptyString true None)
  /\ _totalSize s' = _totalSize s
  /\ (forall other, other <> requestId ->
        JsMap.get (_responses s') other = JsMap.get (_responses s) other)
  /\ retained_bytes (_responses s') <= retained_bytes (_responses s)
  /\ (forall converter,
        getBase64EncodedResponse converter s' requestId = ([], Ok evicted_reply)).
Proof.
  intros Hbig s'. subst s'. unfold addResponseBody.
  destruct (Z.ltb_spec (_maxResponseSize s) (Js.len body)) as [_|?]; [|lia].
  simpl. split; [apply get_set_eq|]. split; [reflexivity|].
  split; [intros other Hne; apply get_set_ne; congruence|].
  split.
  - pose proof (retained_bytes_set_le (_responses s) requestId
                  (Stored.mk EmptyString true None)) as H.
    simpl in H. lia.
  - intros converter. unfold getBase64EncodedResponse. simpl.
    now rewrite get_set_eq.
Qed.

Lemma convert_loop_decoded converter encodings body :
  snd (convert_loop converter encodings body) = decoded converter encodings body
  /\ map conv_source (fst (convert_loop converter encodings body)) = encodings
  /\ Forall (fun c => conv_dest c = "uncompressed")
       (fst (convert_loop converter encodings body)).
Proof.
  revert body. induction encodings as [|e es IH]; intros body; simpl.
  - repeat split; constructor.
  - destruct (convert_loop converter es (converter body e "uncompressed"))
      as [calls final] eqn:E.
    specialize (IH (converter body e "uncompressed")). rewrite E in IH.
    destruct IH as (IH1 & IH2 & IH3). simpl in *.
    split; [exact IH1|]. split; [now rewrite IH2|]. constructor; auto.
Qed.

Lemma getBase64EncodedResponse_present converter s requestId response :
  JsMap.get (_responses s) requestId = Some response ->
  Stored.evicted response = false ->
  snd (getBase64EncodedResponse converter s requestId)
  = Ok (Reply.mk (Js.btoa (decoded converter (default [] (Stored.encodings response))
                             (Stored.body response))) false)
  /\ map conv_source (fst (getBase64EncodedResponse converter s requestId))
     = default [] (Stored.encodings response)
  /\ Forall (fun c => conv_dest c = "uncompressed")
       (fst (getBase64EncodedResponse converter s requestId)).
Proof.
  intros Hget Hev. unfold getBase64EncodedResponse. rewrite Hget, Hev.
  destruct (Stored.encodings response) as [[|e es]|]; simpl.
  - repeat split; constructor.
  - destruct (convert_loop_decoded converter es (converter (Stored.body response) e "uncompressed"))
      as (H1 & H2 & H3).
    destruct (convert_loop converter es (converter (Stored.body response) e "uncompressed"))
      as [calls final]. simpl in *.
    split; [now rewrite H1|]. split; [now rewrite H2|]. constructor; auto.
  - repeat split; constructor.
Qed.

Lemma getBase64EncodedResponse_evicted converter s requestId response :
  JsMap.get (_responses s) requestId = Some response ->
  Stored.evicted response = true ->
  getBase64EncodedResponse converter s requestId = ([], Ok evicted_reply).
Proof.
  intros Hget Hev. unfold getBase64EncodedResponse. now rewrite Hget, Hev.
Qed.

(** C8. [getBase64EncodedResponse] throws exactly when the id has no entry,
    and then with the not-found error; for an evicted entry it answers the
    evicted marker with an empty body and calls no converter; for any other
    entry it undoes the recorded encodings in the order in which they are
    recorded, one converter call each, and answers the result in base64. *)
Theorem getBase64EncodedResponse_outcomes converter s requestId :
  (snd (getBase64EncodedResponse converter s requestId) = Throw (not_found requestId)
   <-> JsMap.get (_responses s) requestId = None)
  /\ (forall e, snd (getBase64EncodedResponse converter s requestId) = Throw e ->
        e = not_found requestId /\ JsMap.get (_responses s) requestId = None)
  /\ (forall response,
        JsMap.get (_responses s) requestId = Some response ->
        Stored.evicted response = true ->
        getBase64EncodedResponse converter s requestId = ([], Ok evicted_reply))
  /\ (forall response,
        JsMap.get (_responses s) requestId = Some response ->
        Stored.evicted response = false ->
        snd (getBase64EncodedResponse converter s requestId)
        = Ok (Reply.mk (Js.btoa (decoded converter (default [] (Stored.encodings response))
                                   (Stored.body response))) false)
        /\ map conv_source (fst (getBase64EncodedResponse converter s requestId))
           = default [] (Stored.encodings response)).
Proof.
  assert (Hthrow : forall e,
             snd (getBase64EncodedResponse converter s requestId) = Throw e ->
             e = not_found requestId /\ JsMap.get (_responses s) requestId = None).
  { intros e. unfold getBase64EncodedResponse.
    destruct (JsMap.get (_responses s) requestId) as [response|]; simpl.
    - destruct (Stored.evicted response); simpl; [discriminate|].
      destruct (match Stored.encodings response with
                | Some ((_ :: _) as encodings) =>
                    convert_loop converter encodings (Stored.body response)
                | _ => ([], Stored.body response)
                end) as [calls result]. simpl. discriminate.
    - intros [= <-]. auto. }
  split.
  - split.
    + intros H. now apply Hthrow in H.
    + intros H. unfold getBase64EncodedResponse. now rewrite H.
  - split; [exact Hthrow|]. split.
    + intros response. apply getBase64EncodedResponse_evicted.
    + intros response Hget Hev.
      destruct (getBase64EncodedResponse_present converter s requestId response Hget Hev)
        as (H1 & H2 & _).
      auto.
Qed.

(** The entry of an id after the eviction loop is the entry before it, or
    that entry evicted. *)
Lemma evict_loop_get total maxTotal l k :
  match JsMap.get l k with
  | None => JsMap.get (snd (evict_loop total maxTotal l)) k = None
  | Some r =>
      JsMap.get (snd (evict_loop total maxTotal l)) k = Some r
      \/ JsMap.get (snd (evict_loop total maxTotal l)) k = Some (evict r)
  end.
Proof.
  revert total. induction l as [|[k0 r0] l IH]; intros total; simpl; [reflexivity|].
  destruct (total - Js.len (Stored.body r0) <? maxTotal).
  - simpl. destruct (String.eqb k0 k); [right; reflexivity|].
    destruct (JsMap.get l k); auto.
  - specialize (IH (total - Js.len (Stored.body r0))).
    destruct (evict_loop (total - Js.len (Stored.body r0)) maxTotal l) as [t l'].
    simpl in *. destruct (String.eqb k0 k); [right; reflexivity|]. exact IH.
Qed.


(** The entry of the id just inserted. *)
Lemma addResponseBody_same s requestId httpChannel body :
  Js.len body <= _maxResponseSize s ->
  let v := Stored.mk body false (Some (channel_encodings httpChannel)) in
  (JsMap.get (_responses (addResponseBody s requestId httpChannel body)) requestId = Some v
   \/ JsMap.get (_responses (addResponseBody s requestId httpChannel body)) requestId
      = Some (evict v))
  /\ (_totalSize s + Js.len body <= _maxTotalSize s ->
      JsMap.get (_responses (addResponseBody s requestId httpChannel body)) requestId
      = Some v).
Proof.
  intros Hlen v. unfold addResponseBody.
  destruct (Z.ltb_spec (_maxResponseSize s) (Js.len body)) as [?|_]; [lia|].
  fold v. set (l1 := JsMap.set _ _ _).
  assert (Hl1 : JsMap.get l1 requestId = Some v) by apply get_set_eq.
  destruct (Z.ltb_spec (_maxTotalSize s) (_totalSize s + Js.len body)) as [Hover|Hfit].
  - pose proof (evict_loop_get (_totalSize s + Js.len body) (_maxTotalSize s) l1 requestId) as H.
    destruct (evict_loop (_totalSize s + Js.len body) (_maxTotalSize s) l1) as [t l'].
    simpl in *. rewrite Hl1 in H. split; [exact H|lia].
  - simpl. split; [left; exact Hl1|intros _; exact Hl1].
Qed.





(** ** Running computations *)

Ltac munfold :=
  repeat (progress unfold bind, ret, throw, read, modify, the_request, the_interceptor,
    the_pageNetwork, update_request, update_interceptor, update_pageNetwork, non_null,
    emit, call, try_ignore).

Ltac mrewrite :=
  repeat match goal with
  | |- context [<[?k:=_]> _ !! ?k] => rewrite lookup_insert_eq
  | |- context [<[?k:=_]> _ !! ?j] => rewrite (lookup_insert_ne _ k j) by congruence
  | H : ?x = ?v |- context [?x] =>
      tryif is_var x then fail else (progress rewrite H)
  end.

Ltac mrun := repeat (munfold; simpl; mrewrite; simpl).

Lemma for_of_calls {A : Type} (f : A -> list Call) (body : A -> M unit) (l : list A) w :
  (forall x w0, body x w0 = (Ok tt, with_calls (fun c => c ++ f x) w0)) ->
  exists w', for_of l body w = (Ok tt, w')
    /\ calls w' = calls w ++ concat (map f l)
    /\ requests w' = requests w /\ interceptors w' = interceptors w
    /\ pageNetworks w' = pageNetworks w /\ emitted w' = emitted w
    /\ channel w' = channel w /\ _channelToRequest w' = _channelToRequest w.
Proof.
  intros Hbody. revert w. induction l as [|x l IH]; intros w; simpl.
  - exists w. unfold ret. rewrite app_nil_r. repeat split; reflexivity.
  - unfold bind. rewrite Hbody.
    destruct (IH (with_calls (fun c => c ++ f x) w)) as (w' & Hrun & Hc & Hrest).
    exists w'. split; [exact Hrun|]. simpl in *. split; [|exact Hrest].
    rewrite Hc. now rewrite <- app_assoc.
Qed.

Lemma synthesize_header_calls intercepted uri httpChannel header w :
  synthesize_header intercepted uri httpChannel header w
  = (Ok tt, with_calls (fun c => c ++ header_calls intercepted uri httpChannel [header]) w).
Proof.
  unfold synthesize_header. simpl. mrun.
  destruct (String.eqb (Js.toLowerCase (name header)) "set-cookie"); simpl.
  - unfold with_calls. simpl. now rewrite <- app_assoc.
  - reflexivity.
Qed.

Lemma header_calls_concat intercepted uri httpChannel headers :
  concat (map (fun h => header_calls intercepted uri httpChannel [h]) headers)
  = header_calls intercepted uri httpChannel headers.
Proof.
  induction headers as [|h hs IH]; [reflexivity|].
  cbn [map concat]. rewrite IH. cbn [header_calls]. rewrite app_nil_r. reflexivity.
Qed.

(** C10, as amended. With the headers absent, [fulfill] on a paused
    exchange whose body decodes: without an upstream response it throws
    when it iterates the headers, after the status line has been
    synthesized and before any header or body is, and the exchange stays
    paused; with an upstream response the headers of that response are
    synthesized and the synthesis completes. *)
Theorem fulfill_absent_headers w this r intercepted status statusText base64body body :
  requests w !! this = Some r ->
  _interceptedChannel r = Some intercepted ->
  decode_base64body base64body = Some body ->
  (upstream w r None ->
   exists w',
     fulfill this status statusText None base64body w
     = (Throw (TypeError "headers is not iterable"), w')
     /\ calls w' = calls w ++ [synthesizeStatus intercepted status statusText]
     /\ requests w' = requests w
     /\ emitted w' = emitted w)
  /\ (forall original,
        upstream w r (Some original) ->
        exists w',
          fulfill this status statusText None base64body w = (Ok tt, w')
          /\ calls w'
             = calls w
               ++ [synthesizeStatus intercepted
                     (Js.or_number status (Intercepted.status original))
                     (Js.or_string statusText (Intercepted.statusText original))]
               ++ header_calls intercepted (URI (channel w (httpChannel r)))
                    (httpChannel r) (Intercepted.headers original)
               ++ [startSynthesizedResponse intercepted body;
                   finishSynthesizedResponse intercepted]
          /\ requests w' = <[this := set_interceptedChannel None r]> (requests w)
          /\ emitted w' = emitted w).
Proof.
  intros Hr Hic Hbody. split.
  - intros Hup. inversion Hup as [Hnone|i interceptor Hi Hlive Hresp].
    + unfold fulfill. mrun. eexists. split; [reflexivity|]. simpl. auto.
    + unfold fulfill. mrun.
      eexists. split; [reflexivity|]. simpl. auto.
  - intros original Hup. inversion Hup as [|i interceptor Hi Hlive Hresp].
    unfold fulfill. mrun.
    set (w1 := with_calls _ w).
    destruct (for_of_calls
                (fun h => header_calls intercepted (URI (channel w (httpChannel r)))
                            (httpChannel r) [h])
                (synthesize_header intercepted (URI (channel w (httpChannel r)))
                   (httpChannel r))
                (Intercepted.headers original) w1)
      as (w2 & Hrun & Hcalls & Hreq & Hint & Hpn & Hem & Hch & Hmap).
    { intros x w0. apply synthesize_header_calls. }
    rewrite header_calls_concat in Hcalls.
    rewrite Hrun. mrun.
    eexists. split; [reflexivity|]. cbn [calls requests emitted with_calls with_requests].
    rewrite Hcalls, Hreq, Hem. subst w1. cbn [calls requests emitted with_calls].
    rewrite <- !app_assoc. auto.
Qed.

(** ** The exchange state machine *)

Lemma same_objects_refl w : same_objects w w.
Proof. unfold same_objects. auto 10. Qed.

Lemma same_objects_trans w1 w2 w3 :
  same_objects w1 w2 -> same_objects w2 w3 -> same_objects w1 w3.
Proof.
  unfold same_objects. intros (A1 & A2 & A3 & A4 & A5 & A6 & A7) (B1 & B2 & B3 & B4 & B5 & B6 & B7).
  repeat split; congruence.
Qed.

Lemma only_calls_ret {A : Type} (a : A) : only_calls (ret a).
Proof. intros w. apply same_objects_refl. Qed.

Lemma only_calls_throw {A : Type} e : only_calls (@throw A e).
Proof. intros w. apply same_objects_refl. Qed.

Lemma only_calls_read {A : Type} (f : World -> A) : only_calls (read f).
Proof. intros w. apply same_objects_refl. Qed.

Lemma only_calls_call c : only_calls (call c).
Proof. intros w. unfold same_objects. simpl. auto 10. Qed.

Lemma only_calls_bind {A B : Type} (c : M A) (k : A -> M B) :
  only_calls c -> (forall a, only_calls (k a)) -> only_calls (bind c k).
Proof.
  intros Hc Hk w. unfold bind. specialize (Hc w).
  destruct (c w) as [[a|e] w1]; simpl in *.
  - eapply same_objects_trans; [exact Hc|]. apply Hk.
  - exact Hc.
Qed.

Lemma only_calls_try_ignore (c : M unit) : only_calls c -> only_calls (try_ignore c).
Proof.
  intros Hc w. unfold try_ignore. specialize (Hc w).
  destruct (c w) as [[a|e] w1]; exact Hc.
Qed.

Lemma only_calls_for_of {A : Type} (l : list A) (body : A -> M unit) :
  (forall x, only_calls (body x)) -> only_calls (for_of l body).
Proof.
  intros Hbody. induction l as [|x l IH]; simpl.
  - apply only_calls_ret.
  - apply only_calls_bind; auto.
Qed.

Lemma only_calls_setPostData c postData headers : only_calls (setPostData c postData headers).
Proof.
  unfold setPostData. destruct (Js.atob postData).
  - apply only_calls_bind; [apply only_calls_call|]. intros _. apply only_calls_call.
  - apply only_calls_throw.
Qed.




Lemma only_calls_run {A : Type} (c : M A) w :
  only_calls c -> exists res w', c w = (res, w') /\ same_objects w w'.
Proof.
  intros Hc. specialize (Hc w). destruct (c w) as [res w']. eauto.
Qed.

Lemma only_calls_resumed_updates c resumed :
  only_calls
    ((match Resumed.headers resumed with
      | Some headers =>
          let* ch := read (fun w => channel w c) in
          for_of (requestHeaders ch) (fun header =>
            call (setRequestHeader c (name header) EmptyString)) ;;
          for_of headers (fun header =>
            call (setRequestHeader c (name header) (value header)))
      | None => ret tt
      end) ;;
     (match Resumed.method resumed with
      | Some method =>
          if Js.nonempty method then call (setRequestMethod c method) else ret tt
      | None => ret tt
      end) ;;
     match Resumed.postData resumed with
     | Some postData =>
         if Js.nonempty postData then setPostData c postData (Resumed.headers resumed)
         else ret tt
     | None => ret tt
     end).
Proof.
  apply only_calls_bind.
  - destruct (Resumed.headers resumed).
    + apply only_calls_bind; [apply only_calls_read|]. intros ch.
      apply only_calls_bind.
      * apply only_calls_for_of. intros x. apply only_calls_call.
      * intros _. apply only_calls_for_of. intros x. apply only_calls_call.
    + apply only_calls_ret.
  - intros _. apply only_calls_bind.
    + destruct (Resumed.method resumed) as [m|]; [|apply only_calls_ret].
      destruct (Js.nonempty m); [apply only_calls_call|apply only_calls_ret].
    + intros _. destruct (Resumed.postData resumed) as [d|]; [|apply only_calls_ret].
      destruct (Js.nonempty d); [apply only_calls_setPostData|apply only_calls_ret].
Qed.


(** The guard of [_sendOnResponseImpl], for any exchange: once the flag is
    set the call changes nothing; while it is unset the call sets it and
    emits at most one response. *)
Lemma sendOnResponseImpl_guard w this r httpChannel_ fromCache a b :
  requests w !! this = Some r ->
  exists w',
    _sendOnResponseImpl this httpChannel_ fromCache a b w = (Ok tt, w')
    /\ (_sentOnResponse r = true -> w' = w)
    /\ requests w' !! this = Some (set_sentOnResponse true r)
    /\ exists events,
         emitted w' = emitted w ++ events
         /\ (length events <= 1)%nat
         /\ (_sentOnResponse r = true -> events = [])
         /\ (_pageNetwork r = None -> events = [])
         /\ Forall (fun e => is_response (requestId r) (snd e)) events.
Proof.
  intros Hr. unfold _sendOnResponseImpl.
  destruct (_sentOnResponse r) eqn:Hsent.
  - mrun. exists w. split; [reflexivity|]. split; [reflexivity|]. split.
    + rewrite Hr. f_equal. destruct r. simpl in *. now subst.
    + exists []. rewrite app_nil_r. simpl. repeat split; auto.
  - destruct (_pageNetwork r) as [p|] eqn:Hp; mrun.
    + eexists. split; [reflexivity|]. split; [discriminate|]. simpl.
      split; [apply lookup_insert_eq|].
      eexists. split; [reflexivity|]. simpl. split; [lia|].
      split; [discriminate|]. split; [discriminate|].
      constructor; [reflexivity|constructor].
    + eexists. split; [reflexivity|]. split; [discriminate|]. simpl.
      split; [apply lookup_insert_eq|].
      exists []. rewrite app_nil_r. simpl. repeat split; auto.
Qed.


Lemma deliver_app this ns1 ns2 w :
  deliver this (ns1 ++ ns2) w = deliver this ns2 (deliver this ns1 w).
Proof. unfold deliver. apply fold_left_app. Qed.



(** ** Disabling interception *)

Lemma resume_pass_through w r req intercepted :
  requests w !! r = Some req ->
  _interceptedChannel req = Some intercepted ->
  exists w',
    resume r None None None None w = (Ok tt, w')
    /\ requests w' = <[r := passed_through req]> (requests w)
    /\ calls w' = calls w ++ [resetInterceptionWithURI intercepted None]
    /\ emitted w' = emitted w
    /\ pageNetworks w' = pageNetworks w.
Proof.
  intros Hr Hic. unfold resume. mrun.
  eexists. split; [reflexivity|]. simpl.
  split; [now rewrite insert_insert_eq|]. auto.
Qed.

Lemma pass_through_calls_ext w w' l :
  (forall r, r ∈ l -> requests w' !! r = requests w !! r) ->
  pass_through_calls w' l = pass_through_calls w l.
Proof.
  induction l as [|x l IH]; intros H; simpl; [reflexivity|].
  rewrite H by left. rewrite IH; [reflexivity|]. intros r Hin. apply H. now right.
Qed.

Lemma for_of_resume l : forall w,
  all_paused w l ->
  exists w',
    for_of l (fun intercepted => resume intercepted None None None None) w = (Ok tt, w')
    /\ calls w' = calls w ++ pass_through_calls w l
    /\ emitted w' = emitted w
    /\ pageNetworks w' = pageNetworks w
    /\ (forall r, r ∈ l ->
          exists req, requests w !! r = Some req
                      /\ requests w' !! r = Some (passed_through req))
    /\ (forall r, r ∉ l -> requests w' !! r = requests w !! r).
Proof.
  induction l as [|x l IH]; intros w [Hnd Hlive].
  - exists w. simpl. unfold ret. rewrite app_nil_r. repeat split; auto.
    intros r Hin. inversion Hin.
  - apply NoDup_cons in Hnd as [Hx Hnd].
    destruct (Hlive x ltac:(left)) as (req & ic & Hreq & Hic).
    destruct (resume_pass_through w x req ic Hreq Hic)
      as (w1 & Hrun1 & Hreq1 & Hcalls1 & Hem1 & Hpn1).
    assert (Hsame : forall r, r ∈ l -> requests w1 !! r = requests w !! r).
    { intros r Hin. rewrite Hreq1. apply lookup_insert_ne. intros ->. contradiction. }
    destruct (IH w1) as (w2 & Hrun2 & Hcalls2 & Hem2 & Hpn2 & Hin2 & Hout2).
    { split; [exact Hnd|]. intros r Hin. rewrite Hsame by assumption.
      apply Hlive. now right. }
    exists w2. simpl for_of. unfold bind. rewrite Hrun1. split; [exact Hrun2|].
    split.
    { rewrite Hcalls2, Hcalls1. simpl pass_through_calls. rewrite Hreq, Hic.
      rewrite (pass_through_calls_ext w w1 l Hsame). now rewrite <- app_assoc. }
    split; [congruence|]. split; [congruence|]. split.
    + intros r Hin. apply elem_of_cons in Hin as [->|Hin].
      * exists req. split; [exact Hreq|]. rewrite Hout2 by assumption.
        rewrite Hreq1. apply lookup_insert_eq.
      * destruct (Hin2 r Hin) as (req' & Hr1 & Hr2). exists req'.
        rewrite <- Hsame by assumption. auto.
    + intros r Hnotin. apply not_elem_of_cons in Hnotin as [Hne Hnotin].
      rewrite Hout2 by assumption. rewrite Hreq1. now apply lookup_insert_ne.
Qed.

(** C5. Disabling interception on a page network whose awaiting exchanges
    are paused resumes each of them without override, in the order of the
    awaiting map: one [resetInterceptionWithURI(null)] per exchange, no
    rewritten method, headers or body left to apply, no intercepted channel
    left on the exchange; the map ends empty, interception is off, and no
    event is emitted. *)
Theorem disableRequestInterception_resumes_all w p pn :
  pageNetworks w !! p = Some pn ->
  all_paused w (JsMap.values (_interceptedRequests pn)) ->
  exists w',
    disableRequestInterception p w = (Ok tt, w')
    /\ (exists pn', pageNetworks w' !! p = Some pn'
                    /\ _interceptedRequests pn' = []
                    /\ _requestInterceptionEnabled pn' = false)
    /\ calls w' = calls w ++ pass_through_calls w (JsMap.values (_interceptedRequests pn))
    /\ emitted w' = emitted w
    /\ (forall requestId r,
          In (requestId, r) (_interceptedRequests pn) ->
          exists req intercepted,
            requests w !! r = Some req
            /\ _interceptedChannel req = Some intercepted
            /\ In (resetInterceptionWithURI intercepted None)
                 (pass_through_calls w (JsMap.values (_interceptedRequests pn)))
            /\ requests w' !! r = Some (passed_through req)
            /\ _interceptedChannel (passed_through req) = None
            /\ _expectingResumedRequest (passed_through req)
               = Some (Resumed.mk None None None)).
Proof.
  intros Hpn Hpaused. unfold disableRequestInterception.
  unfold bind at 1. unfold update_pageNetwork, bind at 1, the_pageNetwork at 1, modify at 1.
  rewrite Hpn. set (w1 := with_pageNetworks _ w).
  unfold bind at 1. unfold the_pageNetwork at 1.
  assert (Hpn1 : pageNetworks w1 !! p = Some (set_requestInterceptionEnabled false pn))
    by (subst w1; simpl; apply lookup_insert_eq).
  rewrite Hpn1. cbn [_interceptedRequests set_requestInterceptionEnabled].
  destruct (for_of_resume (JsMap.values (_interceptedRequests pn)) w1)
    as (w2 & Hrun & Hcalls & Hem & Hpn2 & Hin & Hout).
  { exact Hpaused. }
  unfold bind at 1. rewrite Hrun. unfold bind, the_pageNetwork, modify.
  rewrite Hpn2, Hpn1. eexists. split; [reflexivity|]. simpl.
  split; [eexists; rewrite lookup_insert_eq; split; [reflexivity|]; auto|].
  split.
  { rewrite Hcalls. rewrite (pass_through_calls_ext w w1) by reflexivity. reflexivity. }
  split; [exact Hem|].
  intros requestId r Hmem.
  assert (Hr : r ∈ JsMap.values (_interceptedRequests pn)).
  { unfold JsMap.values. apply list_elem_of_In. apply in_map_iff. exists (requestId, r). auto. }
  destruct Hpaused as [_ Hlive]. destruct (Hlive r Hr) as (req & ic & Hreq & Hic).
  destruct (Hin r Hr) as (req' & Hreq' & Hafter).
  change (requests w1) with (requests w) in Hreq'. rewrite Hreq in Hreq'.
  injection Hreq' as <-.
  exists req, ic. split; [exact Hreq|]. split; [exact Hic|]. split.
  - clear -Hr Hreq Hic. induction (JsMap.values (_interceptedRequests pn)) as [|x l IH].
    + inversion Hr.
    + simpl. apply in_or_app. apply elem_of_cons in Hr as [<-|Hr].
      * left. rewrite Hreq, Hic. now left.
      * right. auto.
  - split; [exact Hafter|]. split; reflexivity.
Qed.

(** ** Aborting a paused exchange *)

Lemma abort_error_code_nonzero errorCode error :
  abort_error errorCode = Code error -> error <> 0%N.
Proof.
  unfold abort_error. destruct (JsMap.get errorMap (property_key errorCode)) as [e|].
  - destruct (N.eqb_spec e 0); intros [= <-]; [discriminate|assumption].
  - destruct (existsb _ _); intros [= <-]. discriminate.
Qed.

Lemma Object_prototype_existsb name :
  existsb (String.eqb name) Object_prototype = true <-> In name Object_prototype.
Proof.
  rewrite existsb_exists. split.
  - intros (x & Hin & Heq). apply String.eqb_eq in Heq. now subst.
  - intros Hin. exists name. split; [assumption|apply String.eqb_refl].
Qed.

Lemma Object_prototype_no_errorMap name :
  In name Object_prototype -> JsMap.get errorMap name = None.
Proof.
  unfold Object_prototype. simpl.
  intros H. repeat (destruct H as [<-|H]; [reflexivity|]). contradiction.
Qed.

Lemma abort_error_unknown name :
  JsMap.get errorMap name = None -> ~ In name Object_prototype ->
  abort_error (Symbolic name) = Cr.NS_ERROR_FAILURE.
Proof.
  intros H Hnot. unfold abort_error, property_key. rewrite H.
  destruct (existsb (String.eqb name) Object_prototype) eqn:E; [|reflexivity].
  now apply Object_prototype_existsb in E.
Qed.

Lemma abort_error_inherited name :
  In name Object_prototype -> abort_error (Symbolic name) = Inherited name.
Proof.
  intros H. unfold abort_error, property_key.
  rewrite (Object_prototype_no_errorMap name H).
  apply Object_prototype_existsb in H. now rewrite H.
Qed.

Lemma onStopRequest_failed w this r p status :
  requests w !! this = Some r ->
  _pageNetwork r = Some p ->
  _responseInterceptor r = None ->
  status <> 0%N ->
  exists w',
    onStopRequest this (httpChannel r) status w = (Ok tt, w')
    /\ emitted w' = emitted w ++ [(p, Events.RequestFailed (requestId r) status)]
    /\ _channelToRequest w' = delete (httpChannel r) (_channelToRequest w).
Proof.
  intros Hr Hp Hi Hstatus.
  unfold onStopRequest, _sendOnRequestFailed, _sendOnRequestFailedImpl.
  mrun. rewrite Nat.eqb_refl. mrun.
  destruct (N.eqb_spec status 0) as [?|_]; [congruence|]. mrun.
  eexists. split; [reflexivity|]. simpl. auto.
Qed.

Lemma takeIntercepted_found w p pn requestId this :
  pageNetworks w !! p = Some pn ->
  JsMap.get (_interceptedRequests pn) requestId = Some this ->
  _takeIntercepted p requestId w
  = (Ok this,
     with_pageNetworks
       (insert p (set_interceptedRequests
                    (JsMap.delete (_interceptedRequests pn) requestId) pn)) w).
Proof. intros Hpn Hget. unfold _takeIntercepted. mrun. reflexivity. Qed.

(** C9, [abort] as the code runs it. [abort] on an exchange awaiting a
    decision never rejects the command: the exchange leaves the awaiting
    map and its intercepted channel is cancelled with what
    [errorMap[errorCode] || Cr.NS_ERROR_FAILURE] evaluates to; when that is
    an error number, the stop that the browser then delivers with it emits
    [RequestFailed]. Each of the fourteen known names gives the error
    listed for it, and a name that is no property of [errorMap] gives
    [NS_ERROR_FAILURE]. But [errorMap] is an object literal, so for a name
    of [Object.prototype], which is not a known name either, the lookup
    finds the inherited member, and [cancelInterception] receives that
    member instead of [NS_ERROR_FAILURE]. *)
Theorem abort_cancels_with_the_errorMap_lookup
    w p pn requestId_ this r intercepted errorCode :
  pageNetworks w !! p = Some pn ->
  JsMap.get (_interceptedRequests pn) requestId_ = Some this ->
  requests w !! this = Some r ->
  _interceptedChannel r = Some intercepted ->
  _pageNetwork r = Some p ->
  _responseInterceptor r = None ->
  (exists w',
     abortInterceptedRequest p requestId_ errorCode w = (Ok tt, w')
     /\ calls w' = calls w ++ [cancelInterception intercepted (abort_error errorCode)]
     /\ requests w' !! this = Some (set_interceptedChannel None r)
     /\ (exists pn', pageNetworks w' !! p = Some pn'
                     /\ _interceptedRequests pn'
                        = JsMap.delete (_interceptedRequests pn) requestId_)
     /\ emitted w' = emitted w
     /\ forall error,
          abort_error errorCode = Code error ->
          exists w'',
            onStopRequest this (httpChannel r) error w' = (Ok tt, w'')
            /\ emitted w'' = emitted w' ++ [(p, Events.RequestFailed (requestId r) error)])
  /\ Forall (fun '(name, error) => abort_error (Symbolic name) = Code error)
       [ ("aborted", Cr.NS_ERROR_ABORT);
         ("accessdenied", Cr.NS_ERROR_PORT_ACCESS_NOT_ALLOWED);
         ("addressunreachable", Cr.NS_ERROR_UNKNOWN_HOST);
         ("blockedbyclient", Cr.NS_ERROR_FAILURE);
         ("blockedbyresponse", Cr.NS_ERROR_FAILURE);
         ("connectionaborted", Cr.NS_ERROR_NET_INTERRUPT);
         ("connectionclosed", Cr.NS_ERROR_FAILURE);
         ("connectionfailed", Cr.NS_ERROR_FAILURE);
         ("connectionrefused", Cr.NS_ERROR_CONNECTION_REFUSED);
         ("connectionreset", Cr.NS_ERROR_NET_RESET);
         ("internetdisconnected", Cr.NS_ERROR_OFFLINE);
         ("namenotresolved", Cr.NS_ERROR_UNKNOWN_HOST);
         ("timedout", Cr.NS_ERROR_NET_TIMEOUT);
         ("failed", Cr.NS_ERROR_FAILURE) ]
  /\ (forall name,
        errorCode = Symbolic name ->
        JsMap.get errorMap name = None ->
        ~ In name Object_prototype ->
        abort_error errorCode = Cr.NS_ERROR_FAILURE)
  /\ (forall name,
        errorCode = Symbolic name ->
        In name Object_prototype ->
        abort_error errorCode = Inherited name
        /\ abort_error errorCode <> Cr.NS_ERROR_FAILURE).
Proof.
  intros Hpn Hget Hr Hic Hp Hi. split.
  - unfold abortInterceptedRequest. unfold bind at 1.
    rewrite (takeIntercepted_found w p pn requestId_ this Hpn Hget).
    unfold abort, _failWithErrorCode. mrun.
    eexists. split; [reflexivity|]. simpl.
    split; [reflexivity|]. split; [apply lookup_insert_eq|].
    split; [eexists; rewrite lookup_insert_eq; split; reflexivity|].
    split; [reflexivity|].
    intros error Herror.
    match goal with
    | |- context [onStopRequest this _ error ?w1] =>
        destruct (onStopRequest_failed w1 this (set_interceptedChannel None r) p error)
          as (w2 & Hrun & Hem & _)
    end; try reflexivity.
    + simpl. apply lookup_insert_eq.
    + exact Hp.
    + exact Hi.
    + exact (abort_error_code_nonzero errorCode error Herror).
    + exists w2. simpl in Hrun, Hem. rewrite Hrun. split; [reflexivity|]. exact Hem.
  - split; [repeat constructor|]. split.
    + intros name -> Hnone Hnot. now apply abort_error_unknown.
    + intros name -> Hin. rewrite (abort_error_inherited name Hin).
      split; [reflexivity|discriminate].
Qed.

(** ** The interception decision *)

(** The decision of [_shouldIntercept] for an exchange with a page
    network: interception enabled on the target, or on its browser context,
    or the context forced offline. *)
Lemma shouldIntercept_decision w this r p pn :
  requests w !! this = Some r ->
  _pageNetwork r = Some p ->
  pageNetworks w !! p = Some pn ->
  _shouldIntercept this w
  = (Ok (_requestInterceptionEnabled pn
         || requestInterceptionEnabled (browserContext w (_target pn))
         || bool_decide (onlineOverride (browserContext w (_target pn)) = Some "offline")),
     w).
Proof.
  intros Hr Hp Hpn. unfold _shouldIntercept. mrun.
  destruct (_requestInterceptionEnabled pn); [reflexivity|].
  destruct (requestInterceptionEnabled (browserContext w (_target pn))); [reflexivity|].
  simpl. destruct (bool_decide _); reflexivity.
Qed.

Lemma shouldIntercept_untracked w this r :
  requests w !! this = Some r ->
  _pageNetwork r = None ->
  _shouldIntercept this w = (Ok false, w).
Proof. intros Hr Hp. unfold _shouldIntercept. mrun. reflexivity. Qed.

(** When no policy asks for interception, the exchange is not intercepted
    and its request event says so. *)
Lemma shouldPrepareForIntercept_passes w this r p pn :
  requests w !! this = Some r ->
  _pageNetwork r = Some p ->
  pageNetworks w !! p = Some pn ->
  _fallThroughInterceptController r = None ->
  redirectedFromId r = None ->
  _requestInterceptionEnabled pn = false ->
  requestInterceptionEnabled (browserContext w (_target pn)) = false ->
  onlineOverride (browserContext w (_target pn)) <> Some "offline" ->
  exists w',
    shouldPrepareForIntercept this (httpChannel r) w = (Ok false, w')
    /\ emitted w'
       = emitted w
         ++ [(p, Events.Request (URI (channel w (httpChannel r))) (_frameId r) false
                   (requestId r) None (navigationId r))]
    /\ requests w' = requests w /\ calls w' = calls w.
Proof.
  intros Hr Hp Hpn Hfall Hred Hen Hctx Hoff.
  unfold shouldPrepareForIntercept. unfold bind at 1. unfold the_request at 1. rewrite Hr.
  rewrite Hfall, Hred, Nat.eqb_refl. cbn [negb].
  unfold bind at 1. rewrite (shouldIntercept_decision w this r p pn Hr Hp Hpn).
  rewrite Hen, Hctx. rewrite bool_decide_eq_false_2 by exact Hoff. cbn [orb negb].
  unfold _sendOnRequest. mrun. eexists. split; [reflexivity|]. simpl. auto.
Qed.

(** With interception enabled on the target and the context online, an
    intercepted exchange emits its request event as intercepted and joins
    the awaiting map, paused on the intercepted channel. *)
Lemma channelIntercepted_pauses w this r p pn intercepted :
  requests w !! this = Some r ->
  _expectingInterception r = true ->
  _pageNetwork r = Some p ->
  pageNetworks w !! p = Some pn ->
  onlineOverride (browserContext w (_target pn)) <> Some "offline" ->
  _requestInterceptionEnabled pn = true ->
  exists w',
    channelIntercepted this intercepted w = (Ok tt, w')
    /\ emitted w'
       = emitted w
         ++ [(p, Events.Request (URI (channel w (httpChannel r))) (_frameId r) true
                   (requestId r) (redirectedFromId r) (navigationId r))]
    /\ pageNetworks w' !! p
       = Some (set_interceptedRequests
                 (JsMap.set (_interceptedRequests pn) (requestId r) this) pn)
    /\ (exists r', requests w' !! this = Some r'
                   /\ _interceptedChannel r' = Some intercepted)
    /\ calls w' = calls w.
Proof.
  intros Hr Hexp Hp Hpn Hoff Hen.
  unfold channelIntercepted. unfold bind at 1. unfold the_request at 1. rewrite Hr, Hexp.
  cbn [negb]. mrun. rewrite bool_decide_eq_false_2 by exact Hoff.
  unfold _shouldIntercept, _sendOnRequest. mrun.
  eexists. split; [reflexivity|]. cbn [emitted pageNetworks requests calls
    with_emitted with_pageNetworks with_requests with_calls].
  split; [reflexivity|]. split; [apply lookup_insert_eq|].
  split; [|reflexivity].
  eexists. split; [apply lookup_insert_eq|]. reflexivity.
Qed.

(** C4, the offline path as the code runs it. In a context forced
    offline, whether or not interception is enabled, [channelIntercepted]
    on an exchange expecting interception aborts it without emitting any
    event and without adding it to the awaiting map, and the stop that the
    browser then delivers emits [RequestFailed] and no response. The error
    that reaches [cancelInterception], and the event, is [NS_ERROR_FAILURE],
    not [NS_ERROR_OFFLINE]: [abort] looks its argument up in [errorMap],
    where the number [NS_ERROR_OFFLINE] is no key, while the name
    ["internetdisconnected"] would have given [NS_ERROR_OFFLINE]. *)
Theorem channelIntercepted_offline_cancels_with_generic_failure
    w this r p pn intercepted :
  requests w !! this = Some r ->
  _expectingInterception r = true ->
  _pageNetwork r = Some p ->
  _responseInterceptor r = None ->
  pageNetworks w !! p = Some pn ->
  onlineOverride (browserContext w (_target pn)) = Some "offline" ->
  exists w' w'',
    channelIntercepted this intercepted w = (Ok tt, w')
    /\ calls w' = calls w ++ [cancelInterception intercepted Cr.NS_ERROR_FAILURE]
    /\ emitted w' = emitted w
    /\ pageNetworks w' = pageNetworks w
    /\ onStopRequest this (httpChannel r) Cr.NS_ERROR_FAILURE w' = (Ok tt, w'')
    /\ emitted w''
       = emitted w ++ [(p, Events.RequestFailed (requestId r) Cr.NS_ERROR_FAILURE)]
    /\ abort_error (Numeric Cr.NS_ERROR_OFFLINE) = Cr.NS_ERROR_FAILURE
    /\ Cr.NS_ERROR_FAILURE <> Cr.NS_ERROR_OFFLINE
    /\ abort_error (Symbolic "internetdisconnected") = Cr.NS_ERROR_OFFLINE.
Proof.
  intros Hr Hexp Hp Hi Hpn Hoff.
  assert (Hab : abort_error (Numeric Cr.NS_ERROR_OFFLINE) = Cr.NS_ERROR_FAILURE)
    by reflexivity.
  unfold channelIntercepted, abort, _failWithErrorCode. rewrite Hab. mrun.
  match goal with
  | |- context [(Ok tt, ?w1) = (Ok tt, _)] =>
      destruct (onStopRequest_failed w1 this
                  (set_interceptedChannel None
                     (set_interceptedChannel (Some intercepted)
                        (set_expectingInterception false r)))
                  p Cr.NS_ERROR_FAILURE)
        as (w2 & Hrun & Hem & _)
  end; try reflexivity.
  - simpl. apply lookup_insert_eq.
  - exact Hp.
  - exact Hi.
  - discriminate.
  - eexists. exists w2. split; [reflexivity|]. simpl in *.
    split; [reflexivity|]. split; [reflexivity|]. split; [reflexivity|].
    split; [exact Hrun|]. split; [exact Hem|].
    split; [reflexivity|]. split; [discriminate|reflexivity].
Qed.

(** ** Redirect chains *)

Lemma numeral_digits_only n : digits_only (Js.numeral n).
Proof.
  unfold Js.numeral. induction (N.to_uint n); simpl; auto; split; auto; discriminate.
Qed.

Lemma numeral_inj n m : Js.numeral n = Js.numeral m -> n = m.
Proof.
  unfold Js.numeral. intros H. apply DecimalN.Unsigned.to_uint_inj.
  assert (E : NilEmpty.uint_of_string (NilEmpty.string_of_uint (N.to_uint n))
              = NilEmpty.uint_of_string (NilEmpty.string_of_uint (N.to_uint m)))
    by now rewrite H.
  rewrite !NilEmpty.usu in E. now injection E.
Qed.

Lemma digits_then_dash c1 c2 s1 s2 :
  digits_only c1 -> digits_only c2 ->
  (c1 ++ String "-" s1)%string = (c2 ++ String "-" s2)%string ->
  c1 = c2 /\ s1 = s2.
Proof.
  revert c2. induction c1 as [|a c1 IH]; intros [|b c2] H1 H2 E; simpl in *.
  - injection E as ->. auto.
  - injection E as <- _. destruct H2 as [H2 _]. congruence.
  - injection E as -> _. destruct H1 as [H1 _]. congruence.
  - injection E as -> E. destruct H1 as [_ H1], H2 as [_ H2].
    destruct (IH c2 H1 H2 E) as [-> ->]. auto.
Qed.

Lemma digits_no_dash c s t : digits_only s -> s <> (c ++ String "-" t)%string.
Proof.
  revert c. induction s as [|a s IH]; intros [|b c] H E; simpl in *; try discriminate.
  - injection E as -> _. destruct H as [H _]. congruence.
  - injection E as _ E. destruct H as [_ H]. exact (IH c H E).
Qed.

Lemma redirect_id_inj c1 n1 c2 n2 :
  redirect_id c1 n1 = redirect_id c2 n2 -> c1 = c2 /\ n1 = n2.
Proof.
  unfold redirect_id. intros E.
  change ("-redirect" ++ Js.numeral n1)%string
    with (String "-" ("redirect" ++ Js.numeral n1))%string in E.
  change ("-redirect" ++ Js.numeral n2)%string
    with (String "-" ("redirect" ++ Js.numeral n2))%string in E.
  apply digits_then_dash in E as [E1 E2]; try apply numeral_digits_only.
  simpl in E2. injection E2 as E2.
  split; now apply numeral_inj.
Qed.

Lemma redirect_id_not_numeral c n m : Js.numeral m <> redirect_id c n.
Proof.
  unfold redirect_id.
  change ("-redirect" ++ Js.numeral n)%string
    with (String "-" ("redirect" ++ Js.numeral n))%string.
  apply digits_no_dash, numeral_digits_only.
Qed.

(** What holds of the exchange at each position after [prev]. *)
Lemma follows_at prev rest : forall k,
  follows prev rest ->
  _redirectedIndex prev = N.of_nat k ->
  forall i r,
    rest !! i = Some r ->
    _redirectedIndex r = N.of_nat (S (k + i))
    /\ navigationId r = navigationId prev
    /\ exists ch before,
         (prev :: rest) !! i = Some before
         /\ requestId r = redirect_id (channelId ch) (N.of_nat (S (k + i)))
         /\ redirectedFromId r = Some (requestId before).
Proof.
  revert prev. induction rest as [|x rest IH]; intros prev k Hf Hk i r Hi.
  - destruct i; discriminate.
  - destruct Hf as [[ch (Hid & Hnav & Hfrom & Hidx)] Hf]. simpl in Hid, Hnav, Hfrom, Hidx.
    assert (Hx : _redirectedIndex x = N.of_nat (S k)) by (rewrite Hidx, Hk; lia).
    destruct i as [|i].
    + simpl in Hi. injection Hi as <-. rewrite Nat.add_0_r.
      split; [exact Hx|]. split; [exact Hnav|].
      exists ch, prev. split; [reflexivity|]. split; [|exact Hfrom].
      rewrite Hid. unfold redirect_id. rewrite Hk. do 3 f_equal. lia.
    + simpl in Hi. destruct (IH x (S k) Hf Hx i r Hi) as (H1 & H2 & ch' & before & H3 & H4 & H5).
      replace (S (k + S i)) with (S (S k + i)) by lia.
      split; [exact H1|]. split; [congruence|].
      exists ch', before. auto.
Qed.

Lemma chain_at ch0 first rest :
  redirect_chain ch0 first rest ->
  forall i r,
    (first :: rest) !! i = Some r ->
    _redirectedIndex r = N.of_nat i
    /\ navigationId r = navigationId first
    /\ match i with
       | O => requestId r = Js.numeral (channelId ch0) /\ redirectedFromId r = None
       | S i' =>
           exists ch before,
             (first :: rest) !! i' = Some before
             /\ requestId r = redirect_id (channelId ch) (N.of_nat i)
             /\ redirectedFromId r = Some (requestId before)
       end.
Proof.
  intros [(Hid & Hnav & Hfrom & Hidx) Hf] i r Hi. simpl in Hid, Hnav, Hfrom, Hidx.
  destruct i as [|i].
  - simpl in Hi. injection Hi as <-. auto.
  - simpl in Hi. destruct (follows_at first rest 0 Hf Hidx i r Hi) as (H1 & H2 & H3).
    simpl in H1, H3. auto.
Qed.

Lemma chain_ids_NoDup ch0 first rest :
  redirect_chain ch0 first rest -> NoDup (map requestId (first :: rest)).
Proof.
  intros Hchain. apply NoDup_alt. intros i j id Hi Hj.
  rewrite list_lookup_fmap in Hi, Hj.
  destruct ((first :: rest) !! i) as [ri|] eqn:Ei; [|discriminate].
  destruct ((first :: rest) !! j) as [rj|] eqn:Ej; [|discriminate].
  simpl in Hi, Hj. injection Hi as Hi. injection Hj as Hj.
  destruct (chain_at ch0 first rest Hchain i ri Ei) as (_ & _ & Hri).
  destruct (chain_at ch0 first rest Hchain j rj Ej) as (_ & _ & Hrj).
  destruct i as [|i], j as [|j]; [reflexivity| | |].
  - destruct Hri as [Hri _]. destruct Hrj as (ch & before & _ & Hrj & _).
    exfalso. apply (redirect_id_not_numeral (channelId ch) (N.of_nat (S j)) (channelId ch0)).
    congruence.
  - destruct Hrj as [Hrj _]. destruct Hri as (ch & before & _ & Hri & _).
    exfalso. apply (redirect_id_not_numeral (channelId ch) (N.of_nat (S i)) (channelId ch0)).
    congruence.
  - destruct Hri as (ch & before & _ & Hri & _). destruct Hrj as (ch' & before' & _ & Hrj & _).
    assert (E : redirect_id (channelId ch) (N.of_nat (S i))
                = redirect_id (channelId ch') (N.of_nat (S j))) by congruence.
    apply redirect_id_inj in E as [_ E]. lia.
Qed.

Lemma find_by_id chain i r :
  NoDup (map requestId chain) ->
  chain !! i = Some r ->
  List.find (fun x => String.eqb (requestId x) (requestId r)) chain = Some r.
Proof.
  revert i. induction chain as [|x chain IH]; intros i Hnd Hi; [destruct i; discriminate|].
  simpl in Hnd. apply NoDup_cons in Hnd as [Hx Hnd]. simpl.
  destruct (String.eqb_spec (requestId x) (requestId r)) as [E|Hne].
  - destruct i as [|i]; simpl in Hi; [congruence|].
    exfalso. apply Hx. rewrite E. apply list_elem_of_fmap. exists r.
    split; [reflexivity|]. eapply list_elem_of_lookup_2; eauto.
  - destruct i as [|i]; simpl in Hi.
    + injection Hi as ->. congruence.
    + eauto.
Qed.

(** C3, as amended. In a redirect chain every exchange carries the
    navigation id of the first one, which is the first exchange's own id
    when its channel loads a main document and is absent otherwise; the
    first exchange has no predecessor, the [redirectedFromId] of every
    other exchange looks up the exchange just before it, whose redirect
    ordinal is smaller, so that walking back from position [i] reaches the
    first exchange in [i] steps; the exchange at position [i] has ordinal
    [i], which its id carries as suffix from the first redirect on; and the
    ids of the chain are pairwise distinct. *)
Theorem redirect_chain_lineage ch0 first rest :
  redirect_chain ch0 first rest ->
  let chain := first :: rest in
  (forall r, r ∈ chain -> navigationId r = navigationId first)
  /\ navigationId first
     = (if isMainDocumentChannel ch0 then Some (requestId first) else None)
  /\ predecessor chain first = None
  /\ (forall i r,
        chain !! S i = Some r ->
        exists before,
          chain !! i = Some before
          /\ predecessor chain r = Some before
          /\ (_redirectedIndex before < _redirectedIndex r)%N)
  /\ (forall i r, chain !! i = Some r -> walk_back chain r i = Some first)
  /\ (forall i r,
        chain !! i = Some r ->
        _redirectedIndex r = N.of_nat i
        /\ ((0 < i)%nat -> exists c, requestId r = redirect_id c (N.of_nat i)))
  /\ NoDup (map requestId chain).
Proof.
  intros Hchain chain.
  pose proof (chain_at ch0 first rest Hchain) as Hat. fold chain in Hat.
  pose proof (chain_ids_NoDup ch0 first rest Hchain) as Hnd. fold chain in Hnd.
  assert (Hfirst : predecessor chain first = None).
  { unfold predecessor. destruct (Hat 0%nat first eq_refl) as (_ & _ & _ & ->). reflexivity. }
  assert (Hstep : forall i r,
             chain !! S i = Some r ->
             exists before,
               chain !! i = Some before
               /\ predecessor chain r = Some before
               /\ (_redirectedIndex before < _redirectedIndex r)%N).
  { intros i r Hi. destruct (Hat (S i) r Hi) as (Hidx & _ & ch & before & Hb & _ & Hfrom).
    exists before. split; [exact Hb|]. split.
    - unfold predecessor. rewrite Hfrom. now apply (find_by_id chain i).
    - destruct (Hat i before Hb) as (Hidx' & _). rewrite Hidx, Hidx'. lia. }
  split.
  { intros r Hr. apply list_elem_of_lookup in Hr as [i Hi].
    destruct (Hat i r Hi) as (_ & H & _). exact H. }
  split.
  { destruct Hchain as [(Hid & Hnav & _) _]. simpl in Hid, Hnav.
    rewrite Hnav, Hid. reflexivity. }
  split; [exact Hfirst|]. split; [exact Hstep|]. split.
  { intros i. induction i as [|i IH]; intros r Hi.
    - simpl in Hi. injection Hi as <-. reflexivity.
    - destruct (Hstep i r Hi) as (before & Hb & Hpred & _).
      simpl. rewrite Hpred. now apply IH. }
  split; [|exact Hnd].
  intros i r Hi. destruct (Hat i r Hi) as (Hidx & _ & Hshape).
  split; [exact Hidx|]. intros Hpos. destruct i as [|i]; [lia|].
  destruct Hshape as (ch & before & _ & Hid & _). eauto.
Qed.

(** ** The constructor *)

Lemma appendExtraHTTPHeaders_run c headers w :
  exists w', appendExtraHTTPHeaders c headers w = (Ok tt, w') /\ same_objects w w'.
Proof.
  unfold appendExtraHTTPHeaders. destruct headers as [l|].
  - destruct (for_of_calls (fun h => [setRequestHeader c (name h) (value h)])
                (fun header => call (setRequestHeader c (name header) (value header))) l w)
      as (w' & Hrun & _ & H1 & H2 & H3 & H4 & H5 & H6).
    { intros x w0. reflexivity. }
    exists w'. split; [exact Hrun|].
    pose proof (only_calls_for_of l
                  (fun header => call (setRequestHeader c (name header) (value header)))
                  (fun x => only_calls_call _) w) as Hsame.
    rewrite Hrun in Hsame. exact Hsame.
  - exists w. split; [reflexivity|apply same_objects_refl].
Qed.

(** The constructor without predecessor: the new exchange has the identity
    computed by [identify] and is registered for its channel; it belongs
    to the page network of the channel's target; no event is emitted. *)
Lemma new_NetworkRequest_first w c :
  exists w' r,
    new_NetworkRequest c None w = (Ok (next w), w')
    /\ requests w' = <[next w := r]> (requests w)
    /\ constructed (channel w c) None r
    /\ httpChannel r = c
    /\ _sentOnResponse r = false
    /\ _responseInterceptor r = None
    /\ _responseBodyChunks r = Some []
    /\ _pageNetwork r = loadTarget (channel w c)
    /\ (forall p, _pageNetwork r = Some p -> is_Some (pageNetworks w' !! p))
    /\ emitted w' = emitted w
    /\ _channelToRequest w' = <[c := next w]> (_channelToRequest w).
Proof.
  unfold new_NetworkRequest, _findPageNetwork, forPageTarget.
  destruct (loadTarget (channel w c)) as [target|] eqn:Htarget.
  - destruct (pageNetworks w !! target) as [pn|] eqn:Hpn; mrun;
      repeat match goal with
      | |- context [appendExtraHTTPHeaders c ?h ?w1] =>
          let w2 := fresh "w" in
          let Hrun := fresh "Hrun" in
          let Hs := fresh "Hsame" in
          destruct (appendExtraHTTPHeaders_run c h w1) as (w2 & Hrun & Hs);
          rewrite Hrun; simpl
      end.
    + pose proof (same_objects_trans _ _ _ Hsame Hsame0) as HS.
      destruct HS as (S1 & S2 & S3 & S4 & S5 & S6 & S7). simpl in *.
      eexists. eexists. split; [reflexivity|]. simpl.
      rewrite S1, S3, S4, S5.
      split; [reflexivity|]. split; [repeat split|].
      repeat (split; [reflexivity|]).
      split; [|auto]. intros p [= <-]. rewrite Hpn. eauto.
    + munfold. destruct Hsame as (S1 & S2 & S3 & S4 & S5 & S6 & S7).
      simpl in *.
      eexists. eexists. split; [reflexivity|]. simpl.
      rewrite S1, S3, S4, S5.
      split; [reflexivity|]. split; [repeat split|].
      repeat (split; [reflexivity|]).
      split; [|auto]. intros p [= <-]. rewrite lookup_insert_eq. eauto.
  - mrun. eexists. eexists. split; [reflexivity|]. simpl.
    split; [reflexivity|]. split; [repeat split|].
    repeat (split; [reflexivity|]).
    split; [|auto]. intros p H. discriminate.
Qed.

Lemma numeral_nonempty n : Js.nonempty (Js.numeral n) = true.
Proof.
  unfold Js.numeral. destruct n as [|p]; [reflexivity|].
  simpl. pose proof (DecimalPos.Unsigned.to_uint_nonnil p) as H.
  destruct (Pos.to_uint p); try reflexivity. congruence.
Qed.

Lemma constructed_id_nonempty ch from r :
  constructed ch from r -> Js.nonempty (requestId r) = true.
Proof.
  intros (Hid & _). rewrite Hid. destruct from as [f|]; simpl.
  - pose proof (numeral_nonempty (channelId ch)) as H.
    destruct (Js.numeral (channelId ch)); [discriminate|reflexivity].
  - apply numeral_nonempty.
Qed.

(** The constructor for a redirect of an exchange without response
    interceptor: the predecessor is finished first, then the new exchange,
    which has the identity computed by [identify] and inherits the page
    network, emits its request event, not intercepted. *)
Lemma new_NetworkRequest_redirect w c f from :
  requests w !! f = Some from ->
  _responseInterceptor from = None ->
  Js.nonempty (requestId from) = true ->
  (forall p, _pageNetwork from = Some p -> is_Some (pageNetworks w !! p)) ->
  exists w' r,
    new_NetworkRequest c (Some f) w = (Ok (next w), w')
    /\ requests w' = <[next w := r]> (requests w)
    /\ constructed (channel w c) (Some from) r
    /\ httpChannel r = c
    /\ _pageNetwork r = _pageNetwork from
    /\ _responseInterceptor r = None
    /\ emitted w'
       = emitted w
         ++ match _pageNetwork from with
            | Some p =>
                [(p, Events.RequestFinished (requestId from));
                 (p, Events.Request (URI (channel w c)) (frameId (channel w c)) false
                       (requestId r) (Some (requestId from)) (navigationId from))]
            | None => []
            end.
Proof.
  intros Hf Hi Hid Hpn.
  unfold new_NetworkRequest, _sendOnRequestFinished, _sendOnRequestFinishedImpl, _sendOnRequest.
  destruct (_pageNetwork from) as [p|] eqn:Hp.
  - destruct (Hpn p eq_refl) as [pn Hpn'].
    mrun;
      repeat match goal with
      | |- context [appendExtraHTTPHeaders c ?h ?w1] =>
          let w2 := fresh "w" in
          let Hrun := fresh "Hrun" in
          let Hs := fresh "Hsame" in
          destruct (appendExtraHTTPHeaders_run c h w1) as (w2 & Hrun & Hs);
          rewrite Hrun; simpl
      end.
    pose proof (same_objects_trans _ _ _ Hsame Hsame0) as (S1 & S2 & S3 & S4 & S5 & S6 & S7).
    simpl in *. mrun.
    eexists. eexists. split; [reflexivity|]. simpl.
    rewrite S1, S4. rewrite <- app_assoc.
    split; [reflexivity|]. split; [repeat split|].
    repeat (split; [reflexivity|]). reflexivity.
  - mrun. eexists. eexists. split; [reflexivity|]. simpl.
    split; [reflexivity|]. split; [repeat split|].
    repeat (split; [reflexivity|]). now rewrite app_nil_r.
Qed.

(** ** The properties on the sample worlds *)

Example btoa_hello : Js.btoa "hello" = "aGVsbG8=".
Proof. reflexivity. Qed.

Example atob_hello : Js.atob "aGVsbG8=" = Some "hello".
Proof. reflexivity. Qed.

Example atob_rejects : Js.atob "a" = None.
Proof. reflexivity. Qed.

(** [atob] undoes [btoa] on every byte value, in each of the three
    alignments of the input with the groups of three bytes. *)
Example atob_btoa_all_bytes :
  Js.atob (Js.btoa Sample.all_bytes) = Some Sample.all_bytes
  /\ Js.atob (Js.btoa (String "x" Sample.all_bytes))
     = Some (String "x" Sample.all_bytes)
  /\ Js.atob (Js.btoa (String "x" (String "y" Sample.all_bytes)))
     = Some (String "x" (String "y" Sample.all_bytes)).
Proof. vm_compute. repeat split. Qed.

Example split_encodings_example : Js.split_encodings "gzip ,	br" = ["gzip"; "br"].
Proof. reflexivity. Qed.

Example split_encodings_empty : Js.split_encodings EmptyString = [EmptyString].
Proof. reflexivity. Qed.

Example numeral_offline : Js.numeral Cr.NS_ERROR_OFFLINE = "2152398864".
Proof. reflexivity. Qed.

(** The cap is reached without eviction; the next body evicts both older
    entries, because the loop goes on while the total is not below the
    cap. *)
Example two_bodies_fill_the_cap :
  _totalSize Sample.two_bodies = 10
  /\ retained_bytes (_responses Sample.two_bodies) = 10.
Proof. split; reflexivity. Qed.

Example third_body_evicts_both :
  let s := addResponseBody Sample.two_bodies "c" (Sample.plainChannel 3 false) "ccccc" in
  _totalSize s = 5
  /\ map (fun '(k, r) => (k, Stored.evicted r)) (_responses s)
     = [("a", true); ("b", true); ("c", false)].
Proof. split; reflexivity. Qed.

(** Storing under an id that is present keeps the position of the entry
    and still counts the replaced body in the running total. *)
Example same_id_keeps_position :
  let s := addResponseBody Sample.two_bodies "a" (Sample.plainChannel 3 false) "AAAAA" in
  _totalSize s = 5
  /\ retained_bytes (_responses s) = 0
  /\ map (fun '(k, r) => (k, Stored.evicted r)) (_responses s)
     = [("a", true); ("b", true)].
Proof. repeat split; reflexivity. Qed.

(** The recorded encodings are undone first recorded first. *)
Example encodings_in_recorded_order :
  getBase64EncodedResponse Sample.marking
    (addResponseBody (new_ResponseStorage 100 100) "x" Sample.encodedChannel "data") "x"
  = ([ {| conv_input := "data"; conv_source := "gzip"; conv_dest := "uncompressed" |};
       {| conv_input := "data<gzip>"; conv_source := "br"; conv_dest := "uncompressed" |} ],
     Ok (Reply.mk (Js.btoa "data<gzip><br>") false)).
Proof. reflexivity. Qed.

(** Interception of the sample exchange: the request event is emitted when
    the channel is intercepted, and the exchange awaits a decision. *)
Example paused_awaits_decision :
  emitted Sample.paused
  = [(1%nat, Events.Request "http://example.test/" (Some "frame-1") true "10" None
               (Some "10"))]
  /\ (_interceptedRequests <$> pageNetworks Sample.paused !! 1%nat) = Some [("10", 0%nat)]
  /\ _interceptedChannel (Sample.exchange Sample.paused 0) = Some 20%nat.
Proof. repeat split; reflexivity. Qed.

(** The events of a main document redirected twice. *)
Example redirected_document_events :
  emitted Sample.redirected_document
  = [(1%nat, Events.RequestFinished "10");
     (1%nat, Events.Request "http://example.test/" (Some "frame-1") false "13-redirect1"
               (Some "10") (Some "10"));
     (1%nat, Events.RequestFinished "13-redirect1");
     (1%nat, Events.Request "http://example.test/" (Some "frame-1") false "14-redirect2"
               (Some "13-redirect1") (Some "10"))].
Proof. reflexivity. Qed.



Lemma addResponseBody_over_response_cap_witness :
  let s := new_ResponseStorage 100 4 in
  let s' := addResponseBody s "x" (Sample.plainChannel 1 false) "hello" in
  _maxResponseSize s < Js.len "hello"
  /\ JsMap.get (_responses s') "x" = Some (Stored.mk EmptyString true None)
  /\ _totalSize s' = _totalSize s
  /\ (forall other, other <> "x" ->
        JsMap.get (_responses s') other = JsMap.get (_responses s) other)
  /\ retained_bytes (_responses s') <= retained_bytes (_responses s)
  /\ (forall converter, getBase64EncodedResponse converter s' "x" = ([], Ok evicted_reply)).
Proof.
  intros s s'.
  assert (H : _maxResponseSize s < Js.len "hello") by (vm_compute; reflexivity).
  split; [exact H|].
  exact (addResponseBody_over_response_cap s "x" (Sample.plainChannel 1 false) "hello" H).
Defined.





Lemma getBase64EncodedResponse_outcomes_witness :
  let s := addResponseBody (new_ResponseStorage 100 100) "x" Sample.encodedChannel "data" in
  (snd (getBase64EncodedResponse Sample.marking s "y") = Throw (not_found "y")
   <-> JsMap.get (_responses s) "y" = None)
  /\ snd (getBase64EncodedResponse Sample.marking s "y") = Throw (not_found "y")
  /\ snd (getBase64EncodedResponse Sample.marking s "x")
     = Ok (Reply.mk (Js.btoa "data<gzip><br>") false).
Proof.
  intros s.
  destruct (getBase64EncodedResponse_outcomes Sample.marking s "y") as (H1 & _).
  destruct (getBase64EncodedResponse_outcomes Sample.marking s "x") as (_ & _ & _ & H4).
  split; [exact H1|]. split; [apply H1; reflexivity|].
  destruct (H4 (Stored.mk "data" false (Some ["gzip"; "br"])) eq_refl eq_refl) as [H _].
  exact H.
Defined.

Lemma redirect_chain_lineage_witness :
  let w := Sample.redirected_document in
  let first := Sample.exchange w 0 in
  let rest := [Sample.exchange w 1; Sample.exchange w 2] in
  let chain := first :: rest in
  redirect_chain (Sample.plainChannel 10 true) first rest
  /\ (forall r, r ∈ chain -> navigationId r = navigationId first)
  /\ navigationId first = Some (requestId first)
  /\ predecessor chain first = None
  /\ (forall i r,
        chain !! S i = Some r ->
        exists before,
          chain !! i = Some before
          /\ predecessor chain r = Some before
          /\ (_redirectedIndex before < _redirectedIndex r)%N)
  /\ (forall i r, chain !! i = Some r -> walk_back chain r i = Some first)
  /\ (forall i r,
        chain !! i = Some r ->
        _redirectedIndex r = N.of_nat i
        /\ ((0 < i)%nat -> exists c, requestId r = redirect_id c (N.of_nat i)))
  /\ NoDup (map requestId chain).
Proof.
  intros w first rest chain.
  assert (H : redirect_chain (Sample.plainChannel 10 true) first rest).
  { split; [vm_compute; repeat split|]. split.
    - exists (Sample.plainChannel 13 false). vm_compute. repeat split.
    - split; [|exact I]. exists (Sample.plainChannel 14 false). vm_compute. repeat split. }
  split; [exact H|].
  exact (redirect_chain_lineage (Sample.plainChannel 10 true) first rest H).
Defined.

(** The exchanges that the observer builds for a subresource redirected
    once form a redirect chain without navigation id: the navigation id of
    the first exchange is not its own id. *)
Lemma subresource_chain_without_navigationId :
  let w := Sample.redirected_subresource in
  let first := Sample.exchange w 0 in
  let rest := [Sample.exchange w 1] in
  requests w !! 0%nat = Some first
  /\ requests w !! 1%nat = Some (Sample.exchange w 1)
  /\ redirect_chain (Sample.plainChannel 11 false) first rest
  /\ requestId first = "11"
  /\ navigationId first = None
  /\ ~ navigationId_is_first_id first rest.
Proof.
  intros w first rest.
  split; [vm_compute; reflexivity|]. split; [vm_compute; reflexivity|]. split.
  { split; [vm_compute; repeat split|]. split; [|exact I].
    exists (Sample.plainChannel 12 false). vm_compute. repeat split. }
  split; [vm_compute; reflexivity|]. split; [vm_compute; reflexivity|].
  intros Hclaim. specialize (Hclaim first ltac:(left)).
  vm_compute in Hclaim. discriminate Hclaim.
Qed.

Lemma channelIntercepted_offline_witness :
  let w := Sample.expecting_offline in
  let r := Sample.exchange w 0 in
  requests w !! 0%nat = Some r
  /\ _expectingInterception r = true
  /\ _pageNetwork r = Some 1%nat
  /\ _responseInterceptor r = None
  /\ pageNetworks w !! 1%nat = Some Sample.new_tracker
  /\ onlineOverride (browserContext w (_target Sample.new_tracker)) = Some "offline"
  /\ exists w' w'',
       channelIntercepted 0 20 w = (Ok tt, w')
       /\ calls w' = calls w ++ [cancelInterception 20 Cr.NS_ERROR_FAILURE]
       /\ emitted w' = emitted w
       /\ pageNetworks w' = pageNetworks w
       /\ onStopRequest 0 (httpChannel r) Cr.NS_ERROR_FAILURE w' = (Ok tt, w'')
       /\ emitted w''
          = emitted w ++ [(1%nat, Events.RequestFailed (requestId r) Cr.NS_ERROR_FAILURE)]
       /\ abort_error (Numeric Cr.NS_ERROR_OFFLINE) = Cr.NS_ERROR_FAILURE
       /\ Cr.NS_ERROR_FAILURE <> Cr.NS_ERROR_OFFLINE
       /\ abort_error (Symbolic "internetdisconnected") = Cr.NS_ERROR_OFFLINE.
Proof.
  intros w r.
  assert (H1 : requests w !! 0%nat = Some r) by (vm_compute; reflexivity).
  assert (H2 : _expectingInterception r = true) by (vm_compute; reflexivity).
  assert (H3 : _pageNetwork r = Some 1%nat) by (vm_compute; reflexivity).
  assert (H4 : _responseInterceptor r = None) by (vm_compute; reflexivity).
  assert (H5 : pageNetworks w !! 1%nat = Some Sample.new_tracker)
    by (vm_compute; reflexivity).
  assert (H6 : onlineOverride (browserContext w (_target Sample.new_tracker))
               = Some "offline") by (vm_compute; reflexivity).
  repeat (split; [assumption|]).
  exact (channelIntercepted_offline_cancels_with_generic_failure
           w 0 r 1 Sample.new_tracker 20 H1 H2 H3 H4 H5 H6).
Defined.

Lemma disableRequestInterception_resumes_all_witness :
  let w := Sample.paused in
  let pn := Sample.tracker w in
  pageNetworks w !! 1%nat = Some pn
  /\ all_paused w (JsMap.values (_interceptedRequests pn))
  /\ exists w',
       disableRequestInterception 1 w = (Ok tt, w')
       /\ (exists pn', pageNetworks w' !! 1%nat = Some pn'
                       /\ _interceptedRequests pn' = []
                       /\ _requestInterceptionEnabled pn' = false)
       /\ calls w' = calls w ++ [resetInterceptionWithURI 20 None]
       /\ emitted w' = emitted w.
Proof.
  intros w pn.
  assert (H1 : pageNetworks w !! 1%nat = Some pn) by (vm_compute; reflexivity).
  assert (H2 : all_paused w (JsMap.values (_interceptedRequests pn))).
  { split.
    - change (JsMap.values (_interceptedRequests pn)) with [0%nat]. apply NoDup_singleton.
    - intros r Hr. change (JsMap.values (_interceptedRequests pn)) with [0%nat] in Hr.
      apply list_elem_of_singleton in Hr as ->.
      exists (Sample.exchange w 0), 20%nat. split; vm_compute; reflexivity. }
  split; [exact H1|]. split; [exact H2|].
  destruct (disableRequestInterception_resumes_all w 1 pn H1 H2)
    as (w' & Hrun & Hpn & Hcalls & Hem & _).
  exists w'. repeat (split; [assumption|]). exact Hem.
Defined.

Lemma abort_inherited_name_witness :
  let w := Sample.paused in
  let pn := Sample.tracker w in
  let r := Sample.exchange w 0 in
  pageNetworks w !! 1%nat = Some pn
  /\ JsMap.get (_interceptedRequests pn) "10" = Some 0%nat
  /\ requests w !! 0%nat = Some r
  /\ _interceptedChannel r = Some 20%nat
  /\ _pageNetwork r = Some 1%nat
  /\ _responseInterceptor r = None
  /\ JsMap.get errorMap "constructor" = None
  /\ In "constructor" Object_prototype
  /\ exists w',
       abortInterceptedRequest 1 "10" (Symbolic "constructor") w = (Ok tt, w')
       /\ calls w' = calls w ++ [cancelInterception 20 (Inherited "constructor")]
       /\ Inherited "constructor" <> Cr.NS_ERROR_FAILURE.
Proof.
  intros w pn r.
  assert (H1 : pageNetworks w !! 1%nat = Some pn) by (vm_compute; reflexivity).
  assert (H2 : JsMap.get (_interceptedRequests pn) "10" = Some 0%nat) by (vm_compute; reflexivity).
  assert (H3 : requests w !! 0%nat = Some r) by (vm_compute; reflexivity).
  assert (H4 : _interceptedChannel r = Some 20%nat) by (vm_compute; reflexivity).
  assert (H5 : _pageNetwork r = Some 1%nat) by (vm_compute; reflexivity).
  assert (H6 : _responseInterceptor r = None) by (vm_compute; reflexivity).
  assert (H7 : JsMap.get errorMap "constructor" = None) by (vm_compute; reflexivity).
  assert (H8 : In "constructor" Object_prototype) by (left; reflexivity).
  repeat (split; [assumption|]).
  destruct (abort_cancels_with_the_errorMap_lookup w 1 pn "10" 0 r 20
              (Symbolic "constructor") H1 H2 H3 H4 H5 H6)
    as ((w' & Hrun & Hcalls & _) & _ & _ & Hinherited).
  destruct (Hinherited "constructor" eq_refl H8) as [Hvalue Hne].
  rewrite Hvalue in Hcalls, Hne.
  exists w'. auto.
Defined.

Lemma fulfill_absent_headers_witness :
  let w := Sample.fetched in
  let r := Sample.exchange w 0 in
  requests w !! 0%nat = Some r
  /\ _interceptedChannel r = Some 20%nat
  /\ decode_base64body (Some "aGk=") = Some "hi"
  /\ upstream w r (Some (Intercepted.mk "upstream" 0 EmptyString []))
  /\ exists w',
       fulfill 0 (Some 201) None None (Some "aGk=") w = (Ok tt, w')
       /\ calls w'
          = calls w
            ++ [synthesizeStatus 20 (Some 201) (Some EmptyString);
                startSynthesizedResponse 20 "hi"; finishSynthesizedResponse 20]
       /\ _interceptedChannel (Sample.exchange w' 0) = None.
Proof.
  intros w r.
  assert (H1 : requests w !! 0%nat = Some r) by (vm_compute; reflexivity).
  assert (H2 : _interceptedChannel r = Some 20%nat) by (vm_compute; reflexivity).
  assert (H3 : decode_base64body (Some "aGk=") = Some "hi") by (vm_compute; reflexivity).
  assert (H4 : upstream w r (Some (Intercepted.mk "upstream" 0 EmptyString []))).
  { apply (upstream_interceptor w r 1
             {| _originalRequest := 0; _finalRequest := 0; _responseChannel := Some 21%nat;
                _interceptedResponse := Some (Intercepted.mk "upstream" 0 EmptyString []) |});
      vm_compute; reflexivity. }
  repeat (split; [assumption|]).
  destruct (fulfill_absent_headers w 0 r 20 (Some 201) None (Some "aGk=") "hi" H1 H2 H3)
    as (_ & Hwith).
  destruct (Hwith _ H4) as (w' & Hrun & Hcalls & Hreq & _).
  exists w'. split; [exact Hrun|]. split; [exact Hcalls|].
  unfold Sample.exchange. rewrite Hreq, lookup_insert_eq. reflexivity.
Defined.

(** Without headers and without upstream response, [fulfill] on the paused
    sample exchange throws after it has synthesized the status line. *)
Lemma fulfill_synthesizes_status_before_failing :
  let c := fulfill 0 (Some 204) (Some "No Content") None None in
  (exists w',
     c Sample.paused = (Throw (TypeError "headers is not iterable"), w')
     /\ calls w'
        = calls Sample.paused ++ [synthesizeStatus 20 (Some 204) (Some "No Content")])
  /\ ~ fails_before_synthesizing c Sample.paused.
Proof.
  intros c.
  assert (H : exists w',
             c Sample.paused = (Throw (TypeError "headers is not iterable"), w')
             /\ calls w'
                = calls Sample.paused
                  ++ [synthesizeStatus 20 (Some 204) (Some "No Content")]).
  { eexists. split; vm_compute; reflexivity. }
  split; [exact H|].
  destruct H as (w' & Hrun & Hcalls).
  intros (e & w'' & Hrun' & Hsame).
  rewrite Hrun in Hrun'. injection Hrun' as _ <-.
  rewrite Hcalls in Hsame.
  apply (f_equal (@length Call)) in Hsame. rewrite length_app in Hsame.
  simpl in Hsame. lia.
Qed.

(** * Further properties *)

(** Tactics for the sample inputs: a value is not in a list of literals, and
    such a list has no duplicate. *)
Ltac absent :=
  vm_compute;
  let H := fresh "H" in
  intros H;
  repeat match goal with
         | H : list_elem_of _ _ |- _ => inversion H; clear H; subst
         | H : _ ∈ _ |- _ => inversion H; clear H; subst
         end.

Ltac distinct :=
  vm_compute; repeat (constructor; [absent|]); constructor.

(** ** Stores fed with distinct ids *)

Lemma set_fresh {V : Type} (m : list (string * V)) k v :
  k ∉ JsMap.keys m -> JsMap.set m k v = m ++ [(k, v)].
Proof.
  induction m as [|[k0 v0] m IH]; simpl; intros Hk; [reflexivity|].
  apply not_elem_of_cons in Hk as [Hne Hk].
  destruct (String.eqb_spec k0 k) as [->|_]; [congruence|].
  now rewrite IH.
Qed.

Lemma get_app_fresh {V : Type} (m1 m2 : list (string * V)) k :
  k ∉ JsMap.keys m1 -> JsMap.get (m1 ++ m2) k = JsMap.get m2 k.
Proof.
  induction m1 as [|[k0 v0] m1 IH]; simpl; intros Hk; [reflexivity|].
  apply not_elem_of_cons in Hk as [Hne Hk].
  destruct (String.eqb_spec k0 k) as [->|_]; [congruence|]. auto.
Qed.








(** ** What the notifications of an exchange change *)

(** A notification other than the stop of the current channel, delivered to
    an exchange without response interceptor: the identity of the exchange
    and its page network stay, data for the current channel is appended to
    the recorded chunks, an internal redirect rebinds the exchange, and no
    page network, interceptor or channel changes. Without page network
    nothing is emitted. *)
Lemma notify_frame w this r n :
  requests w !! this = Some r ->
  _responseInterceptor r = None ->
  stop_free (httpChannel r) [n] = true ->
  exists res w' r',
    notify this n w = (res, w')
    /\ requests w' !! this = Some r'
    /\ requestId r' = requestId r
    /\ _pageNetwork r' = _pageNetwork r
    /\ _responseInterceptor r' = None
    /\ httpChannel r' = channel_after (httpChannel r) [n]
    /\ _responseBodyChunks r'
       = (fun chunks => chunks ++ received (httpChannel r) [n]) <$> _responseBodyChunks r
    /\ pageNetworks w' = pageNetworks w
    /\ interceptors w' = interceptors w
    /\ channel w' = channel w
    /\ _channelToRequest w' = rebound this (httpChannel r) [n] (_channelToRequest w)
    /\ (_pageNetwork r = None -> emitted w' = emitted w).
Proof.
  intros Hr Hi Hfree.
  assert (Hid : forall l : option (list string), (fun chunks => chunks ++ []) <$> l = l).
  { intros [l|]; simpl; [now rewrite app_nil_r|reflexivity]. }
  assert (Hsend : forall fromCache a b,
             exists w1 r1,
               _sendOnResponse this fromCache a b w = (Ok tt, w1)
               /\ requests w1 !! this = Some r1
               /\ r1 = (if _sentOnResponse r then r else set_sentOnResponse true r)
               /\ pageNetworks w1 = pageNetworks w
               /\ interceptors w1 = interceptors w
               /\ channel w1 = channel w
               /\ _channelToRequest w1 = _channelToRequest w
               /\ calls w1 = calls w
               /\ (_pageNetwork r = None -> emitted w1 = emitted w)).
  { intros fromCache a b. unfold _sendOnResponse, _sendOnResponseImpl.
    destruct (_sentOnResponse r) eqn:Hsent; [|destruct (_pageNetwork r) eqn:Hp]; mrun.
    - exists w, r. auto 10.
    - eexists. eexists. split; [reflexivity|]. simpl. rewrite lookup_insert_eq.
      split; [reflexivity|]. split; [reflexivity|]. repeat split; try reflexivity.
      discriminate.
    - eexists. eexists. split; [reflexivity|]. simpl. rewrite lookup_insert_eq.
      split; [reflexivity|]. split; [reflexivity|]. repeat split; reflexivity. }
  destruct n as [fromCache a b|aRequest|aRequest data|aRequest status|newChannel|];
    simpl notify; cbn [channel_after received rebound].
  - destruct (Hsend fromCache a b) as (w1 & r1 & Hrun & Hr1 & -> & H1 & H2 & H3 & H4 & H5 & H6).
    rewrite Hrun. exists (Ok tt), w1. eexists. split; [reflexivity|].
    split; [exact Hr1|]. rewrite Hid.
    destruct (_sentOnResponse r); simpl; auto 12.
  - unfold onStartRequest. unfold bind at 1. unfold the_request at 1. rewrite Hr.
    destruct (negb (aRequest =? httpChannel r)%nat).
    + exists (Ok tt), w, r. rewrite Hid. auto 12.
    + destruct (only_calls_run
                  (try_ignore (call (listenerOnStartRequest (_originalListener r) aRequest))) w)
        as (res & w' & Hrun & (S1 & S2 & S3 & S4 & S5 & S6 & S7));
        [apply only_calls_try_ignore, only_calls_call|].
      rewrite Hrun. exists res, w', r. rewrite Hid, S1, S2, S3, S5, S6.
      split; [reflexivity|]. split; [exact Hr|]. auto 12.
  - unfold onDataAvailable. unfold bind at 1. unfold the_request at 1. rewrite Hr.
    destruct (Nat.eqb_spec aRequest (httpChannel r)) as [->|Hne]; cbn [negb].
    + destruct (Hsend false None None)
        as (w1 & r1 & Hrun & Hr1 & Hr1eq & H1 & H2 & H3 & H4 & H5 & H6).
      unfold bind at 1. rewrite Hrun.
      assert (Hsame : requestId r1 = requestId r /\ _pageNetwork r1 = _pageNetwork r
                      /\ _responseInterceptor r1 = None /\ httpChannel r1 = httpChannel r
                      /\ _responseBodyChunks r1 = _responseBodyChunks r
                      /\ _originalListener r1 = _originalListener r).
      { subst r1. destruct (_sentOnResponse r); simpl; auto 10. }
      destruct Hsame as (E1 & E2 & E3 & E4 & E5 & E6).
      destruct (_responseBodyChunks r) as [chunks|] eqn:Hchunks.
      * mrun. eexists. eexists. eexists. split; [reflexivity|]. simpl.
        rewrite lookup_insert_eq. split; [reflexivity|]. simpl.
        repeat (split; [solve [auto]|]). auto.
      * mrun. eexists. exists w1, r1. split; [reflexivity|]. simpl.
        split; [exact Hr1|]. rewrite E5. simpl. auto 12.
    + exists (Ok tt), w, r. rewrite Hid. auto 12.
  - simpl in Hfree. rewrite andb_true_r in Hfree.
    unfold onStopRequest. unfold bind at 1. unfold the_request at 1. rewrite Hr, Hfree.
    exists (Ok tt), w, r. rewrite Hid. auto 12.
  - unfold _onInternalRedirect. mrun.
    eexists. eexists. eexists. split; [reflexivity|]. simpl. rewrite lookup_insert_eq.
    split; [reflexivity|]. simpl. rewrite Hid. auto 12.
  - unfold _onInternalRedirectReady. unfold bind at 1. unfold the_request at 1. rewrite Hr.
    destruct (_expectingResumedRequest r) as [resumed|] eqn:Hexp.
    + unfold bind at 1. unfold update_request, bind at 1, the_request, modify. rewrite Hr.
      set (w1 := with_requests _ w).
      destruct (only_calls_run _ w1 (only_calls_resumed_updates (httpChannel r) resumed))
        as (res & w' & Hrun & (S1 & S2 & S3 & S4 & S5 & S6 & S7)).
      rewrite Hrun. exists res, w', (set_expectingResumedRequest None r).
      rewrite Hid, S1, S2, S3, S4, S5, S6. subst w1. simpl. rewrite lookup_insert_eq.
      split; [reflexivity|]. auto 12.
    + exists (Ok tt), w, r. rewrite Hid. auto 12.
Qed.

Lemma stop_free_cons c n ns :
  stop_free c (n :: ns) = true ->
  stop_free c [n] = true /\ stop_free (channel_after c [n]) ns = true.
Proof.
  intros Hfree. destruct n; simpl in *; try (split; [reflexivity|assumption]).
  apply andb_true_iff in Hfree as [H1 H2]. rewrite H1. auto.
Qed.

Lemma channel_after_cons c n ns :
  channel_after c (n :: ns) = channel_after (channel_after c [n]) ns.
Proof. destruct n; reflexivity. Qed.

Lemma received_cons c n ns :
  received c (n :: ns) = received c [n] ++ received (channel_after c [n]) ns.
Proof. destruct n; try reflexivity. simpl. destruct (Nat.eqb _ _); reflexivity. Qed.

Lemma rebound_cons this c n ns m :
  rebound this c (n :: ns) m = rebound this (channel_after c [n]) ns (rebound this c [n] m).
Proof. destruct n; reflexivity. Qed.

Lemma deliver_frame this ns : forall w r,
  requests w !! this = Some r ->
  _responseInterceptor r = None ->
  stop_free (httpChannel r) ns = true ->
  exists r',
    requests (deliver this ns w) !! this = Some r'
    /\ requestId r' = requestId r
    /\ _pageNetwork r' = _pageNetwork r
    /\ _responseInterceptor r' = None
    /\ httpChannel r' = channel_after (httpChannel r) ns
    /\ _responseBodyChunks r'
       = (fun chunks => chunks ++ received (httpChannel r) ns) <$> _responseBodyChunks r
    /\ pageNetworks (deliver this ns w) = pageNetworks w
    /\ interceptors (deliver this ns w) = interceptors w
    /\ channel (deliver this ns w) = channel w
    /\ _channelToRequest (deliver this ns w)
       = rebound this (httpChannel r) ns (_channelToRequest w)
    /\ (_pageNetwork r = None -> emitted (deliver this ns w) = emitted w).
Proof.
  induction ns as [|n ns IH]; intros w r Hr Hi Hfree.
  - exists r. simpl. split; [exact Hr|].
    destruct (_responseBodyChunks r); simpl; rewrite ?app_nil_r; auto 12.
  - apply stop_free_cons in Hfree as [Hn Hns].
    destruct (notify_frame w this r n Hr Hi Hn)
      as (res & w1 & r1 & Hrun & Hr1 & E1 & E2 & E3 & E4 & E5 & E6 & E7 & E8 & E9 & E10).
    assert (Hd : dispatch this w n = w1) by (unfold dispatch; now rewrite Hrun).
    rewrite <- E4 in Hns.
    destruct (IH w1 r1 Hr1 E3 Hns)
      as (r2 & Hr2 & F1 & F2 & F3 & F4 & F5 & F6 & F7 & F8 & F9 & F10).
    simpl deliver. rewrite Hd. exists r2. split; [exact Hr2|].
    rewrite channel_after_cons, received_cons, rebound_cons, <- E4.
    split; [congruence|]. split; [congruence|]. split; [exact F3|]. split; [exact F4|].
    split.
    { rewrite F5, E5. destruct (_responseBodyChunks r); simpl; [|reflexivity].
      now rewrite app_assoc. }
    split; [congruence|]. split; [congruence|]. split; [congruence|].
    split; [now rewrite F9, E9|].
    intros Hnone. rewrite F10 by congruence. auto.
Qed.

(** The successful stop of the current channel of an exchange that has a
    page network and no response interceptor. *)
Lemma onStopRequest_stores w this r p pn chunks :
  requests w !! this = Some r ->
  _pageNetwork r = Some p ->
  pageNetworks w !! p = Some pn ->
  _responseInterceptor r = None ->
  _responseBodyChunks r = Some chunks ->
  exists w' r',
    onStopRequest this (httpChannel r) 0 w = (Ok tt, w')
    /\ pageNetworks w'
       = <[p := set_responseStorage
                  (addResponseBody (_responseStorage pn) (requestId r)
                     (channel w (httpChannel r)) (Js.join chunks)) pn]> (pageNetworks w)
    /\ requests w' !! this = Some r'
    /\ _responseBodyChunks r' = None
    /\ _channelToRequest w' = delete (httpChannel r) (_channelToRequest w)
    /\ (exists events, emitted w'
          = emitted w ++ events ++ [(p, Events.RequestFinished (requestId r))]).
Proof.
  intros Hr Hp Hpn Hi Hchunks.
  unfold onStopRequest, _sendOnResponse, _sendOnResponseImpl, storeResponseBody,
    _sendOnRequestFinished, _sendOnRequestFinishedImpl.
  destruct (_sentOnResponse r) eqn:Hsent; mrun; rewrite Nat.eqb_refl; mrun.
  - eexists. eexists. split; [reflexivity|]. simpl. rewrite lookup_insert_eq.
    split; [reflexivity|]. split; [reflexivity|]. split; [reflexivity|].
    split; [reflexivity|]. exists []. reflexivity.
  - eexists. eexists. split; [reflexivity|]. simpl. rewrite lookup_insert_eq.
    split; [reflexivity|]. split; [reflexivity|]. split; [reflexivity|].
    split; [reflexivity|]. eexists. rewrite <- app_assoc. reflexivity.
Qed.

Lemma deliver_stop_stores w this r p pn chunks ns :
  requests w !! this = Some r ->
  _pageNetwork r = Some p ->
  pageNetworks w !! p = Some pn ->
  _responseInterceptor r = None ->
  _responseBodyChunks r = Some chunks ->
  stop_free (httpChannel r) ns = true ->
  let c := channel_after (httpChannel r) ns in
  exists w' r',
    deliver this (ns ++ [StopRequest c 0]) w = w'
    /\ pageNetworks w'
       = <[p := set_responseStorage
                  (addResponseBody (_responseStorage pn) (requestId r) (channel w c)
                     (Js.join (chunks ++ received (httpChannel r) ns))) pn]>
           (pageNetworks w)
    /\ requests w' !! this = Some r'
    /\ _responseBodyChunks r' = None
    /\ _channelToRequest w'
       = delete c (rebound this (httpChannel r) ns (_channelToRequest w)).
Proof.
  intros Hr Hp Hpn Hi Hchunks Hfree c.
  destruct (deliver_frame this ns w r Hr Hi Hfree)
    as (r1 & Hr1 & E1 & E2 & E3 & E4 & E5 & E6 & E7 & E8 & E9 & _).
  rewrite Hchunks in E5. simpl in E5. rewrite Hp in E2. rewrite <- E6 in Hpn.
  destruct (onStopRequest_stores _ this r1 p pn _ Hr1 E2 Hpn E3 E5)
    as (w2 & r2 & Hrun & Hstore & Hr2 & Hnone & Hmap & _).
  exists w2, r2. split.
  { rewrite deliver_app. simpl. unfold dispatch. simpl notify.
    fold c in E4. rewrite <- E4. now rewrite Hrun. }
  rewrite Hstore, Hmap, E1, E4, E6, E8, E9. fold c. auto.
Qed.

(** X2. The body stored for an exchange that finishes successfully is the
    concatenation, in order of arrival, of the data delivered for the
    channel that the exchange was bound to at each moment; it is stored
    under the id of the exchange with the encodings of the channel at the
    stop, the recorded chunks are released and the channel is forgotten. *)
Theorem stored_body_is_the_received_data w this r p pn chunks ns :
  requests w !! this = Some r ->
  _pageNetwork r = Some p ->
  pageNetworks w !! p = Some pn ->
  _responseInterceptor r = None ->
  _responseBodyChunks r = Some chunks ->
  stop_free (httpChannel r) ns = true ->
  let c := channel_after (httpChannel r) ns in
  let w' := deliver this (ns ++ [StopRequest c 0]) w in
  pageNetworks w' !! p
  = Some (set_responseStorage
            (addResponseBody (_responseStorage pn) (requestId r) (channel w c)
               (Js.join (chunks ++ received (httpChannel r) ns))) pn)
  /\ (exists r', requests w' !! this = Some r' /\ _responseBodyChunks r' = None)
  /\ _channelToRequest w' !! c = None.
Proof.
  intros Hr Hp Hpn Hi Hchunks Hfree c w'.
  destruct (deliver_stop_stores w this r p pn chunks ns Hr Hp Hpn Hi Hchunks Hfree)
    as (w2 & r2 & Hw' & Hstore & Hr2 & Hnone & Hmap).
  fold c w' in Hw'. rewrite Hw', Hstore, Hmap, lookup_insert_eq.
  split; [reflexivity|]. split; [eauto|]. apply lookup_delete_eq.
Qed.

(** The exchange of channel 10 receives data, is redirected internally to channel 15, and stops
    there. *)
Lemma stored_body_is_the_received_data_witness :
  let w := Sample.requested false in
  let this := 0%nat in
  let r := Sample.exchange w 0 in
  let p := 1%nat in
  let pn := Sample.tracker w in
  let chunks := @nil string in
  let ns := [DataAvailable 10 "ab"; InternalRedirect 15; DataAvailable 10 "zz"; DataAvailable 15
    "cd"] in
  (requests w !! this = Some r)
  /\ (_pageNetwork r = Some p)
  /\ (pageNetworks w !! p = Some pn)
  /\ (_responseInterceptor r = None)
  /\ (_responseBodyChunks r = Some chunks)
  /\ (stop_free (httpChannel r) ns = true)
  /\ (let c := channel_after (httpChannel r) ns in
     let w' := deliver this (ns ++ [StopRequest c 0]) w in
     pageNetworks w' !! p
     = Some (set_responseStorage
               (addResponseBody (_responseStorage pn) (requestId r) (channel w c)
                  (Js.join (chunks ++ received (httpChannel r) ns))) pn)
     /\ (exists r', requests w' !! this = Some r' /\ _responseBodyChunks r' = None)
     /\ _channelToRequest w' !! c = None).
Proof.
  intros w this r p pn chunks ns.
  assert (H1 : requests w !! this = Some r) by (vm_compute; reflexivity).
  assert (H2 : _pageNetwork r = Some p) by (vm_compute; reflexivity).
  assert (H3 : pageNetworks w !! p = Some pn) by (vm_compute; reflexivity).
  assert (H4 : _responseInterceptor r = None) by (vm_compute; reflexivity).
  assert (H5 : _responseBodyChunks r = Some chunks) by (vm_compute; reflexivity).
  assert (H6 : stop_free (httpChannel r) ns = true) by (vm_compute; reflexivity).
  split; [exact H1|].
  split; [exact H2|].
  split; [exact H3|].
  split; [exact H4|].
  split; [exact H5|].
  split; [exact H6|].
  exact (stored_body_is_the_received_data w this r p pn chunks ns H1 H2 H3 H4 H5 H6).
Defined.

Lemma getResponseBody_run converter w p pn id :
  pageNetworks w !! p = Some pn ->
  exists w',
    getResponseBody converter p id w
    = (snd (getBase64EncodedResponse converter (_responseStorage pn) id), w')
    /\ calls w'
       = calls w
         ++ map (fun c => convertString (conv_input c) (conv_source c) (conv_dest c))
              (fst (getBase64EncodedResponse converter (_responseStorage pn) id))
    /\ same_objects w w'.
Proof.
  intros Hpn. unfold getResponseBody. unfold bind at 1. unfold the_pageNetwork. rewrite Hpn.
  destruct (getBase64EncodedResponse converter (_responseStorage pn) id)
    as [conversions outcome].
  destruct (for_of_calls
              (fun c => [convertString (conv_input c) (conv_source c) (conv_dest c)])
              (fun c => call (convertString (conv_input c) (conv_source c) (conv_dest c)))
              conversions w) as (w' & Hrun & Hcalls & H1 & H2 & H3 & H4 & H5 & H6);
    [reflexivity|].
  pose proof (only_calls_for_of conversions
                (fun c => call (convertString (conv_input c) (conv_source c) (conv_dest c)))
                (fun x => only_calls_call _) w) as Hsame.
  rewrite Hrun in Hsame. simpl in Hsame.
  unfold bind. rewrite Hrun. exists w'. simpl.
  split; [destruct outcome; reflexivity|]. split; [|exact Hsame].
  rewrite Hcalls. f_equal. clear. induction conversions; simpl; congruence.
Qed.



(** The failing stop of the current channel of an exchange without
    response interceptor. *)
Lemma onStopRequest_fails w this r status :
  requests w !! this = Some r ->
  _responseInterceptor r = None ->
  status <> 0%N ->
  exists w',
    onStopRequest this (httpChannel r) status w = (Ok tt, w')
    /\ pageNetworks w' = pageNetworks w
    /\ requests w' !! this = Some (set_responseBodyChunks None r)
    /\ _channelToRequest w' = delete (httpChannel r) (_channelToRequest w)
    /\ emitted w'
       = emitted w
         ++ match _pageNetwork r with
            | Some p => [(p, Events.RequestFailed (requestId r) status)]
            | None => []
            end.
Proof.
  intros Hr Hi Hstatus.
  unfold onStopRequest, _sendOnRequestFailed, _sendOnRequestFailedImpl.
  destruct (_pageNetwork r) as [p|] eqn:Hp;
    mrun; rewrite Nat.eqb_refl; mrun;
    (destruct (N.eqb_spec status 0) as [?|_]; [congruence|]); mrun.
  - eexists. split; [reflexivity|]. simpl. rewrite lookup_insert_eq. auto.
  - eexists. split; [reflexivity|]. simpl. rewrite lookup_insert_eq, app_nil_r. auto.
Qed.

(** X4. An exchange that fails leaves no body behind: whatever data was
    received before the failing stop, the store of its page network is
    unchanged, the recorded chunks are released and the channel is
    forgotten; if no body was stored under its id before, [getResponseBody]
    for the id throws the not-found error. *)
Theorem failed_exchange_has_no_body converter w this r p pn ns status :
  requests w !! this = Some r ->
  _pageNetwork r = Some p ->
  pageNetworks w !! p = Some pn ->
  _responseInterceptor r = None ->
  stop_free (httpChannel r) ns = true ->
  status <> 0%N ->
  let c := channel_after (httpChannel r) ns in
  let w' := deliver this (ns ++ [StopRequest c status]) w in
  pageNetworks w' !! p = Some pn
  /\ (exists r', requests w' !! this = Some r' /\ _responseBodyChunks r' = None)
  /\ _channelToRequest w' !! c = None
  /\ (JsMap.get (_responses (_responseStorage pn)) (requestId r) = None ->
      exists w'',
        getResponseBody converter p (requestId r) w'
        = (Throw (not_found (requestId r)), w'')).
Proof.
  intros Hr Hp Hpn Hi Hfree Hstatus c w'.
  destruct (deliver_frame this ns w r Hr Hi Hfree)
    as (r1 & Hr1 & E1 & E2 & E3 & E4 & E5 & E6 & E7 & E8 & E9 & _).
  destruct (onStopRequest_fails _ this r1 status Hr1 E3 Hstatus)
    as (w2 & Hrun & Hpns & Hr2 & Hmap & _).
  assert (Hw' : w' = w2).
  { subst w'. rewrite deliver_app. simpl. unfold dispatch. simpl notify.
    fold c in E4. rewrite <- E4. now rewrite Hrun. }
  assert (Hpn' : pageNetworks w' !! p = Some pn) by (rewrite Hw', Hpns, E6; exact Hpn).
  split; [exact Hpn'|]. split; [rewrite Hw'; eauto|].
  split; [rewrite Hw', Hmap, E4; apply lookup_delete_eq|].
  intros Hnone.
  destruct (getResponseBody_run converter w' p pn (requestId r) Hpn') as (w'' & Hrun' & _).
  exists w''. rewrite Hrun'. unfold getBase64EncodedResponse. now rewrite Hnone.
Qed.

(** The same exchange, failing with a connection reset after the data. *)
Lemma failed_exchange_has_no_body_witness :
  let converter := Sample.marking in
  let w := Sample.requested false in
  let this := 0%nat in
  let r := Sample.exchange w 0 in
  let p := 1%nat in
  let pn := Sample.tracker w in
  let ns := [DataAvailable 10 "ab"; InternalRedirect 15; DataAvailable 10 "zz"; DataAvailable 15
    "cd"] in
  let status := Cr.NS_ERROR_NET_RESET in
  (requests w !! this = Some r)
  /\ (_pageNetwork r = Some p)
  /\ (pageNetworks w !! p = Some pn)
  /\ (_responseInterceptor r = None)
  /\ (stop_free (httpChannel r) ns = true)
  /\ (status <> 0%N)
  /\ (let c := channel_after (httpChannel r) ns in
     let w' := deliver this (ns ++ [StopRequest c status]) w in
     pageNetworks w' !! p = Some pn
     /\ (exists r', requests w' !! this = Some r' /\ _responseBodyChunks r' = None)
     /\ _channelToRequest w' !! c = None
     /\ (JsMap.get (_responses (_responseStorage pn)) (requestId r) = None ->
         exists w'',
           getResponseBody converter p (requestId r) w'
           = (Throw (not_found (requestId r)), w''))).
Proof.
  intros converter w this r p pn ns status.
  assert (H1 : requests w !! this = Some r) by (vm_compute; reflexivity).
  assert (H2 : _pageNetwork r = Some p) by (vm_compute; reflexivity).
  assert (H3 : pageNetworks w !! p = Some pn) by (vm_compute; reflexivity).
  assert (H4 : _responseInterceptor r = None) by (vm_compute; reflexivity).
  assert (H5 : stop_free (httpChannel r) ns = true) by (vm_compute; reflexivity).
  assert (H6 : status <> 0%N) by (vm_compute; discriminate).
  split; [exact H1|].
  split; [exact H2|].
  split; [exact H3|].
  split; [exact H4|].
  split; [exact H5|].
  split; [exact H6|].
  exact (failed_exchange_has_no_body converter w this r p pn ns status H1 H2 H3 H4 H5 H6).
Defined.

(** Any notification, stops included, delivered to an exchange without
    page network and without response interceptor. *)
Lemma notify_untracked w this r n :
  requests w !! this = Some r ->
  _pageNetwork r = None ->
  _responseInterceptor r = None ->
  exists res w' r',
    notify this n w = (res, w')
    /\ requests w' !! this = Some r'
    /\ _pageNetwork r' = None
    /\ _responseInterceptor r' = None
    /\ emitted w' = emitted w
    /\ pageNetworks w' = pageNetworks w.
Proof.
  intros Hr Hp Hi.
  destruct (stop_free (httpChannel r) [n]) eqn:Hfree.
  - destruct (notify_frame w this r n Hr Hi Hfree)
      as (res & w1 & r1 & Hrun & Hr1 & E1 & E2 & E3 & E4 & E5 & E6 & E7 & E8 & E9 & E10).
    exists res, w1, r1. rewrite E2. auto 10.
  - destruct n as [| | |aRequest status| |]; simpl in Hfree; try discriminate.
    rewrite andb_true_r in Hfree. apply negb_false_iff, Nat.eqb_eq in Hfree. subst aRequest.
    simpl notify. destruct (N.eq_dec status 0%N) as [->|Hstatus].
    + unfold onStopRequest, _sendOnResponse, _sendOnResponseImpl,
        _sendOnRequestFinished, _sendOnRequestFinishedImpl.
      destruct (_sentOnResponse r) eqn:Hsent;
        destruct (_responseBodyChunks r) as [chunks|] eqn:Hchunks;
        mrun; rewrite Nat.eqb_refl; mrun;
        eexists; eexists; eexists; (split; [reflexivity|]); simpl;
        rewrite ?lookup_insert_eq; (split; [first [reflexivity|eassumption]|]); auto.
    + destruct (onStopRequest_fails w this r status Hr Hi Hstatus)
        as (w2 & Hrun & Hpns & Hr2 & _ & Hem).
      rewrite Hp, app_nil_r in Hem.
      exists (Ok tt), w2. eexists. split; [exact Hrun|]. split; [exact Hr2|]. auto.
Qed.

(** X5. An exchange without page network is silent: whatever the browser
    delivers to it, stops included, no event is emitted and no page network
    changes, so nothing of it is ever stored. *)
Theorem untracked_exchange_is_silent w this r ns :
  requests w !! this = Some r ->
  _pageNetwork r = None ->
  _responseInterceptor r = None ->
  emitted (deliver this ns w) = emitted w
  /\ pageNetworks (deliver this ns w) = pageNetworks w.
Proof.
  revert w r. induction ns as [|n ns IH]; intros w r Hr Hp Hi; [split; reflexivity|].
  destruct (notify_untracked w this r n Hr Hp Hi)
    as (res & w1 & r1 & Hrun & Hr1 & Hp1 & Hi1 & Hem & Hpns).
  assert (Hd : dispatch this w n = w1) by (unfold dispatch; now rewrite Hrun).
  change (deliver this (n :: ns) w) with (deliver this ns (dispatch this w n)).
  rewrite Hd. destruct (IH w1 r1 Hr1 Hp1 Hi1) as [H1 H2]. split; congruence.
Qed.

(** The exchange of a channel of no page target, from its response to its stop. *)
Lemma untracked_exchange_is_silent_witness :
  let w := Scene.untracked in
  let this := 0%nat in
  let r := Sample.exchange w 0 in
  let ns := [ResponseNotification false None None; DataAvailable 11 "ab"; StopRequest 11 0] in
  (requests w !! this = Some r)
  /\ (_pageNetwork r = None)
  /\ (_responseInterceptor r = None)
  /\ (emitted (deliver this ns w) = emitted w
     /\ pageNetworks (deliver this ns w) = pageNetworks w).
Proof.
  intros w this r ns.
  assert (H1 : requests w !! this = Some r) by (vm_compute; reflexivity).
  assert (H2 : _pageNetwork r = None) by (vm_compute; reflexivity).
  assert (H3 : _responseInterceptor r = None) by (vm_compute; reflexivity).
  split; [exact H1|].
  split; [exact H2|].
  split; [exact H3|].
  exact (untracked_exchange_is_silent w this r ns H1 H2 H3).
Defined.

Lemma rebound_current this c ns : forall m,
  m !! c = Some this ->
  rebound this c ns m !! channel_after c ns = Some this.
Proof.
  revert c. induction ns as [|n ns IH]; intros c m Hm; [exact Hm|].
  destruct n; simpl; try (apply IH; exact Hm).
  apply IH. apply lookup_insert_eq.
Qed.

(** X6. From its construction to its terminal event an exchange is found
    under the channel it is bound to: internal redirects move the entry of
    [_channelToRequest] to the new channel, so the response notification of
    the observer reaches the exchange, and the stop of that channel, with
    either outcome, removes the entry. *)
Theorem exchange_is_found_by_its_channel w this r ns :
  requests w !! this = Some r ->
  _responseInterceptor r = None ->
  is_Some (_responseBodyChunks r) ->
  (forall p, _pageNetwork r = Some p -> is_Some (pageNetworks w !! p)) ->
  _channelToRequest w !! httpChannel r = Some this ->
  stop_free (httpChannel r) ns = true ->
  let c := channel_after (httpChannel r) ns in
  _channelToRequest (deliver this ns w) !! c = Some this
  /\ (forall fromCache,
        _onResponse fromCache c (deliver this ns w)
        = _sendOnResponse this fromCache None None (deliver this ns w))
  /\ (forall status,
        _channelToRequest (deliver this (ns ++ [StopRequest c status]) w) !! c = None).
Proof.
  intros Hr Hi [chunks Hchunks] Hlive Hmap Hfree c.
  destruct (deliver_frame this ns w r Hr Hi Hfree)
    as (r1 & Hr1 & E1 & E2 & E3 & E4 & E5 & E6 & E7 & E8 & E9 & _).
  assert (Hfound : _channelToRequest (deliver this ns w) !! c = Some this).
  { rewrite E9. now apply rebound_current. }
  split; [exact Hfound|]. split.
  - intros fromCache. unfold _onResponse. unfold bind at 1. unfold read at 1.
    now rewrite Hfound.
  - intros status. rewrite deliver_app. simpl. unfold dispatch. simpl notify.
    fold c in E4. rewrite <- E4.
    destruct (N.eq_dec status 0%N) as [->|Hstatus].
    + rewrite Hchunks in E5. simpl in E5.
      destruct (_pageNetwork r) as [p|] eqn:Hp.
      * destruct (Hlive p eq_refl) as [pn Hpn]. rewrite <- E6 in Hpn.
        destruct (onStopRequest_stores _ this r1 p pn _ Hr1 E2 Hpn E3 E5)
          as (w2 & r2 & Hrun & _ & _ & _ & Hdel & _).
        rewrite Hrun. simpl. rewrite Hdel. apply lookup_delete_eq.
      * unfold onStopRequest, _sendOnResponse, _sendOnResponseImpl,
          _sendOnRequestFinished, _sendOnRequestFinishedImpl.
        destruct (_sentOnResponse r1) eqn:Hsent;
          mrun; rewrite Nat.eqb_refl; mrun; simpl; apply lookup_delete_eq.
    + destruct (onStopRequest_fails _ this r1 status Hr1 E3 Hstatus)
        as (w2 & Hrun & _ & _ & Hdel & _).
      rewrite Hrun. simpl. rewrite Hdel. apply lookup_delete_eq.
Qed.

(** The exchange of channel 10, redirected internally to channel 15. *)
Lemma exchange_is_found_by_its_channel_witness :
  let w := Sample.requested false in
  let this := 0%nat in
  let r := Sample.exchange w 0 in
  let ns := [InternalRedirect 15; DataAvailable 15 "cd"] in
  (requests w !! this = Some r)
  /\ (_responseInterceptor r = None)
  /\ (is_Some (_responseBodyChunks r))
  /\ ((forall p, _pageNetwork r = Some p -> is_Some (pageNetworks w !! p)))
  /\ (_channelToRequest w !! httpChannel r = Some this)
  /\ (stop_free (httpChannel r) ns = true)
  /\ (let c := channel_after (httpChannel r) ns in
     _channelToRequest (deliver this ns w) !! c = Some this
     /\ (forall fromCache,
           _onResponse fromCache c (deliver this ns w)
           = _sendOnResponse this fromCache None None (deliver this ns w))
     /\ (forall status,
           _channelToRequest (deliver this (ns ++ [StopRequest c status]) w) !! c = None)).
Proof.
  intros w this r ns.
  assert (H1 : requests w !! this = Some r) by (vm_compute; reflexivity).
  assert (H2 : _responseInterceptor r = None) by (vm_compute; reflexivity).
  assert (H3 : is_Some (_responseBodyChunks r)) by (vm_compute; eexists; reflexivity).
  assert (H4 : (forall p, _pageNetwork r = Some p -> is_Some (pageNetworks w !! p))) by (intros
    p Hp; vm_compute in Hp; injection Hp as <-; vm_compute; eexists; reflexivity).
  assert (H5 : _channelToRequest w !! httpChannel r = Some this) by (vm_compute; reflexivity).
  assert (H6 : stop_free (httpChannel r) ns = true) by (vm_compute; reflexivity).
  split; [exact H1|].
  split; [exact H2|].
  split; [exact H3|].
  split; [exact H4|].
  split; [exact H5|].
  split; [exact H6|].
  exact (exchange_is_found_by_its_channel w this r ns H1 H2 H3 H4 H5 H6).
Defined.

(** ** Decisions on paused exchanges *)

Lemma get_delete_ne {V : Type} (m : list (string * V)) k k' :
  k <> k' -> JsMap.get (JsMap.delete m k) k' = JsMap.get m k'.
Proof.
  intros Hne. induction m as [|[k0 v0] m IH]; simpl; [reflexivity|].
  destruct (String.eqb_spec k0 k) as [->|Hk].
  - destruct (String.eqb_spec k k'); [congruence|reflexivity].
  - simpl. now rewrite IH.
Qed.

Lemma takeIntercepted_missing w p pn requestId :
  pageNetworks w !! p = Some pn ->
  JsMap.get (_interceptedRequests pn) requestId = None ->
  _takeIntercepted p requestId w = (Throw (cannot_find requestId), w).
Proof. intros Hpn Hget. unfold _takeIntercepted. mrun. reflexivity. Qed.

(** X7. A decision on an id that is not awaiting one is rejected with
    [Cannot find request "<id>"], whichever of the three commands carries
    it, and nothing changes: no browser call, no event, and the awaiting
    map is as it was. *)
Theorem unknown_request_id_is_rejected w p pn requestId :
  pageNetworks w !! p = Some pn ->
  JsMap.get (_interceptedRequests pn) requestId = None ->
  cannot_find requestId
  = Error ("Cannot find request " ++ Js.dquote ++ requestId ++ Js.dquote)%string
  /\ (forall url method headers postData,
        resumeInterceptedRequest p requestId url method headers postData w
        = (Throw (cannot_find requestId), w))
  /\ (forall status statusText headers base64body,
        fulfillInterceptedRequest p requestId status statusText headers base64body w
        = (Throw (cannot_find requestId), w))
  /\ (forall errorCode,
        abortInterceptedRequest p requestId errorCode w
        = (Throw (cannot_find requestId), w)).
Proof.
  intros Hpn Hget. split; [reflexivity|].
  pose proof (takeIntercepted_missing w p pn requestId Hpn Hget) as Htake.
  repeat split; intros;
    unfold resumeInterceptedRequest, fulfillInterceptedRequest, abortInterceptedRequest, bind;
    now rewrite Htake.
Qed.

(** Exchange 10 is awaiting a decision; id 11 is not. *)
Lemma unknown_request_id_is_rejected_witness :
  let w := Sample.paused in
  let p := 1%nat in
  let pn := Sample.tracker w in
  let requestId := "11" in
  (pageNetworks w !! p = Some pn)
  /\ (JsMap.get (_interceptedRequests pn) requestId = None)
  /\ (cannot_find requestId
     = Error ("Cannot find request " ++ Js.dquote ++ requestId ++ Js.dquote)%string
     /\ (forall url method headers postData,
           resumeInterceptedRequest p requestId url method headers postData w
           = (Throw (cannot_find requestId), w))
     /\ (forall status statusText headers base64body,
           fulfillInterceptedRequest p requestId status statusText headers base64body w
           = (Throw (cannot_find requestId), w))
     /\ (forall errorCode,
           abortInterceptedRequest p requestId errorCode w
           = (Throw (cannot_find requestId), w))).
Proof.
  intros w p pn requestId.
  assert (H1 : pageNetworks w !! p = Some pn) by (vm_compute; reflexivity).
  assert (H2 : JsMap.get (_interceptedRequests pn) requestId = None) by (vm_compute;
    reflexivity).
  split; [exact H1|].
  split; [exact H2|].
  exact (unknown_request_id_is_rejected w p pn requestId H1 H2).
Defined.

(** X8. A paused exchange is decided once: [resumeInterceptedRequest]
    hands the exchange back to the browser with the overrides recorded for
    the internal redirect that follows, and takes it out of the awaiting
    map, so that every later decision on the same id is rejected; the
    other awaiting exchanges stay. *)
Theorem decision_is_taken_once
    w p pn requestId this r intercepted url method headers postData :
  pageNetworks w !! p = Some pn ->
  NoDup (JsMap.keys (_interceptedRequests pn)) ->
  JsMap.get (_interceptedRequests pn) requestId = Some this ->
  requests w !! this = Some r ->
  _interceptedChannel r = Some intercepted ->
  exists w',
    resumeInterceptedRequest p requestId url method headers postData w = (Ok tt, w')
    /\ calls w' = calls w ++ [resetInterceptionWithURI intercepted (resumed_uri url)]
    /\ emitted w' = emitted w
    /\ requests w' !! this
       = Some (set_interceptedChannel None
                 (set_expectingResumedRequest
                    (Some (Resumed.mk method headers postData)) r))
    /\ JsMap.get (awaiting w' p) requestId = None
    /\ (forall other, other <> requestId ->
          JsMap.get (awaiting w' p) other = JsMap.get (_interceptedRequests pn) other)
    /\ (forall url' method' headers' postData',
          resumeInterceptedRequest p requestId url' method' headers' postData' w'
          = (Throw (cannot_find requestId), w'))
    /\ (forall status statusText headers' base64body,
          fulfillInterceptedRequest p requestId status statusText headers' base64body w'
          = (Throw (cannot_find requestId), w'))
    /\ (forall errorCode,
          abortInterceptedRequest p requestId errorCode w'
          = (Throw (cannot_find requestId), w')).
Proof.
  intros Hpn Hnd Hget Hr Hic.
  unfold resumeInterceptedRequest at 1. unfold bind at 1.
  rewrite (takeIntercepted_found w p pn requestId this Hpn Hget).
  unfold resume. mrun. fold (resumed_uri url).
  eexists. split; [reflexivity|].
  match goal with |- context [calls ?w1 = _] => set (w' := w1) end.
  assert (Hpn' : pageNetworks w' !! p
                 = Some (set_interceptedRequests
                           (JsMap.delete (_interceptedRequests pn) requestId) pn))
    by (subst w'; simpl; apply lookup_insert_eq).
  assert (Hgone : JsMap.get (awaiting w' p) requestId = None).
  { unfold awaiting. rewrite Hpn'. simpl. now apply get_delete_eq. }
  assert (Htake : _takeIntercepted p requestId w' = (Throw (cannot_find requestId), w')).
  { apply (takeIntercepted_missing w' p _ requestId Hpn'). simpl. now apply get_delete_eq. }
  split; [reflexivity|]. split; [reflexivity|].
  split; [subst w'; simpl; now rewrite lookup_insert_eq|].
  split; [exact Hgone|].
  split.
  { intros other Hne. unfold awaiting. rewrite Hpn'. simpl. apply get_delete_ne. congruence. }
  repeat split; intros;
    unfold resumeInterceptedRequest, fulfillInterceptedRequest, abortInterceptedRequest, bind;
    now rewrite Htake.
Qed.

(** The paused exchange of channel 10 is resumed with overrides. *)
Lemma decision_is_taken_once_witness :
  let w := Sample.paused in
  let p := 1%nat in
  let pn := Sample.tracker w in
  let requestId := "10" in
  let this := 0%nat in
  let r := Sample.exchange w 0 in
  let intercepted := 20%nat in
  let url := Some "http://example.test/other" in
  let method := Some "POST" in
  let headers := Some [{| name := "x-test"; value := "1" |}] in
  let postData := @None string in
  (pageNetworks w !! p = Some pn)
  /\ (NoDup (JsMap.keys (_interceptedRequests pn)))
  /\ (JsMap.get (_interceptedRequests pn) requestId = Some this)
  /\ (requests w !! this = Some r)
  /\ (_interceptedChannel r = Some intercepted)
  /\ (exists w',
       resumeInterceptedRequest p requestId url method headers postData w = (Ok tt, w')
       /\ calls w' = calls w ++ [resetInterceptionWithURI intercepted (resumed_uri url)]
       /\ emitted w' = emitted w
       /\ requests w' !! this
          = Some (set_interceptedChannel None
                    (set_expectingResumedRequest
                       (Some (Resumed.mk method headers postData)) r))
       /\ JsMap.get (awaiting w' p) requestId = None
       /\ (forall other, other <> requestId ->
             JsMap.get (awaiting w' p) other = JsMap.get (_interceptedRequests pn) other)
       /\ (forall url' method' headers' postData',
             resumeInterceptedRequest p requestId url' method' headers' postData' w'
             = (Throw (cannot_find requestId), w'))
       /\ (forall status statusText headers' base64body,
             fulfillInterceptedRequest p requestId status statusText headers' base64body w'
             = (Throw (cannot_find requestId), w'))
       /\ (forall errorCode,
             abortInterceptedRequest p requestId errorCode w'
             = (Throw (cannot_find requestId), w'))).
Proof.
  intros w p pn requestId this r intercepted url method headers postData.
  assert (H1 : pageNetworks w !! p = Some pn) by (vm_compute; reflexivity).
  assert (H2 : NoDup (JsMap.keys (_interceptedRequests pn))) by (distinct).
  assert (H3 : JsMap.get (_interceptedRequests pn) requestId = Some this) by (vm_compute;
    reflexivity).
  assert (H4 : requests w !! this = Some r) by (vm_compute; reflexivity).
  assert (H5 : _interceptedChannel r = Some intercepted) by (vm_compute; reflexivity).
  split; [exact H1|].
  split; [exact H2|].
  split; [exact H3|].
  split; [exact H4|].
  split; [exact H5|].
  exact (decision_is_taken_once w p pn requestId this r intercepted url method headers postData
    H1 H2 H3 H4 H5).
Defined.

(** X9. A fulfilment that fails strands the exchange. The exchange has
    left the awaiting map before [fulfill] runs, so when [fulfill] throws,
    because the body is not base64 (before any browser call) or because
    the headers are absent and there is no upstream response (after the
    status line), the exchange is still paused on its intercepted channel
    but every later decision on its id is rejected. *)
Theorem failed_fulfill_strands_the_exchange
    w p pn requestId this r intercepted status statusText headers base64body :
  pageNetworks w !! p = Some pn ->
  NoDup (JsMap.keys (_interceptedRequests pn)) ->
  JsMap.get (_interceptedRequests pn) requestId = Some this ->
  requests w !! this = Some r ->
  _interceptedChannel r = Some intercepted ->
  _responseInterceptor r = None ->
  decode_base64body base64body = None \/ headers = None ->
  exists e w',
    fulfillInterceptedRequest p requestId status statusText headers base64body w
    = (Throw e, w')
    /\ e = match decode_base64body base64body with
           | None => InvalidCharacterError
           | Some _ => TypeError "headers is not iterable"
           end
    /\ calls w'
       = calls w
         ++ match decode_base64body base64body with
            | None => []
            | Some _ => [synthesizeStatus intercepted status statusText]
            end
    /\ emitted w' = emitted w
    /\ requests w' !! this = Some r
    /\ JsMap.get (awaiting w' p) requestId = None
    /\ (forall url method headers' postData,
          resumeInterceptedRequest p requestId url method headers' postData w'
          = (Throw (cannot_find requestId), w'))
    /\ (forall status' statusText' headers' base64body',
          fulfillInterceptedRequest p requestId status' statusText' headers' base64body' w'
          = (Throw (cannot_find requestId), w'))
    /\ (forall errorCode,
          abortInterceptedRequest p requestId errorCode w'
          = (Throw (cannot_find requestId), w')).
Proof.
  intros Hpn Hnd Hget Hr Hic Hi Hfail.
  unfold fulfillInterceptedRequest at 1. unfold bind at 1.
  rewrite (takeIntercepted_found w p pn requestId this Hpn Hget).
  set (w1 := with_pageNetworks _ w).
  assert (Hpn1 : pageNetworks w1 !! p
                 = Some (set_interceptedRequests
                           (JsMap.delete (_interceptedRequests pn) requestId) pn))
    by (subst w1; simpl; apply lookup_insert_eq).
  assert (Hr1 : requests w1 !! this = Some r) by exact Hr.
  assert (Hlater : forall w',
             pageNetworks w' = pageNetworks w1 ->
             JsMap.get (awaiting w' p) requestId = None
             /\ _takeIntercepted p requestId w' = (Throw (cannot_find requestId), w')).
  { intros w' Hsame. rewrite <- Hsame in Hpn1. split.
    - unfold awaiting. rewrite Hpn1. simpl. now apply get_delete_eq.
    - apply (takeIntercepted_missing w' p _ requestId Hpn1). simpl. now apply get_delete_eq. }
  unfold fulfill.
  destruct (decode_base64body base64body) as [body|] eqn:Hbody.
  - destruct Hfail as [? | ->]; [discriminate|]. mrun.
    eexists. eexists. split; [reflexivity|]. split; [reflexivity|].
    match goal with |- context [calls ?w2 = _] => set (w' := w2) end.
    destruct (Hlater w' eq_refl) as [Hgone Htake].
    split; [reflexivity|]. split; [reflexivity|]. split; [exact Hr|]. split; [exact Hgone|].
    repeat split; intros;
      unfold resumeInterceptedRequest, fulfillInterceptedRequest, abortInterceptedRequest, bind;
      now rewrite Htake.
  - mrun. exists InvalidCharacterError, w1. split; [reflexivity|]. split; [reflexivity|].
    destruct (Hlater w1 eq_refl) as [Hgone Htake].
    split; [now rewrite app_nil_r|]. split; [reflexivity|]. split; [exact Hr|].
    split; [exact Hgone|].
    repeat split; intros;
      unfold resumeInterceptedRequest, fulfillInterceptedRequest, abortInterceptedRequest, bind;
      now rewrite Htake.
Qed.

(** The paused exchange of channel 10 is fulfilled without headers. *)
Lemma failed_fulfill_strands_the_exchange_witness :
  let w := Sample.paused in
  let p := 1%nat in
  let pn := Sample.tracker w in
  let requestId := "10" in
  let this := 0%nat in
  let r := Sample.exchange w 0 in
  let intercepted := 20%nat in
  let status := Some 200 in
  let statusText := Some "OK" in
  let headers := @None (list Header) in
  let base64body := Some "aGVsbG8=" in
  (pageNetworks w !! p = Some pn)
  /\ (NoDup (JsMap.keys (_interceptedRequests pn)))
  /\ (JsMap.get (_interceptedRequests pn) requestId = Some this)
  /\ (requests w !! this = Some r)
  /\ (_interceptedChannel r = Some intercepted)
  /\ (_responseInterceptor r = None)
  /\ (decode_base64body base64body = None \/ headers = None)
  /\ (exists e w',
       fulfillInterceptedRequest p requestId status statusText headers base64body w
       = (Throw e, w')
       /\ e = match decode_base64body base64body with
              | None => InvalidCharacterError
              | Some _ => TypeError "headers is not iterable"
              end
       /\ calls w'
          = calls w
            ++ match decode_base64body base64body with
               | None => []
               | Some _ => [synthesizeStatus intercepted status statusText]
               end
       /\ emitted w' = emitted w
       /\ requests w' !! this = Some r
       /\ JsMap.get (awaiting w' p) requestId = None
       /\ (forall url method headers' postData,
             resumeInterceptedRequest p requestId url method headers' postData w'
             = (Throw (cannot_find requestId), w'))
       /\ (forall status' statusText' headers' base64body',
             fulfillInterceptedRequest p requestId status' statusText' headers' base64body' w'
             = (Throw (cannot_find requestId), w'))
       /\ (forall errorCode,
             abortInterceptedRequest p requestId errorCode w'
             = (Throw (cannot_find requestId), w'))).
Proof.
  intros w p pn requestId this r intercepted status statusText headers base64body.
  assert (H1 : pageNetworks w !! p = Some pn) by (vm_compute; reflexivity).
  assert (H2 : NoDup (JsMap.keys (_interceptedRequests pn))) by (distinct).
  assert (H3 : JsMap.get (_interceptedRequests pn) requestId = Some this) by (vm_compute;
    reflexivity).
  assert (H4 : requests w !! this = Some r) by (vm_compute; reflexivity).
  assert (H5 : _interceptedChannel r = Some intercepted) by (vm_compute; reflexivity).
  assert (H6 : _responseInterceptor r = None) by (vm_compute; reflexivity).
  assert (H7 : decode_base64body base64body = None \/ headers = None) by (right; reflexivity).
  split; [exact H1|].
  split; [exact H2|].
  split; [exact H3|].
  split; [exact H4|].
  split; [exact H5|].
  split; [exact H6|].
  split; [exact H7|].
  exact (failed_fulfill_strands_the_exchange w p pn requestId this r intercepted status
    statusText headers base64body H1 H2 H3 H4 H5 H6 H7).
Defined.

(** ** The interception decision, continued *)

(** X10. The decision to pause is taken again when the channel is
    intercepted: if, by then, neither the target nor its browser context
    asks for interception and the context is online, the exchange announces
    itself as not intercepted, is handed back to the browser without
    override and never joins the awaiting map. *)
Theorem channelIntercepted_resumes_when_no_longer_enabled w this r p pn intercepted :
  requests w !! this = Some r ->
  _expectingInterception r = true ->
  _pageNetwork r = Some p ->
  pageNetworks w !! p = Some pn ->
  _requestInterceptionEnabled pn = false ->
  requestInterceptionEnabled (browserContext w (_target pn)) = false ->
  onlineOverride (browserContext w (_target pn)) <> Some "offline" ->
  exists w' e,
    channelIntercepted this intercepted w = (Ok tt, w')
    /\ emitted w' = emitted w ++ [(p, e)]
    /\ is_request (requestId r) false (redirectedFromId r) (navigationId r) e
    /\ calls w' = calls w ++ [resetInterceptionWithURI intercepted None]
    /\ pageNetworks w' = pageNetworks w
    /\ requests w' !! this
       = Some (passed_through (set_expectingInterception false r)).
Proof.
  intros Hr Hexp Hp Hpn Hen Hctx Hoff.
  unfold channelIntercepted. unfold bind at 1. unfold the_request at 1. rewrite Hr, Hexp.
  cbn [negb]. mrun. rewrite bool_decide_eq_false_2 by exact Hoff.
  unfold _shouldIntercept, _sendOnRequest. mrun.
  rewrite bool_decide_eq_false_2 by exact Hoff.
  unfold resume. mrun.
  eexists. eexists. split; [reflexivity|].
  cbn [emitted pageNetworks requests calls
       with_emitted with_pageNetworks with_requests with_calls].
  split; [reflexivity|]. split; [simpl; auto|]. split; [reflexivity|].
  split; [reflexivity|]. now rewrite lookup_insert_eq.
Qed.

(** Interception is disabled after the exchange of channel 10 was told to expect it. *)
Lemma channelIntercepted_resumes_when_no_longer_enabled_witness :
  let w := Scene.disabled_again in
  let this := 0%nat in
  let r := Sample.exchange w 0 in
  let p := 1%nat in
  let pn := Sample.tracker w in
  let intercepted := 20%nat in
  (requests w !! this = Some r)
  /\ (_expectingInterception r = true)
  /\ (_pageNetwork r = Some p)
  /\ (pageNetworks w !! p = Some pn)
  /\ (_requestInterceptionEnabled pn = false)
  /\ (requestInterceptionEnabled (browserContext w (_target pn)) = false)
  /\ (onlineOverride (browserContext w (_target pn)) <> Some "offline")
  /\ (exists w' e,
       channelIntercepted this intercepted w = (Ok tt, w')
       /\ emitted w' = emitted w ++ [(p, e)]
       /\ is_request (requestId r) false (redirectedFromId r) (navigationId r) e
       /\ calls w' = calls w ++ [resetInterceptionWithURI intercepted None]
       /\ pageNetworks w' = pageNetworks w
       /\ requests w' !! this
          = Some (passed_through (set_expectingInterception false r))).
Proof.
  intros w this r p pn intercepted.
  assert (H1 : requests w !! this = Some r) by (vm_compute; reflexivity).
  assert (H2 : _expectingInterception r = true) by (vm_compute; reflexivity).
  assert (H3 : _pageNetwork r = Some p) by (vm_compute; reflexivity).
  assert (H4 : pageNetworks w !! p = Some pn) by (vm_compute; reflexivity).
  assert (H5 : _requestInterceptionEnabled pn = false) by (vm_compute; reflexivity).
  assert (H6 : requestInterceptionEnabled (browserContext w (_target pn)) = false) by
    (vm_compute; reflexivity).
  assert (H7 : onlineOverride (browserContext w (_target pn)) <> Some "offline") by (vm_compute;
    discriminate).
  split; [exact H1|].
  split; [exact H2|].
  split; [exact H3|].
  split; [exact H4|].
  split; [exact H5|].
  split; [exact H6|].
  split; [exact H7|].
  exact (channelIntercepted_resumes_when_no_longer_enabled w this r p pn intercepted H1 H2 H3 H4
    H5 H6 H7).
Defined.

(** X11. A network intercept controller found on the channel before the
    exchange took its place (a service worker) has precedence: when it
    prepares to intercept, the exchange announces itself as not
    intercepted at once, whatever the interception policy, and the
    intercepted channel is passed on to that controller; the exchange is
    neither paused nor announced a second time. *)
Theorem service_worker_takes_precedence w this r p callbacks aChannel intercepted :
  requests w !! this = Some r ->
  _previousCallbacks r = Some callbacks ->
  isInterceptController callbacks = true ->
  controllerPrepares callbacks = true ->
  _expectingInterception r = false ->
  _pageNetwork r = Some p ->
  exists w1 w2 e,
    shouldPrepareForIntercept this aChannel w = (Ok true, w1)
    /\ emitted w1 = emitted w ++ [(p, e)]
    /\ is_request (requestId r) false (redirectedFromId r) (navigationId r) e
    /\ requests w1 = requests w
    /\ channelIntercepted this intercepted w1 = (Ok tt, w2)
    /\ calls w2 = calls w ++ [fallThroughChannelIntercepted intercepted]
    /\ emitted w2 = emitted w1
    /\ requests w2 = requests w
    /\ pageNetworks w2 = pageNetworks w.
Proof.
  intros Hr Hcb Hic Hprep Hexp Hp.
  assert (Hfirst : exists w1 e,
             shouldPrepareForIntercept this aChannel w = (Ok true, w1)
             /\ w1 = with_emitted (fun l => l ++ [(p, e)]) w
             /\ is_request (requestId r) false (redirectedFromId r) (navigationId r) e).
  { unfold shouldPrepareForIntercept, _fallThroughInterceptController, _sendOnRequest.
    mrun. eexists. eexists. split; [reflexivity|]. split; [reflexivity|]. simpl. auto. }
  destruct Hfirst as (w1 & e & Hrun1 & -> & He).
  exists (with_emitted (fun l => l ++ [(p, e)]) w).
  eexists. exists e. split; [exact Hrun1|]. split; [reflexivity|]. split; [exact He|].
  split; [reflexivity|].
  unfold channelIntercepted, _fallThroughInterceptController.
  unfold bind at 1. unfold the_request at 1. cbn [requests with_emitted].
  rewrite Hr, Hexp, Hcb, Hic. cbn [negb]. unfold call, modify.
  split; [reflexivity|]. simpl. auto.
Qed.

(** Channel 10 carried the intercept controller of a service worker. *)
Lemma service_worker_takes_precedence_witness :
  let w := Scene.service_worker in
  let this := 0%nat in
  let r := Sample.exchange w 0 in
  let p := 1%nat in
  let callbacks := {| isInterceptController := true; controllerPrepares := true |} in
  let aChannel := 10%nat in
  let intercepted := 20%nat in
  (requests w !! this = Some r)
  /\ (_previousCallbacks r = Some callbacks)
  /\ (isInterceptController callbacks = true)
  /\ (controllerPrepares callbacks = true)
  /\ (_expectingInterception r = false)
  /\ (_pageNetwork r = Some p)
  /\ (exists w1 w2 e,
       shouldPrepareForIntercept this aChannel w = (Ok true, w1)
       /\ emitted w1 = emitted w ++ [(p, e)]
       /\ is_request (requestId r) false (redirectedFromId r) (navigationId r) e
       /\ requests w1 = requests w
       /\ channelIntercepted this intercepted w1 = (Ok tt, w2)
       /\ calls w2 = calls w ++ [fallThroughChannelIntercepted intercepted]
       /\ emitted w2 = emitted w1
       /\ requests w2 = requests w
       /\ pageNetworks w2 = pageNetworks w).
Proof.
  intros w this r p callbacks aChannel intercepted.
  assert (H1 : requests w !! this = Some r) by (vm_compute; reflexivity).
  assert (H2 : _previousCallbacks r = Some callbacks) by (vm_compute; reflexivity).
  assert (H3 : isInterceptController callbacks = true) by (vm_compute; reflexivity).
  assert (H4 : controllerPrepares callbacks = true) by (vm_compute; reflexivity).
  assert (H5 : _expectingInterception r = false) by (vm_compute; reflexivity).
  assert (H6 : _pageNetwork r = Some p) by (vm_compute; reflexivity).
  split; [exact H1|].
  split; [exact H2|].
  split; [exact H3|].
  split; [exact H4|].
  split; [exact H5|].
  split; [exact H6|].
  exact (service_worker_takes_precedence w this r p callbacks aChannel intercepted H1 H2 H3 H4
    H5 H6).
Defined.

(** ** Error codes *)

Lemma errorMap_failures k e : JsMap.get errorMap k = Some e -> NS_FAILED e.
Proof.
  unfold errorMap. cbn [JsMap.get].
  repeat (destruct (String.eqb _ k); [intros [= <-]; vm_compute; discriminate|]).
  discriminate.
Qed.

Lemma errorMap_no_numeral code : JsMap.get errorMap (Js.numeral code) = None.
Proof.
  unfold Js.numeral. destruct (N.to_uint code); reflexivity.
Qed.

Lemma Object_prototype_no_numeral code :
  existsb (String.eqb (Js.numeral code)) Object_prototype = false.
Proof.
  unfold Js.numeral. destruct (N.to_uint code); reflexivity.
Qed.

(** X12. [abort] hands [cancelInterception] what
    [errorMap[errorCode] || Cr.NS_ERROR_FAILURE] evaluates to, once, and
    never a success code: when the value is a number it is a failure code.
    It is not a number only for a symbolic name of [Object.prototype]. No
    property of [errorMap], own or inherited, has a numeral for name, so a
    caller that passes an error number instead of a name always gets the
    generic failure. *)
Theorem abort_passes_no_success_code w this r intercepted errorCode :
  requests w !! this = Some r ->
  _interceptedChannel r = Some intercepted ->
  exists w',
    abort this errorCode w = (Ok tt, w')
    /\ calls w' = calls w ++ [cancelInterception intercepted (abort_error errorCode)]
    /\ (forall error, abort_error errorCode = Code error -> NS_FAILED error)
    /\ (forall name,
          abort_error errorCode = Inherited name ->
          errorCode = Symbolic name /\ In name Object_prototype)
    /\ (forall code, errorCode = Numeric code -> abort_error errorCode = Cr.NS_ERROR_FAILURE)
    /\ requests w' = <[this := set_interceptedChannel None r]> (requests w)
    /\ emitted w' = emitted w.
Proof.
  intros Hr Hic. unfold abort, _failWithErrorCode. mrun.
  eexists. split; [reflexivity|]. simpl. split; [reflexivity|].
  split.
  { intros error. unfold abort_error.
    destruct (JsMap.get errorMap (property_key errorCode)) as [e|] eqn:He.
    - destruct (N.eqb_spec e 0); intros [= <-]; [vm_compute; discriminate|].
      now apply (errorMap_failures (property_key errorCode)).
    - destruct (existsb _ _); intros [= <-]. vm_compute. discriminate. }
  split.
  { intros name. unfold abort_error.
    destruct (JsMap.get errorMap (property_key errorCode)) as [e|] eqn:He.
    - destruct (N.eqb_spec e 0); discriminate.
    - destruct (existsb _ _) eqn:E; [|discriminate]. intros [= <-].
      destruct errorCode as [name|code].
      + split; [reflexivity|]. now apply Object_prototype_existsb.
      + cbn [property_key] in E. now rewrite Object_prototype_no_numeral in E. }
  split; [|auto].
  intros code ->. unfold abort_error, property_key.
  now rewrite errorMap_no_numeral, Object_prototype_no_numeral.
Qed.

(** The paused exchange of channel 10 is aborted with the number of the
    offline error. *)
Lemma abort_passes_no_success_code_witness :
  let w := Sample.paused in
  let this := 0%nat in
  let r := Sample.exchange w 0 in
  let intercepted := 20%nat in
  let errorCode := Numeric Cr.NS_ERROR_OFFLINE in
  (requests w !! this = Some r)
  /\ (_interceptedChannel r = Some intercepted)
  /\ (exists w',
       abort this errorCode w = (Ok tt, w')
       /\ calls w' = calls w ++ [cancelInterception intercepted (abort_error errorCode)]
       /\ (forall error, abort_error errorCode = Code error -> NS_FAILED error)
       /\ (forall name,
             abort_error errorCode = Inherited name ->
             errorCode = Symbolic name /\ In name Object_prototype)
       /\ (forall code, errorCode = Numeric code -> abort_error errorCode = Cr.NS_ERROR_FAILURE)
       /\ requests w' = <[this := set_interceptedChannel None r]> (requests w)
       /\ emitted w' = emitted w).
Proof.
  intros w this r intercepted errorCode.
  assert (H1 : requests w !! this = Some r) by (vm_compute; reflexivity).
  assert (H2 : _interceptedChannel r = Some intercepted) by (vm_compute; reflexivity).
  split; [exact H1|].
  split; [exact H2|].
  exact (abort_passes_no_success_code w this r intercepted errorCode H1 H2).
Defined.

(** ** Loops of browser calls *)

Lemma with_calls_id w : with_calls (fun _ => calls w) w = w.
Proof. now destruct w. Qed.

Lemma for_of_call_run {A : Type} (f : A -> Call) (l : list A) w :
  for_of l (fun x => call (f x)) w
  = (Ok tt, with_calls (fun _ => calls w ++ map f l) w).
Proof.
  revert w. induction l as [|x l IH]; intros w; simpl.
  - unfold ret. rewrite app_nil_r. now rewrite with_calls_id.
  - unfold bind, call, modify. rewrite IH. unfold with_calls. simpl.
    now rewrite <- app_assoc.
Qed.

Lemma appendExtraHTTPHeaders_calls c headers w :
  appendExtraHTTPHeaders c headers w
  = (Ok tt, with_calls (fun _ => calls w ++ header_sets c (default [] headers)) w).
Proof.
  unfold appendExtraHTTPHeaders, header_sets. destruct headers as [l|]; simpl.
  - apply for_of_call_run.
  - unfold ret. rewrite app_nil_r. now rewrite with_calls_id.
Qed.

(** ** Redirects *)

(** X13. A new exchange first receives the extra headers of its browser
    context and then those of its page network, so that the page-level
    value comes last for a name set at both levels; [setExtraHTTPHeaders]
    replaces the page-level list. The exchange then takes the place of the
    listener and of the notification callbacks of the channel. No event is
    emitted yet: the request is announced when the interception decision
    is known. *)
Theorem extra_headers_context_then_page w c target pn headers :
  c ∉ _responseInterceptionChannels w ->
  JsMap.get (_expectedRedirect w) (Js.numeral (channelId (channel w c))) = None ->
  _channelToRequest w !! c = None ->
  loadTarget (channel w c) = Some target ->
  pageNetworks w !! target = Some pn ->
  exists w' r,
    (setExtraHTTPHeaders target headers ;; _onRequest c) w = (Ok tt, w')
    /\ calls w'
       = calls w
         ++ header_sets c (default [] (extraHTTPHeaders (browserContext w (_target pn))))
         ++ header_sets c (default [] headers)
         ++ [setNewListener c (next w); setNotificationCallbacks c (next w)]
    /\ emitted w' = emitted w
    /\ requests w' !! next w = Some r
    /\ httpChannel r = c
    /\ _pageNetwork r = Some target
    /\ _channelToRequest w' !! c = Some (next w)
    /\ pageNetworks w' !! target = Some (set_extraHTTPHeaders headers pn).
Proof.
  intros Hex Hred Hmap Htarget Hpn.
  unfold setExtraHTTPHeaders. unfold bind at 1.
  unfold update_pageNetwork, bind at 1, the_pageNetwork at 1, modify at 1. rewrite Hpn.
  set (w1 := with_pageNetworks _ w).
  unfold _onRequest. unfold bind at 1. unfold read at 1.
  change (_responseInterceptionChannels w1) with (_responseInterceptionChannels w).
  rewrite bool_decide_eq_false_2 by exact Hex.
  unfold bind at 1. unfold read at 1. unfold bind at 1. unfold read at 1.
  change (JsMap.get (_expectedRedirect w1) (Js.numeral (channelId (channel w1 c))))
    with (JsMap.get (_expectedRedirect w) (Js.numeral (channelId (channel w c)))).
  rewrite Hred. unfold bind at 1. unfold read at 1.
  change (_channelToRequest w1 !! c) with (_channelToRequest w !! c). rewrite Hmap.
  unfold new_NetworkRequest, _findPageNetwork, forPageTarget.
  assert (Hpn1 : pageNetworks w1 !! target = Some (set_extraHTTPHeaders headers pn))
    by (subst w1; simpl; apply lookup_insert_eq).
  mrun. rewrite !appendExtraHTTPHeaders_calls. mrun.
  eexists. eexists. split; [reflexivity|]. simpl.
  rewrite !lookup_insert_eq. rewrite <- !app_assoc.
  split; [reflexivity|]. split; [reflexivity|]. split; [reflexivity|]. auto.
Qed.

(** A page-level header is set before channel 12 sends its request. *)
Lemma extra_headers_context_then_page_witness :
  let w := Sample.requested false in
  let c := 12%nat in
  let target := 1%nat in
  let pn := Sample.tracker w in
  let headers := Some [{| name := "x-page"; value := "1" |}] in
  (c ∉ _responseInterceptionChannels w)
  /\ (JsMap.get (_expectedRedirect w) (Js.numeral (channelId (channel w c))) = None)
  /\ (_channelToRequest w !! c = None)
  /\ (loadTarget (channel w c) = Some target)
  /\ (pageNetworks w !! target = Some pn)
  /\ (exists w' r,
       (setExtraHTTPHeaders target headers ;; _onRequest c) w = (Ok tt, w')
       /\ calls w'
          = calls w
            ++ header_sets c (default [] (extraHTTPHeaders (browserContext w (_target pn))))
            ++ header_sets c (default [] headers)
            ++ [setNewListener c (next w); setNotificationCallbacks c (next w)]
       /\ emitted w' = emitted w
       /\ requests w' !! next w = Some r
       /\ httpChannel r = c
       /\ _pageNetwork r = Some target
       /\ _channelToRequest w' !! c = Some (next w)
       /\ pageNetworks w' !! target = Some (set_extraHTTPHeaders headers pn)).
Proof.
  intros w c target pn headers.
  assert (H1 : c ∉ _responseInterceptionChannels w) by (absent).
  assert (H2 : JsMap.get (_expectedRedirect w) (Js.numeral (channelId (channel w c))) = None) by
    (vm_compute; reflexivity).
  assert (H3 : _channelToRequest w !! c = None) by (vm_compute; reflexivity).
  assert (H4 : loadTarget (channel w c) = Some target) by (vm_compute; reflexivity).
  assert (H5 : pageNetworks w !! target = Some pn) by (vm_compute; reflexivity).
  split; [exact H1|].
  split; [exact H2|].
  split; [exact H3|].
  split; [exact H4|].
  split; [exact H5|].
  exact (extra_headers_context_then_page w c target pn headers H1 H2 H3 H4 H5).
Defined.

(** The constructor for a redirect of an exchange that has a live page
    network and no response interceptor, with what the new exchange finds
    on its channel. *)
Lemma new_NetworkRequest_successor w c f from p pn :
  requests w !! f = Some from ->
  _responseInterceptor from = None ->
  Js.nonempty (requestId from) = true ->
  _pageNetwork from = Some p ->
  pageNetworks w !! p = Some pn ->
  exists w' r e,
    new_NetworkRequest c (Some f) w = (Ok (next w), w')
    /\ requests w' = <[next w := r]> (requests w)
    /\ constructed (channel w c) (Some from) r
    /\ httpChannel r = c
    /\ _pageNetwork r = Some p
    /\ _responseInterceptor r = None
    /\ _expectingInterception r = false
    /\ _interceptedChannel r = None
    /\ _previousCallbacks r = channelCallbacks w c
    /\ _originalListener r = _originalListener from
    /\ emitted w' = emitted w ++ [(p, Events.RequestFinished (requestId from)); (p, e)]
    /\ is_request (requestId r) false (Some (requestId from)) (navigationId from) e
    /\ pageNetworks w' = pageNetworks w
    /\ browserContext w' = browserContext w
    /\ channel w' = channel w
    /\ _expectedRedirect w' = _expectedRedirect w
    /\ _channelToRequest w' = delete (httpChannel from) (<[c := next w]> (_channelToRequest w)).
Proof.
  intros Hf Hi Hid Hp Hpn.
  unfold new_NetworkRequest, _sendOnRequestFinished, _sendOnRequestFinishedImpl, _sendOnRequest.
  mrun. rewrite !appendExtraHTTPHeaders_calls. mrun.
  eexists. eexists. eexists. split; [reflexivity|]. simpl.
  rewrite <- app_assoc.
  split; [reflexivity|]. split; [repeat split|].
  repeat (split; [reflexivity|]). split; [simpl; auto|]. auto 10.
Qed.

(** X14. A redirect finishes the exchange it leaves before it announces
    the next one, and the next one is never paused: once the observer has
    seen the redirect, the request on the new channel becomes an exchange
    whose id is the channel id with the redirect ordinal, that points back
    to the previous exchange and shares its navigation id and page network;
    its request event follows the [RequestFinished] of the previous
    exchange and says not intercepted, and the interception controller
    answers no for it without emitting anything, whatever the interception
    policy. *)
Theorem redirect_is_announced_and_never_paused w oldChannel newChannel flags f from p pn :
  _channelToRequest w !! oldChannel = Some f ->
  requests w !! f = Some from ->
  _responseInterceptor from = None ->
  Js.nonempty (requestId from) = true ->
  _pageNetwork from = Some p ->
  pageNetworks w !! p = Some pn ->
  N.land flags REDIRECT_INTERNAL = 0%N ->
  N.land flags REDIRECT_STS_UPGRADE = 0%N ->
  newChannel ∉ _responseInterceptionChannels w ->
  channelCallbacks w newChannel = None ->
  exists w' r e,
    (_onRedirect oldChannel newChannel flags ;; _onRequest newChannel) w = (Ok tt, w')
    /\ requests w' !! next w = Some r
    /\ requestId r
       = redirect_id (channelId (channel w newChannel)) (_redirectedIndex from + 1)
    /\ redirectedFromId r = Some (requestId from)
    /\ navigationId r = navigationId from
    /\ _pageNetwork r = Some p
    /\ emitted w' = emitted w ++ [(p, Events.RequestFinished (requestId from)); (p, e)]
    /\ is_request (requestId r) false (Some (requestId from)) (navigationId from) e
    /\ shouldPrepareForIntercept (next w) newChannel w' = (Ok false, w').
Proof.
  intros Hmap Hf Hi Hid Hp Hpn Hint Hsts Hex Hcb.
  unfold _onRedirect. unfold bind at 1. unfold bind at 1. unfold read at 1.
  rewrite Hmap, Hint, Hsts. cbn [N.eqb negb].
  unfold bind at 1. unfold read at 1. unfold _expectRedirect, modify.
  set (key := Js.numeral (channelId (channel w newChannel))).
  set (w1 := with_expectedRedirect _ w).
  unfold _onRequest. unfold bind at 1. unfold read at 1.
  change (_responseInterceptionChannels w1) with (_responseInterceptionChannels w).
  rewrite bool_decide_eq_false_2 by exact Hex.
  unfold bind at 1. unfold read at 1. unfold bind at 1. unfold read at 1.
  change (channel w1 newChannel) with (channel w newChannel). fold key.
  assert (Hget : JsMap.get (_expectedRedirect w1) key = Some f)
    by (subst w1; simpl; apply get_set_eq).
  rewrite Hget. unfold bind at 1. unfold modify at 1.
  set (w2 := with_expectedRedirect _ w1).
  destruct (new_NetworkRequest_successor w2 newChannel f from p pn Hf Hi Hid Hp Hpn)
    as (w' & r & e & Hrun & Hreqs & (C1 & C2 & C3 & C4) & Hc & Hpr & Hir & Hexp & Hic
        & Hprev & _ & Hem & He & _).
  cbn [identify id_requestId id_navigationId id_redirectedFromId id_redirectedIndex]
    in C1, C2, C3, C4.
  unfold bind. rewrite Hrun. unfold ret.
  exists w', r, e. split; [reflexivity|].
  assert (Hr : requests w' !! next w = Some r)
    by (rewrite Hreqs; apply lookup_insert_eq).
  split; [exact Hr|]. split; [exact C1|]. split; [exact C3|]. split; [exact C2|].
  split; [exact Hpr|]. split; [exact Hem|]. split; [exact He|].
  unfold shouldPrepareForIntercept. unfold bind at 1. unfold the_request at 1. rewrite Hr.
  unfold _fallThroughInterceptController. rewrite Hprev.
  change (channelCallbacks w2 newChannel) with (channelCallbacks w newChannel).
  rewrite Hcb, Hc, Nat.eqb_refl, C3. cbn [negb]. cbv beta iota. now rewrite Hid.
Qed.

(** The exchange of channel 10 is redirected to channel 13. *)
Lemma redirect_is_announced_and_never_paused_witness :
  let w := Sample.requested false in
  let oldChannel := 10%nat in
  let newChannel := 13%nat in
  let flags := 0%N in
  let f := 0%nat in
  let from := Sample.exchange w 0 in
  let p := 1%nat in
  let pn := Sample.tracker w in
  (_channelToRequest w !! oldChannel = Some f)
  /\ (requests w !! f = Some from)
  /\ (_responseInterceptor from = None)
  /\ (Js.nonempty (requestId from) = true)
  /\ (_pageNetwork from = Some p)
  /\ (pageNetworks w !! p = Some pn)
  /\ (N.land flags REDIRECT_INTERNAL = 0%N)
  /\ (N.land flags REDIRECT_STS_UPGRADE = 0%N)
  /\ (newChannel ∉ _responseInterceptionChannels w)
  /\ (channelCallbacks w newChannel = None)
  /\ (exists w' r e,
       (_onRedirect oldChannel newChannel flags ;; _onRequest newChannel) w = (Ok tt, w')
       /\ requests w' !! next w = Some r
       /\ requestId r
          = redirect_id (channelId (channel w newChannel)) (_redirectedIndex from + 1)
       /\ redirectedFromId r = Some (requestId from)
       /\ navigationId r = navigationId from
       /\ _pageNetwork r = Some p
       /\ emitted w' = emitted w ++ [(p, Events.RequestFinished (requestId from)); (p, e)]
       /\ is_request (requestId r) false (Some (requestId from)) (navigationId from) e
       /\ shouldPrepareForIntercept (next w) newChannel w' = (Ok false, w')).
Proof.
  intros w oldChannel newChannel flags f from p pn.
  assert (H1 : _channelToRequest w !! oldChannel = Some f) by (vm_compute; reflexivity).
  assert (H2 : requests w !! f = Some from) by (vm_compute; reflexivity).
  assert (H3 : _responseInterceptor from = None) by (vm_compute; reflexivity).
  assert (H4 : Js.nonempty (requestId from) = true) by (vm_compute; reflexivity).
  assert (H5 : _pageNetwork from = Some p) by (vm_compute; reflexivity).
  assert (H6 : pageNetworks w !! p = Some pn) by (vm_compute; reflexivity).
  assert (H7 : N.land flags REDIRECT_INTERNAL = 0%N) by (vm_compute; reflexivity).
  assert (H8 : N.land flags REDIRECT_STS_UPGRADE = 0%N) by (vm_compute; reflexivity).
  assert (H9 : newChannel ∉ _responseInterceptionChannels w) by (absent).
  assert (H10 : channelCallbacks w newChannel = None) by (vm_compute; reflexivity).
  split; [exact H1|].
  split; [exact H2|].
  split; [exact H3|].
  split; [exact H4|].
  split; [exact H5|].
  split; [exact H6|].
  split; [exact H7|].
  split; [exact H8|].
  split; [exact H9|].
  split; [exact H10|].
  exact (redirect_is_announced_and_never_paused w oldChannel newChannel flags f from p pn H1 H2
    H3 H4 H5 H6 H7 H8 H9 H10).
Defined.

(** X15. An HSTS upgrade is reported as a redirect: the exchange of the
    old channel emits its response, with the forged status 307 and text
    [Temporary Redirect] when the channel has no response of its own and
    with the status, text and headers of the channel when it has one, and
    the request on the new channel is expected as a redirect of the
    exchange. *)
Theorem hsts_upgrade_is_reported_as_a_redirect w oldChannel newChannel flags this r p :
  _channelToRequest w !! oldChannel = Some this ->
  requests w !! this = Some r ->
  _responseInterceptor r = None ->
  _pageNetwork r = Some p ->
  _sentOnResponse r = false ->
  N.land flags REDIRECT_INTERNAL = 0%N ->
  N.land flags REDIRECT_STS_UPGRADE <> 0%N ->
  let head := forged_head (channel w (httpChannel r)) in
  exists w',
    _onRedirect oldChannel newChannel flags w = (Ok tt, w')
    /\ emitted w'
       = emitted w
         ++ [(p, Events.Response (requestId r) false (Head.headers head) (Head.status head)
                   (Head.statusText head))]
    /\ (responseStatus (channel w (httpChannel r)) = None ->
        head = Head.mk 307 "Temporary Redirect" [])
    /\ (forall status, responseStatus (channel w (httpChannel r)) = Some status ->
        head = Head.mk status (responseStatusText (channel w (httpChannel r)))
                 (responseHeaders (channel w (httpChannel r))))
    /\ JsMap.get (_expectedRedirect w') (Js.numeral (channelId (channel w newChannel)))
       = Some this
    /\ requests w' !! this = Some (set_sentOnResponse true r).
Proof.
  intros Hmap Hr Hi Hp Hsent Hint Hsts head.
  unfold _onRedirect. unfold bind at 1. unfold read at 1.
  rewrite Hmap, Hint. apply N.eqb_neq in Hsts. rewrite Hsts. cbn [N.eqb negb].
  unfold _sendOnResponse, _sendOnResponseImpl, _expectRedirect. mrun.
  eexists. split; [reflexivity|]. simpl.
  split; [reflexivity|]. split.
  { intros Hnone. subst head. unfold forged_head, responseHead. now rewrite Hnone. }
  split.
  { intros status Hsome. subst head. unfold forged_head, responseHead. now rewrite Hsome. }
  split; [apply get_set_eq|apply lookup_insert_eq].
Qed.

(** The request of channel 10 is upgraded to channel 13. *)
Lemma hsts_upgrade_is_reported_as_a_redirect_witness :
  let w := Sample.requested false in
  let oldChannel := 10%nat in
  let newChannel := 13%nat in
  let flags := REDIRECT_STS_UPGRADE in
  let this := 0%nat in
  let r := Sample.exchange w 0 in
  let p := 1%nat in
  (_channelToRequest w !! oldChannel = Some this)
  /\ (requests w !! this = Some r)
  /\ (_responseInterceptor r = None)
  /\ (_pageNetwork r = Some p)
  /\ (_sentOnResponse r = false)
  /\ (N.land flags REDIRECT_INTERNAL = 0%N)
  /\ (N.land flags REDIRECT_STS_UPGRADE <> 0%N)
  /\ (let head := forged_head (channel w (httpChannel r)) in
     exists w',
       _onRedirect oldChannel newChannel flags w = (Ok tt, w')
       /\ emitted w'
          = emitted w
            ++ [(p, Events.Response (requestId r) false (Head.headers head) (Head.status head)
                      (Head.statusText head))]
       /\ (responseStatus (channel w (httpChannel r)) = None ->
           head = Head.mk 307 "Temporary Redirect" [])
       /\ (forall status, responseStatus (channel w (httpChannel r)) = Some status ->
           head = Head.mk status (responseStatusText (channel w (httpChannel r)))
                    (responseHeaders (channel w (httpChannel r))))
       /\ JsMap.get (_expectedRedirect w') (Js.numeral (channelId (channel w newChannel)))
          = Some this
       /\ requests w' !! this = Some (set_sentOnResponse true r)).
Proof.
  intros w oldChannel newChannel flags this r p.
  assert (H1 : _channelToRequest w !! oldChannel = Some this) by (vm_compute; reflexivity).
  assert (H2 : requests w !! this = Some r) by (vm_compute; reflexivity).
  assert (H3 : _responseInterceptor r = None) by (vm_compute; reflexivity).
  assert (H4 : _pageNetwork r = Some p) by (vm_compute; reflexivity).
  assert (H5 : _sentOnResponse r = false) by (vm_compute; reflexivity).
  assert (H6 : N.land flags REDIRECT_INTERNAL = 0%N) by (vm_compute; reflexivity).
  assert (H7 : N.land flags REDIRECT_STS_UPGRADE <> 0%N) by (vm_compute; discriminate).
  split; [exact H1|].
  split; [exact H2|].
  split; [exact H3|].
  split; [exact H4|].
  split; [exact H5|].
  split; [exact H6|].
  split; [exact H7|].
  exact (hsts_upgrade_is_reported_as_a_redirect w oldChannel newChannel flags this r p H1 H2 H3
    H4 H5 H6 H7).
Defined.

(** ** Resuming with overrides *)

Lemma with_calls_app w l1 l2 :
  with_calls (fun _ => calls (with_calls (fun _ => calls w ++ l1) w) ++ l2)
    (with_calls (fun _ => calls w ++ l1) w)
  = with_calls (fun _ => calls w ++ l1 ++ l2) w.
Proof. unfold with_calls. simpl. now rewrite <- app_assoc. Qed.

Lemma call_run c w : call c w = (Ok tt, with_calls (fun _ => calls w ++ [c]) w).
Proof. reflexivity. Qed.

Lemma ret_run w : @ret unit tt w = (Ok tt, with_calls (fun _ => calls w ++ []) w).
Proof. unfold ret. rewrite app_nil_r. now rewrite with_calls_id. Qed.

Lemma bind_calls (c1 c2 : M unit) w l1 l2 res :
  c1 w = (Ok tt, with_calls (fun _ => calls w ++ l1) w) ->
  (forall w1, c2 w1 = (res, with_calls (fun _ => calls w1 ++ l2) w1)) ->
  (c1 ;; c2) w = (res, with_calls (fun _ => calls w ++ l1 ++ l2) w).
Proof.
  intros H1 H2. unfold bind. rewrite H1, H2. now rewrite with_calls_app.
Qed.

Lemma setPostData_run c postData headers w :
  setPostData c postData headers w
  = (match Js.atob postData with Some _ => Ok tt | None => Throw InvalidCharacterError end,
     with_calls
       (fun _ => calls w
                 ++ match Js.atob postData with
                    | Some body =>
                        [setRequestHeader c "content-length"
                           (overriddenHeader (default [] headers) "content-length" EmptyString);
                         explicitSetUploadStream c body
                           (overriddenHeader (default [] headers)
                              "content-type" "application/octet-stream")]
                    | None => []
                    end) w).
Proof.
  unfold setPostData. destruct (Js.atob postData) as [body|].
  - apply (bind_calls _ _ w [_] [_]); [apply call_run|]. intros w1. apply call_run.
  - unfold throw. rewrite app_nil_r. now rewrite with_calls_id.
Qed.

(** The overrides recorded by [resume], as [_onInternalRedirectReady]
    applies them. *)
Lemma resumed_updates_run c resumed w :
  ((match Resumed.headers resumed with
    | Some headers =>
        let* ch := read (fun w => channel w c) in
        for_of (requestHeaders ch) (fun header =>
          call (setRequestHeader c (name header) EmptyString)) ;;
        for_of headers (fun header =>
          call (setRequestHeader c (name header) (value header)))
    | None => ret tt
    end) ;;
   (match Resumed.method resumed with
    | Some method =>
        if Js.nonempty method then call (setRequestMethod c method) else ret tt
    | None => ret tt
    end) ;;
   match Resumed.postData resumed with
   | Some postData =>
       if Js.nonempty postData then setPostData c postData (Resumed.headers resumed)
       else ret tt
   | None => ret tt
   end) w
  = (override_outcome resumed,
     with_calls (fun _ => calls w ++ override_calls c (channel w c) resumed) w).
Proof.
  unfold override_calls, override_outcome.
  apply bind_calls.
  - destruct (Resumed.headers resumed) as [headers|]; [|apply ret_run].
    unfold bind at 1. unfold read at 1.
    apply bind_calls; [apply for_of_call_run|]. intros w1. apply for_of_call_run.
  - intros w1. apply bind_calls.
    + destruct (Resumed.method resumed) as [m|]; [|apply ret_run].
      destruct (Js.nonempty m); [apply call_run|apply ret_run].
    + intros w2. destruct (Resumed.postData resumed) as [d|]; [|apply ret_run].
      destruct (Js.nonempty d); [|apply ret_run]. apply setPostData_run.
Qed.

(** X16. The overrides given to [resume] reach the request once, after
    the internal redirect that follows: the exchange is rebound to the new
    channel, the headers that this channel has are cleared and the given
    ones set, then the method, then the post data, all on the new channel,
    and a second notification for the channel applies nothing. Post data
    that is not base64 makes the handler throw after the headers and the
    method have been applied, and they are not applied again. *)
Theorem overrides_reach_the_redirected_request
    w this r intercepted newChannel flags url method headers postData :
  requests w !! this = Some r ->
  _interceptedChannel r = Some intercepted ->
  _channelToRequest w !! httpChannel r = Some this ->
  N.land flags REDIRECT_INTERNAL <> 0%N ->
  newChannel ∉ _responseInterceptionChannels w ->
  JsMap.get (_expectedRedirect w) (Js.numeral (channelId (channel w newChannel))) = None ->
  let resumed := Resumed.mk method headers postData in
  exists w',
    (resume this url method headers postData ;;
     _onRedirect (httpChannel r) newChannel flags ;;
     _onRequest newChannel) w
    = (override_outcome resumed, w')
    /\ calls w'
       = calls w ++ [resetInterceptionWithURI intercepted (resumed_uri url)]
         ++ override_calls newChannel (channel w newChannel) resumed
    /\ emitted w' = emitted w
    /\ requests w' !! this
       = Some (set_expectingResumedRequest None
                 (set_httpChannel newChannel (set_interceptedChannel None r)))
    /\ _channelToRequest w' !! newChannel = Some this
    /\ _onRequest newChannel w' = (Ok tt, w').
Proof.
  intros Hr Hic Hmap Hflag Hex Hred resumed.
  assert (Hfirst : exists w2,
             (resume this url method headers postData ;;
              _onRedirect (httpChannel r) newChannel flags) w = (Ok tt, w2)
             /\ calls w2 = calls w ++ [resetInterceptionWithURI intercepted (resumed_uri url)]
             /\ emitted w2 = emitted w
             /\ requests w2 !! this
                = Some (set_httpChannel newChannel
                          (set_interceptedChannel None
                             (set_expectingResumedRequest (Some resumed) r)))
             /\ _channelToRequest w2 !! newChannel = Some this
             /\ _responseInterceptionChannels w2 = _responseInterceptionChannels w
             /\ _expectedRedirect w2 = _expectedRedirect w
             /\ channel w2 = channel w).
  { unfold resume, _onRedirect, _onInternalRedirect. mrun.
    apply N.eqb_neq in Hflag. rewrite Hflag. cbn [negb]. mrun.
    fold (resumed_uri url).
    eexists. split; [reflexivity|]. simpl. rewrite !lookup_insert_eq. auto 10. }
  destruct Hfirst as (w2 & Hrun2 & Hcalls2 & Hem2 & Hr2 & Hmap2 & Hex2 & Hred2 & Hch2).
  assert (Hready : forall w3 r3,
             requests w3 !! this = Some r3 ->
             _channelToRequest w3 !! newChannel = Some this ->
             _responseInterceptionChannels w3 = _responseInterceptionChannels w ->
             _expectedRedirect w3 = _expectedRedirect w ->
             channel w3 = channel w ->
             _onRequest newChannel w3 = _onInternalRedirectReady this w3).
  { intros w3 r3 H1 H2 H3 H4 H5. unfold _onRequest.
    unfold bind at 1. unfold read at 1. rewrite H3.
    rewrite bool_decide_eq_false_2 by exact Hex.
    unfold bind at 1. unfold read at 1. unfold bind at 1. unfold read at 1.
    rewrite H4, H5, Hred. unfold bind at 1. unfold read at 1. now rewrite H2. }
  assert (Hassoc : (resume this url method headers postData ;;
                    _onRedirect (httpChannel r) newChannel flags ;;
                    _onRequest newChannel) w
                   = _onRequest newChannel w2).
  { change ((resume this url method headers postData ;;
             _onRedirect (httpChannel r) newChannel flags ;;
             _onRequest newChannel) w)
      with (match resume this url method headers postData w with
            | (Ok _, w1) =>
                match _onRedirect (httpChannel r) newChannel flags w1 with
                | (Ok _, w2) => _onRequest newChannel w2
                | (Throw e, w2) => (Throw e, w2)
                end
            | (Throw e, w1) => (Throw e, w1)
            end).
    unfold bind in Hrun2.
    destruct (resume this url method headers postData w) as [[[]|e1] w1];
      [|discriminate].
    destruct (_onRedirect (httpChannel r) newChannel flags w1) as [[[]|e2] w2'];
      [|discriminate].
    now injection Hrun2 as ->. }
  rewrite Hassoc. rewrite (Hready w2 _ Hr2 Hmap2 Hex2 Hred2 Hch2).
  unfold _onInternalRedirectReady. unfold bind at 1. unfold the_request at 1. rewrite Hr2.
  cbn [_expectingResumedRequest set_httpChannel set_interceptedChannel
       set_expectingResumedRequest httpChannel].
  unfold bind at 1. unfold update_request, bind at 1, the_request at 1, modify at 1.
  rewrite Hr2.
  set (w3 := with_requests _ w2).
  rewrite (resumed_updates_run newChannel resumed w3).
  set (w' := with_calls _ w3).
  assert (Hr' : requests w' !! this
                = Some (set_expectingResumedRequest None
                          (set_httpChannel newChannel (set_interceptedChannel None r))))
    by (subst w' w3; simpl; now rewrite lookup_insert_eq).
  exists w'. split; [reflexivity|].
  split; [subst w' w3; simpl; rewrite Hcalls2, Hch2; now rewrite <- app_assoc|].
  split; [exact Hem2|]. split; [exact Hr'|]. split; [exact Hmap2|].
  rewrite (Hready w' _ Hr' Hmap2 Hex2 Hred2 Hch2).
  unfold _onInternalRedirectReady. unfold bind at 1. unfold the_request at 1. now rewrite Hr'.
Qed.

(** The paused exchange of channel 10 is resumed with a method, a header and post data, and
    continues on channel 23, which has a header of its own. *)
Lemma overrides_reach_the_redirected_request_witness :
  let w := Scene.paused_in (Scene.browser Scene.channels (fun _ => None)) in
  let this := 0%nat in
  let r := Sample.exchange w 0 in
  let intercepted := 20%nat in
  let newChannel := 23%nat in
  let flags := REDIRECT_INTERNAL in
  let url := @None string in
  let method := Some "POST" in
  let headers := Some [{| name := "x-test"; value := "1" |}] in
  let postData := Some "YT0x" in
  (requests w !! this = Some r)
  /\ (_interceptedChannel r = Some intercepted)
  /\ (_channelToRequest w !! httpChannel r = Some this)
  /\ (N.land flags REDIRECT_INTERNAL <> 0%N)
  /\ (newChannel ∉ _responseInterceptionChannels w)
  /\ (JsMap.get (_expectedRedirect w) (Js.numeral (channelId (channel w newChannel))) = None)
  /\ (let resumed := Resumed.mk method headers postData in
     exists w',
       (resume this url method headers postData ;;
        _onRedirect (httpChannel r) newChannel flags ;;
        _onRequest newChannel) w
       = (override_outcome resumed, w')
       /\ calls w'
          = calls w ++ [resetInterceptionWithURI intercepted (resumed_uri url)]
            ++ override_calls newChannel (channel w newChannel) resumed
       /\ emitted w' = emitted w
       /\ requests w' !! this
          = Some (set_expectingResumedRequest None
                    (set_httpChannel newChannel (set_interceptedChannel None r)))
       /\ _channelToRequest w' !! newChannel = Some this
       /\ _onRequest newChannel w' = (Ok tt, w')).
Proof.
  intros w this r intercepted newChannel flags url method headers postData.
  assert (H1 : requests w !! this = Some r) by (vm_compute; reflexivity).
  assert (H2 : _interceptedChannel r = Some intercepted) by (vm_compute; reflexivity).
  assert (H3 : _channelToRequest w !! httpChannel r = Some this) by (vm_compute; reflexivity).
  assert (H4 : N.land flags REDIRECT_INTERNAL <> 0%N) by (vm_compute; discriminate).
  assert (H5 : newChannel ∉ _responseInterceptionChannels w) by (absent).
  assert (H6 : JsMap.get (_expectedRedirect w) (Js.numeral (channelId (channel w newChannel))) =
    None) by (vm_compute; reflexivity).
  split; [exact H1|].
  split; [exact H2|].
  split; [exact H3|].
  split; [exact H4|].
  split; [exact H5|].
  split; [exact H6|].
  exact (overrides_reach_the_redirected_request w this r intercepted newChannel flags url method
    headers postData H1 H2 H3 H4 H5 H6).
Defined.

(** ** Base64 *)

Lemma list_ind3 {A : Type} (P : list A -> Prop) :
  P [] -> (forall a, P [a]) -> (forall a b, P [a; b]) ->
  (forall a b c l, P l -> P (a :: b :: c :: l)) ->
  forall l, P l.
Proof.
  intros H0 H1 H2 H3.
  assert (H : forall l, P l /\ (forall a, P (a :: l)) /\ (forall a b, P (a :: b :: l))).
  { induction l as [|x l (IH0 & IH1 & IH2)]; [auto|].
    split; [apply IH1|]. split; [intros a; apply IH2|]. intros a b. apply H3, IH0. }
  intros l. apply H.
Qed.

Lemma alphabet_facts m :
  (m < 64)%nat ->
  let c := match String.get m Js.alphabet with Some c => c | None => "="%char end in
  Js.index_of c Js.alphabet 0 = Some (N.of_nat m)
  /\ Js.is_ascii_whitespace c = false
  /\ c <> "="%char.
Proof.
  intros Hm.
  do 64 (destruct m as [|m]; [vm_compute; repeat split; discriminate|]). lia.
Qed.

Lemma sextet_facts n :
  Js.index_of (Js.sextet n) Js.alphabet 0 = Some (n mod 64)%N
  /\ Js.is_ascii_whitespace (Js.sextet n) = false
  /\ Js.sextet n <> "="%char.
Proof.
  unfold Js.sextet.
  assert (Hm : (N.to_nat (n mod 64) < 64)%nat).
  { pose proof (N.mod_upper_bound n 64 ltac:(discriminate)). lia. }
  destruct (alphabet_facts _ Hm) as (H1 & H2 & H3).
  rewrite N2Nat.id in H1. auto.
Qed.

Lemma append_cons c X Y : (String c X ++ Y)%string = String c (X ++ Y)%string.
Proof. reflexivity. Qed.

Lemma append_nil Y : (EmptyString ++ Y)%string = Y.
Proof. reflexivity. Qed.

Lemma btoa_bytes_shape l :
  Js.btoa_bytes l = (sextet_string (sextet_values l) ++ padding l)%string.
Proof.
  induction l as [| | |a b c l IH] using list_ind3; try reflexivity.
  cbn [Js.btoa_bytes sextet_values sextet_string padding].
  rewrite !append_cons. now rewrite IH.
Qed.

Lemma sextet_values_length l :
  (padding l = EmptyString /\ (length (sextet_values l) mod 4 = 0)%nat)
  \/ (padding l = "==" /\ (length (sextet_values l) mod 4 = 2)%nat)
  \/ (padding l = "=" /\ (length (sextet_values l) mod 4 = 3)%nat).
Proof.
  induction l as [| | |a b c l IH] using list_ind3; auto.
  cbn [sextet_values padding length].
  replace (S (S (S (S (length (sextet_values l)))))) with (length (sextet_values l) + 1 * 4)%nat
    by lia.
  rewrite Nat.Div0.mod_add. exact IH.
Qed.

Lemma sextet_string_app v1 v2 :
  sextet_string (v1 ++ v2) = (sextet_string v1 ++ sextet_string v2)%string.
Proof.
  induction v1 as [|v v1 IH]; cbn [sextet_string app]; [reflexivity|].
  now rewrite append_cons, IH.
Qed.

Lemma sextet_string_length vs : String.length (sextet_string vs) = length vs.
Proof. induction vs as [|v vs IH]; simpl; auto. Qed.

Lemma strip_whitespace_sextets vs pad :
  Js.strip_whitespace pad = pad ->
  Js.strip_whitespace (sextet_string vs ++ pad) = (sextet_string vs ++ pad)%string.
Proof.
  intros Hpad. induction vs as [|v vs IH]; cbn [sextet_string]; [exact Hpad|].
  rewrite append_cons. cbn [Js.strip_whitespace].
  destruct (sextet_facts v) as (_ & -> & _). now rewrite IH.
Qed.

Lemma substring_0_app X Y : substring 0 (String.length X) (X ++ Y) = X.
Proof.
  induction X as [|c X IH]; [now destruct Y|].
  rewrite append_cons. cbn [String.length substring]. now rewrite IH.
Qed.

Lemma substring_skip X Y m : substring (String.length X) m (X ++ Y) = substring 0 m Y.
Proof.
  induction X as [|c X IH]; [reflexivity|].
  rewrite append_cons. cbn [String.length substring]. exact IH.
Qed.

Lemma append_length X Y :
  String.length (X ++ Y) = (String.length X + String.length Y)%nat.
Proof.
  induction X as [|c X IH]; [reflexivity|].
  rewrite append_cons. cbn [String.length]. now rewrite IH.
Qed.

Lemma append_empty X : (X ++ EmptyString)%string = X.
Proof. induction X as [|c X IH]; [reflexivity|]. now rewrite append_cons, IH. Qed.

Lemma append_assoc X Y Z : ((X ++ Y) ++ Z)%string = (X ++ Y ++ Z)%string.
Proof. induction X as [|c X IH]; [reflexivity|]. now rewrite !append_cons, IH. Qed.

Lemma eqb_sextet_first v rest s :
  String.eqb (String (Js.sextet v) rest) (String "=" s) = false.
Proof.
  cbn [String.eqb]. destruct (sextet_facts v) as (_ & _ & Hne).
  destruct (Ascii.eqb_spec (Js.sextet v) "="); [contradiction|reflexivity].
Qed.

(** Removing the padding of what [btoa] writes leaves the sextets. *)
Lemma strip_padding_sextets vs pad :
  (pad = EmptyString
   \/ (pad = "==" /\ (length vs mod 4 = 2)%nat)
   \/ (pad = "=" /\ (length vs mod 4 = 3)%nat)) ->
  Js.strip_padding (sextet_string vs ++ pad) = sextet_string vs.
Proof.
  intros Hpad. unfold Js.strip_padding.
  destruct Hpad as [->|[[-> Hlen]|[-> Hlen]]].
  - rewrite append_empty. rewrite sextet_string_length.
    destruct (Nat.eqb (length vs mod 4) 0); [|reflexivity].
    destruct vs as [|v vs _] using rev_ind; [reflexivity|].
    destruct vs as [|v0 vs _] using rev_ind.
    + cbn [app length Nat.sub sextet_string substring]. now rewrite !eqb_sextet_first.
    + rewrite !length_app. cbn [length].
      replace (length vs + 1 + 1 - 2)%nat with (length vs) by lia.
      replace (length vs + 1 + 1 - 1)%nat with (length (vs ++ [v0])) by (rewrite length_app; simpl; lia).
      rewrite <- (sextet_string_length (vs ++ [v0])).
      rewrite (sextet_string_app (vs ++ [v0]) [v]), substring_skip.
      rewrite <- (sextet_string_length vs) at 1.
      rewrite (sextet_string_app vs [v0]), append_assoc, substring_skip.
      cbn [sextet_string]; rewrite ?append_cons, ?append_nil; cbn [substring].
      now rewrite !eqb_sextet_first.
  - rewrite append_length, sextet_string_length. cbn [String.length].
    replace ((length vs + 2) mod 4)%nat with 0%nat
      by (rewrite <- Nat.Div0.add_mod_idemp_l, Hlen; reflexivity).
    cbn [Nat.eqb]. replace (length vs + 2 - 2)%nat with (String.length (sextet_string vs))
      by (rewrite sextet_string_length; lia).
    rewrite substring_skip. cbn [substring String.eqb Ascii.eqb Bool.eqb].
    apply substring_0_app.
  - rewrite append_length, sextet_string_length. cbn [String.length].
    replace ((length vs + 1) mod 4)%nat with 0%nat
      by (rewrite <- Nat.Div0.add_mod_idemp_l, Hlen; reflexivity).
    cbn [Nat.eqb].
    destruct vs as [|v vs _] using rev_ind; [discriminate|].
    rewrite length_app. cbn [length].
    replace (length vs + 1 + 1 - 2)%nat with (String.length (sextet_string vs))
      by (rewrite sextet_string_length; lia).
    replace (length vs + 1 + 1 - 1)%nat with (String.length (sextet_string (vs ++ [v])))
      by (rewrite sextet_string_length, length_app; simpl; lia).
    rewrite substring_skip.
    rewrite (sextet_string_app vs [v]) at 1. rewrite append_assoc, substring_skip.
    cbn [sextet_string]; rewrite ?append_cons, ?append_nil; cbn [substring]. rewrite eqb_sextet_first.
    cbn [String.eqb Ascii.eqb Bool.eqb]. apply substring_0_app.
Qed.

Lemma sextets_of_string vs :
  Js.sextets (sextet_string vs) = Some (map (fun v => (v mod 64)%N) vs).
Proof.
  induction vs as [|v vs IH]; cbn [sextet_string Js.sextets map]; [reflexivity|].
  destruct (sextet_facts v) as (-> & _). now rewrite IH.
Qed.

Lemma atob_sextets_values l :
  Forall (fun b => (b < 256)%N) l ->
  Js.atob_sextets (map (fun v => (v mod 64)%N) (sextet_values l)) = l.
Proof.
  induction l as [|a|a b|a b c l IH] using list_ind3; intros Hl.
  - reflexivity.
  - apply Forall_cons in Hl as [Ha _].
    cbn [sextet_values map Js.atob_sextets]. unfold Js.quad. f_equal.
    zify. Z.to_euclidean_division_equations. lia.
  - apply Forall_cons in Hl as [Ha Hl]. apply Forall_cons in Hl as [Hb _].
    cbn [sextet_values map Js.atob_sextets]. unfold Js.quad.
    f_equal; [|f_equal]; zify; Z.to_euclidean_division_equations; lia.
  - apply Forall_cons in Hl as [Ha Hl]. apply Forall_cons in Hl as [Hb Hl].
    apply Forall_cons in Hl as [Hc Hl].
    cbn [sextet_values map Js.atob_sextets]. rewrite (IH Hl). unfold Js.quad.
    f_equal; [|f_equal; [|f_equal]]; zify; Z.to_euclidean_division_equations; lia.
Qed.

Lemma bytes_bounded s : Forall (fun b => (b < 256)%N) (Js.bytes s).
Proof.
  induction s as [|c s IH]; simpl; constructor; [apply N_ascii_bounded|exact IH].
Qed.

Lemma of_bytes_bytes s : Js.of_bytes (Js.bytes s) = s.
Proof.
  induction s as [|c s IH]; simpl; [reflexivity|]. now rewrite ascii_N_embedding, IH.
Qed.

(** [atob] undoes [btoa]. *)
Lemma atob_btoa s : Js.atob (Js.btoa s) = Some s.
Proof.
  unfold Js.atob, Js.btoa. rewrite btoa_bytes_shape.
  pose proof (sextet_values_length (Js.bytes s)) as Hshape.
  rewrite strip_whitespace_sextets
    by (destruct Hshape as [[-> _]|[[-> _]|[-> _]]]; reflexivity).
  rewrite strip_padding_sextets by tauto.
  rewrite sextet_string_length.
  assert (Hmod : (length (sextet_values (Js.bytes s)) mod 4 =? 1)%nat = false).
  { destruct Hshape as [[_ ->]|[[_ ->]|[_ ->]]]; reflexivity. }
  rewrite Hmod, sextets_of_string, atob_sextets_values by apply bytes_bounded.
  now rewrite of_bytes_bytes.
Qed.

(** ** Fulfilling *)

Lemma decode_btoa body : decode_base64body (Some (Js.btoa body)) = Some body.
Proof.
  unfold decode_base64body. destruct (Js.nonempty (Js.btoa body)) eqn:Hne.
  - apply atob_btoa.
  - destruct body as [|c body]; [reflexivity|].
    unfold Js.btoa in Hne. cbn [Js.bytes] in Hne.
    destruct (Js.bytes body) as [|b [|b' l]]; discriminate.
Qed.

(** X17. A body travels unchanged through base64: [fulfill] given the
    headers and the [btoa] of a body synthesizes the status line, each
    header in order (registering a cookie for every [set-cookie] header),
    then exactly that body, and finishes the response, which releases the
    intercepted channel; [setPostData] given the [btoa] of a body uploads
    exactly that body. *)
Theorem fulfill_synthesizes_the_encoded_body
    w this r intercepted status statusText headers body :
  requests w !! this = Some r ->
  _interceptedChannel r = Some intercepted ->
  _responseInterceptor r = None ->
  (exists w',
     fulfill this status statusText (Some headers) (Some (Js.btoa body)) w = (Ok tt, w')
     /\ calls w'
        = calls w
          ++ [synthesizeStatus intercepted status statusText]
          ++ header_calls intercepted (URI (channel w (httpChannel r))) (httpChannel r) headers
          ++ [startSynthesizedResponse intercepted body;
              finishSynthesizedResponse intercepted]
     /\ requests w' = <[this := set_interceptedChannel None r]> (requests w)
     /\ emitted w' = emitted w)
  /\ (forall c given,
        exists w',
          setPostData c (Js.btoa body) given w = (Ok tt, w')
          /\ calls w'
             = calls w
               ++ [setRequestHeader c "content-length"
                     (overriddenHeader (default [] given) "content-length" EmptyString);
                   explicitSetUploadStream c body
                     (overriddenHeader (default [] given) "content-type"
                        "application/octet-stream")]).
Proof.
  intros Hr Hic Hi. split.
  - unfold fulfill. rewrite decode_btoa. mrun.
    set (w1 := with_calls _ w).
    destruct (for_of_calls
                (fun h => header_calls intercepted (URI (channel w (httpChannel r)))
                            (httpChannel r) [h])
                (synthesize_header intercepted (URI (channel w (httpChannel r)))
                   (httpChannel r))
                headers w1)
      as (w2 & Hrun & Hcalls & Hreq & Hint & Hpn & Hem & Hch & Hmap).
    { intros x w0. apply synthesize_header_calls. }
    rewrite header_calls_concat in Hcalls.
    rewrite Hrun. mrun.
    eexists. split; [reflexivity|]. cbn [calls requests emitted with_calls with_requests].
    rewrite Hcalls, Hreq, Hem. subst w1. cbn [calls requests emitted with_calls].
    rewrite <- !app_assoc. auto.
  - intros c given. rewrite setPostData_run, atob_btoa. eexists. split; reflexivity.
Qed.

(** The paused exchange of channel 10 is fulfilled with a cookie and a body. *)
Lemma fulfill_synthesizes_the_encoded_body_witness :
  let w := Sample.paused in
  let this := 0%nat in
  let r := Sample.exchange w 0 in
  let intercepted := 20%nat in
  let status := Some 200 in
  let statusText := Some "OK" in
  let headers := [{| name := "set-cookie"; value := "a=b" |}] in
  let body := "hello" in
  (requests w !! this = Some r)
  /\ (_interceptedChannel r = Some intercepted)
  /\ (_responseInterceptor r = None)
  /\ ((exists w',
        fulfill this status statusText (Some headers) (Some (Js.btoa body)) w = (Ok tt, w')
        /\ calls w'
           = calls w
             ++ [synthesizeStatus intercepted status statusText]
             ++ header_calls intercepted (URI (channel w (httpChannel r))) (httpChannel r)
               headers
             ++ [startSynthesizedResponse intercepted body;
                 finishSynthesizedResponse intercepted]
        /\ requests w' = <[this := set_interceptedChannel None r]> (requests w)
        /\ emitted w' = emitted w)
     /\ (forall c given,
           exists w',
             setPostData c (Js.btoa body) given w = (Ok tt, w')
             /\ calls w'
                = calls w
                  ++ [setRequestHeader c "content-length"
                        (overriddenHeader (default [] given) "content-length" EmptyString);
                      explicitSetUploadStream c body
                        (overriddenHeader (default [] given) "content-type"
                           "application/octet-stream")])).
Proof.
  intros w this r intercepted status statusText headers body.
  assert (H1 : requests w !! this = Some r) by (vm_compute; reflexivity).
  assert (H2 : _interceptedChannel r = Some intercepted) by (vm_compute; reflexivity).
  assert (H3 : _responseInterceptor r = None) by (vm_compute; reflexivity).
  split; [exact H1|].
  split; [exact H2|].
  split; [exact H3|].
  exact (fulfill_synthesizes_the_encoded_body w this r intercepted status statusText headers
    body H1 H2 H3).
Defined.

(** ** Response interception *)

(** X18. Response interception is set up once per exchange and leaves the
    exchange awaiting its decision: the interceptor starts with the paused
    exchange as its original and final exchange and no upstream response,
    the awaiting map is untouched, and a second attempt on the same
    exchange throws [Already intercepting response for this request]
    without changing anything. *)
Theorem response_interception_is_set_up_once w p pn requestId this r :
  pageNetworks w !! p = Some pn ->
  JsMap.get (_interceptedRequests pn) requestId = Some this ->
  requests w !! this = Some r ->
  _responseInterceptor r = None ->
  exists w',
    resumeInterceptedRequest_interceptResponse p requestId w = (Ok (next w), w')
    /\ interceptors w' !! next w
       = Some {| _originalRequest := this; _finalRequest := this;
                 _responseChannel := None; _interceptedResponse := None |}
    /\ requests w' !! this = Some (set_responseInterceptor (Some (next w)) r)
    /\ pageNetworks w' = pageNetworks w
    /\ calls w' = calls w
    /\ emitted w' = emitted w
    /\ resumeInterceptedRequest_interceptResponse p requestId w'
       = (Throw already_intercepting, w').
Proof.
  intros Hpn Hget Hr Hi.
  unfold resumeInterceptedRequest_interceptResponse at 1, new_ResponseInterceptor. mrun.
  eexists. split; [reflexivity|]. simpl. rewrite !lookup_insert_eq.
  split; [reflexivity|]. split; [reflexivity|]. split; [reflexivity|].
  split; [reflexivity|]. split; [reflexivity|].
  unfold resumeInterceptedRequest_interceptResponse, new_ResponseInterceptor. mrun.
  reflexivity.
Qed.

(** Response interception for the paused exchange of channel 10. *)
Lemma response_interception_is_set_up_once_witness :
  let w := Sample.paused in
  let p := 1%nat in
  let pn := Sample.tracker w in
  let requestId := "10" in
  let this := 0%nat in
  let r := Sample.exchange w 0 in
  (pageNetworks w !! p = Some pn)
  /\ (JsMap.get (_interceptedRequests pn) requestId = Some this)
  /\ (requests w !! this = Some r)
  /\ (_responseInterceptor r = None)
  /\ (exists w',
       resumeInterceptedRequest_interceptResponse p requestId w = (Ok (next w), w')
       /\ interceptors w' !! next w
          = Some {| _originalRequest := this; _finalRequest := this;
                    _responseChannel := None; _interceptedResponse := None |}
       /\ requests w' !! this = Some (set_responseInterceptor (Some (next w)) r)
       /\ pageNetworks w' = pageNetworks w
       /\ calls w' = calls w
       /\ emitted w' = emitted w
       /\ resumeInterceptedRequest_interceptResponse p requestId w'
          = (Throw already_intercepting, w')).
Proof.
  intros w p pn requestId this r.
  assert (H1 : pageNetworks w !! p = Some pn) by (vm_compute; reflexivity).
  assert (H2 : JsMap.get (_interceptedRequests pn) requestId = Some this) by (vm_compute;
    reflexivity).
  assert (H3 : requests w !! this = Some r) by (vm_compute; reflexivity).
  assert (H4 : _responseInterceptor r = None) by (vm_compute; reflexivity).
  split; [exact H1|].
  split; [exact H2|].
  split; [exact H3|].
  split; [exact H4|].
  exact (response_interception_is_set_up_once w p pn requestId this r H1 H2 H3 H4).
Defined.

(** X19. The substitute channel of a response interception is not
    observed as a request of its own: while its fetch is pending the
    observer ignores its request notification and maps the channel to the
    paused exchange, so that a redirect of the substitute is attributed to
    that exchange; the completion of the fetch removes both
    registrations. *)
Theorem substitute_channel_is_not_observed w i interceptor newChannel :
  interceptors w !! i = Some interceptor ->
  exists w1 w2,
    interceptResponse_begin i newChannel w = (Ok tt, w1)
    /\ interceptors w1 !! i = Some (set_responseChannel (Some newChannel) interceptor)
    /\ _onRequest newChannel w1 = (Ok tt, w1)
    /\ _channelToRequest w1 !! newChannel = Some (_originalRequest interceptor)
    /\ requests w1 = requests w
    /\ emitted w1 = emitted w
    /\ interceptResponse_fetched i newChannel w1 = (Ok tt, w2)
    /\ (newChannel ∉ _responseInterceptionChannels w2)
    /\ _channelToRequest w2 !! newChannel = None
    /\ interceptors w2 = interceptors w1.
Proof.
  intros Hi. unfold interceptResponse_begin. mrun.
  eexists. eexists. split; [reflexivity|]. simpl. rewrite !lookup_insert_eq.
  split; [reflexivity|]. split.
  { unfold _onRequest. unfold bind at 1. unfold read at 1. simpl.
    rewrite bool_decide_eq_true_2 by (apply elem_of_cons; now left). reflexivity. }
  split; [reflexivity|]. split; [reflexivity|]. split; [reflexivity|].
  unfold interceptResponse_fetched. mrun. split; [reflexivity|]. simpl.
  split.
  { intros Hin. apply list_elem_of_filter in Hin as [Hne _]. now apply Hne. }
  split; [apply lookup_delete_eq|reflexivity].
Qed.

(** The upstream response of the paused exchange is fetched through channel 21. *)
Lemma substitute_channel_is_not_observed_witness :
  let w := Scene.intercepting in
  let i := 1%nat in
  let interceptor := {| _originalRequest := 0; _finalRequest := 0; _responseChannel := None;
    _interceptedResponse := None |} in
  let newChannel := 21%nat in
  (interceptors w !! i = Some interceptor)
  /\ (exists w1 w2,
       interceptResponse_begin i newChannel w = (Ok tt, w1)
       /\ interceptors w1 !! i = Some (set_responseChannel (Some newChannel) interceptor)
       /\ _onRequest newChannel w1 = (Ok tt, w1)
       /\ _channelToRequest w1 !! newChannel = Some (_originalRequest interceptor)
       /\ requests w1 = requests w
       /\ emitted w1 = emitted w
       /\ interceptResponse_fetched i newChannel w1 = (Ok tt, w2)
       /\ (newChannel ∉ _responseInterceptionChannels w2)
       /\ _channelToRequest w2 !! newChannel = None
       /\ interceptors w2 = interceptors w1).
Proof.
  intros w i interceptor newChannel.
  assert (H1 : interceptors w !! i = Some interceptor) by (vm_compute; reflexivity).
  split; [exact H1|].
  exact (substitute_channel_is_not_observed w i interceptor newChannel H1).
Defined.

(** X20. When the fetch of the upstream response fails, the paused
    exchange fails with it: it leaves the awaiting map, its intercepted
    channel is cancelled with the error of the fetch, and the stop that the
    browser then delivers emits one [RequestFailed] with that error, under
    the id of the final exchange of the interceptor. *)
Theorem failed_upstream_fetch_fails_the_exchange
    w i interceptor this r p pn intercepted final pf error :
  interceptors w !! i = Some interceptor ->
  _originalRequest interceptor = this ->
  requests w !! this = Some r ->
  _responseInterceptor r = Some i ->
  _interceptedChannel r = Some intercepted ->
  _pageNetwork r = Some p ->
  pageNetworks w !! p = Some pn ->
  NoDup (JsMap.keys (_interceptedRequests pn)) ->
  requests w !! _finalRequest interceptor = Some final ->
  _pageNetwork final = Some pf ->
  error <> 0%N ->
  exists w' w'',
    interceptResponse_rejected i error w = (Ok tt, w')
    /\ calls w' = calls w ++ [cancelInterception intercepted error]
    /\ JsMap.get (awaiting w' p) (requestId r) = None
    /\ requests w' !! this = Some (set_interceptedChannel None r)
    /\ emitted w' = emitted w
    /\ onStopRequest this (httpChannel r) error w' = (Ok tt, w'')
    /\ emitted w'' = emitted w ++ [(pf, Events.RequestFailed (requestId final) error)].
Proof.
  intros Hi Horig Hr Hri Hic Hp Hpn Hnd Hf Hpf Herr.
  assert (Hfirst : exists w',
             interceptResponse_rejected i error w = (Ok tt, w')
             /\ calls w' = calls w ++ [cancelInterception intercepted error]
             /\ pageNetworks w' !! p
                = Some (set_interceptedRequests
                          (JsMap.delete (_interceptedRequests pn) (requestId r)) pn)
             /\ requests w' = <[this := set_interceptedChannel None r]> (requests w)
             /\ emitted w' = emitted w
             /\ interceptors w' = interceptors w).
  { unfold interceptResponse_rejected, _failWithErrorCode. mrun.
    eexists. split; [reflexivity|]. simpl. rewrite lookup_insert_eq. auto 10. }
  destruct Hfirst as (w' & Hrun & Hcalls & Hpn' & Hreqs & Hem & Hints).
  assert (Hr' : requests w' !! this = Some (set_interceptedChannel None r))
    by (rewrite Hreqs; apply lookup_insert_eq).
  assert (Hf' : exists final',
             requests w' !! _finalRequest interceptor = Some final'
             /\ requestId final' = requestId final /\ _pageNetwork final' = Some pf).
  { rewrite Hreqs. destruct (decide (_finalRequest interceptor = this)) as [E|E].
    - rewrite E in *. rewrite lookup_insert_eq. rewrite Hr in Hf. injection Hf as <-.
      eexists. split; [reflexivity|]. simpl. auto.
    - rewrite lookup_insert_ne by congruence. eauto. }
  destruct Hf' as (final' & Hf' & Hid' & Hpf').
  rewrite <- Hints in Hi.
  assert (Hstop : exists w'',
             onStopRequest this (httpChannel r) error w' = (Ok tt, w'')
             /\ emitted w'' = emitted w' ++ [(pf, Events.RequestFailed (requestId final) error)]).
  { unfold onStopRequest, _sendOnRequestFailed, interceptOnRequestFailed,
      _sendOnRequestFailedImpl.
    mrun. rewrite Nat.eqb_refl. mrun.
    destruct (N.eqb_spec error 0) as [?|_]; [congruence|]. mrun.
    eexists. split; [reflexivity|]. simpl. congruence. }
  destruct Hstop as (w'' & Hstop & Hem'').
  exists w', w''. split; [exact Hrun|]. split; [exact Hcalls|].
  split; [unfold awaiting; rewrite Hpn'; simpl; now apply get_delete_eq|].
  split; [exact Hr'|]. split; [exact Hem|]. split; [exact Hstop|]. now rewrite Hem'', Hem.
Qed.

(** The fetch of the upstream response of the paused exchange is refused. *)
Lemma failed_upstream_fetch_fails_the_exchange_witness :
  let w := Scene.intercepting in
  let i := 1%nat in
  let interceptor := {| _originalRequest := 0; _finalRequest := 0; _responseChannel := None;
    _interceptedResponse := None |} in
  let this := 0%nat in
  let r := Sample.exchange w 0 in
  let p := 1%nat in
  let pn := Sample.tracker w in
  let intercepted := 20%nat in
  let final := Sample.exchange w 0 in
  let pf := 1%nat in
  let error := Cr.NS_ERROR_CONNECTION_REFUSED in
  (interceptors w !! i = Some interceptor)
  /\ (_originalRequest interceptor = this)
  /\ (requests w !! this = Some r)
  /\ (_responseInterceptor r = Some i)
  /\ (_interceptedChannel r = Some intercepted)
  /\ (_pageNetwork r = Some p)
  /\ (pageNetworks w !! p = Some pn)
  /\ (NoDup (JsMap.keys (_interceptedRequests pn)))
  /\ (requests w !! _finalRequest interceptor = Some final)
  /\ (_pageNetwork final = Some pf)
  /\ (error <> 0%N)
  /\ (exists w' w'',
       interceptResponse_rejected i error w = (Ok tt, w')
       /\ calls w' = calls w ++ [cancelInterception intercepted error]
       /\ JsMap.get (awaiting w' p) (requestId r) = None
       /\ requests w' !! this = Some (set_interceptedChannel None r)
       /\ emitted w' = emitted w
       /\ onStopRequest this (httpChannel r) error w' = (Ok tt, w'')
       /\ emitted w'' = emitted w ++ [(pf, Events.RequestFailed (requestId final) error)]).
Proof.
  intros w i interceptor this r p pn intercepted final pf error.
  assert (H1 : interceptors w !! i = Some interceptor) by (vm_compute; reflexivity).
  assert (H2 : _originalRequest interceptor = this) by (vm_compute; reflexivity).
  assert (H3 : requests w !! this = Some r) by (vm_compute; reflexivity).
  assert (H4 : _responseInterceptor r = Some i) by (vm_compute; reflexivity).
  assert (H5 : _interceptedChannel r = Some intercepted) by (vm_compute; reflexivity).
  assert (H6 : _pageNetwork r = Some p) by (vm_compute; reflexivity).
  assert (H7 : pageNetworks w !! p = Some pn) by (vm_compute; reflexivity).
  assert (H8 : NoDup (JsMap.keys (_interceptedRequests pn))) by (distinct).
  assert (H9 : requests w !! _finalRequest interceptor = Some final) by (vm_compute;
    reflexivity).
  assert (H10 : _pageNetwork final = Some pf) by (vm_compute; reflexivity).
  assert (H11 : error <> 0%N) by (vm_compute; discriminate).
  split; [exact H1|].
  split; [exact H2|].
  split; [exact H3|].
  split; [exact H4|].
  split; [exact H5|].
  split; [exact H6|].
  split; [exact H7|].
  split; [exact H8|].
  split; [exact H9|].
  split; [exact H10|].
  split; [exact H11|].
  exact (failed_upstream_fetch_fails_the_exchange w i interceptor this r p pn intercepted final
    pf error H1 H2 H3 H4 H5 H6 H7 H8 H9 H10 H11).
Defined.

(** X21. Once a response interceptor holds the upstream response, the
    events of the paused exchange are reported on the interceptor's final
    exchange: the successful stop of the paused exchange emits the
    response and then [RequestFinished] under the id of the final exchange,
    which differs from the paused one when the substitute fetch was
    redirected, and stores the synthesized body under that id. *)
Theorem fulfilled_interception_is_reported_on_the_final_exchange
    w i interceptor upstream_ this r p pn chunks final pf :
  interceptors w !! i = Some interceptor ->
  _originalRequest interceptor = this ->
  _interceptedResponse interceptor = Some upstream_ ->
  requests w !! this = Some r ->
  _responseInterceptor r = Some i ->
  _pageNetwork r = Some p ->
  pageNetworks w !! p = Some pn ->
  _responseBodyChunks r = Some chunks ->
  requests w !! _finalRequest interceptor = Some final ->
  _pageNetwork final = Some pf ->
  _sentOnResponse final = false ->
  exists w' e,
    onStopRequest this (httpChannel r) 0 w = (Ok tt, w')
    /\ emitted w' = emitted w ++ [(pf, e); (pf, Events.RequestFinished (requestId final))]
    /\ is_response (requestId final) e
    /\ pageNetworks w' !! p
       = Some (set_responseStorage
                 (addResponseBody (_responseStorage pn) (requestId final)
                    (channel w (httpChannel r)) (Js.join chunks)) pn)
    /\ _channelToRequest w' !! httpChannel r = None.
Proof.
  intros Hi Horig Hup Hr Hri Hp Hpn Hchunks Hf Hpf Hsent.
  unfold onStopRequest, _sendOnResponse, interceptOnResponse, _sendOnResponseImpl,
    interceptAddResponseBody, storeResponseBody, _sendOnRequestFinished,
    interceptOnRequestFinished, _sendOnRequestFinishedImpl.
  destruct (decide (_finalRequest interceptor = this)) as [E|E].
  - rewrite E in *. rewrite Hr in Hf. injection Hf as <-.
    assert (pf = p) by congruence. subst pf. clear Hpf.
    mrun. rewrite Nat.eqb_refl. mrun.
    eexists. eexists. split; [reflexivity|]. simpl. rewrite lookup_insert_eq.
    rewrite <- app_assoc. split; [reflexivity|]. split; [reflexivity|].
    split; [reflexivity|]. apply lookup_delete_eq.
  - mrun. rewrite Nat.eqb_refl. mrun.
    eexists. eexists. split; [reflexivity|]. simpl. rewrite lookup_insert_eq.
    rewrite <- app_assoc. split; [reflexivity|]. split; [reflexivity|].
    split; [reflexivity|]. apply lookup_delete_eq.
Qed.

(** The substitute fetch was redirected to channel 22: the final exchange is exchange 2. *)
Lemma fulfilled_interception_is_reported_on_the_final_exchange_witness :
  let w := Scene.fetched_after_redirect in
  let i := 1%nat in
  let interceptor := {| _originalRequest := 0; _finalRequest := 2; _responseChannel := Some
    21%nat; _interceptedResponse := Some (Intercepted.mk "upstream" 0 EmptyString []) |} in
  let upstream_ := Intercepted.mk "upstream" 0 EmptyString [] in
  let this := 0%nat in
  let r := Sample.exchange w 0 in
  let p := 1%nat in
  let pn := Sample.tracker w in
  let chunks := @nil string in
  let final := Sample.exchange w 2 in
  let pf := 1%nat in
  (interceptors w !! i = Some interceptor)
  /\ (_originalRequest interceptor = this)
  /\ (_interceptedResponse interceptor = Some upstream_)
  /\ (requests w !! this = Some r)
  /\ (_responseInterceptor r = Some i)
  /\ (_pageNetwork r = Some p)
  /\ (pageNetworks w !! p = Some pn)
  /\ (_responseBodyChunks r = Some chunks)
  /\ (requests w !! _finalRequest interceptor = Some final)
  /\ (_pageNetwork final = Some pf)
  /\ (_sentOnResponse final = false)
  /\ (exists w' e,
       onStopRequest this (httpChannel r) 0 w = (Ok tt, w')
       /\ emitted w' = emitted w ++ [(pf, e); (pf, Events.RequestFinished (requestId final))]
       /\ is_response (requestId final) e
       /\ pageNetworks w' !! p
          = Some (set_responseStorage
                    (addResponseBody (_responseStorage pn) (requestId final)
                       (channel w (httpChannel r)) (Js.join chunks)) pn)
       /\ _channelToRequest w' !! httpChannel r = None).
Proof.
  intros w i interceptor upstream_ this r p pn chunks final pf.
  assert (H1 : interceptors w !! i = Some interceptor) by (vm_compute; reflexivity).
  assert (H2 : _originalRequest interceptor = this) by (vm_compute; reflexivity).
  assert (H3 : _interceptedResponse interceptor = Some upstream_) by (vm_compute; reflexivity).
  assert (H4 : requests w !! this = Some r) by (vm_compute; reflexivity).
  assert (H5 : _responseInterceptor r = Some i) by (vm_compute; reflexivity).
  assert (H6 : _pageNetwork r = Some p) by (vm_compute; reflexivity).
  assert (H7 : pageNetworks w !! p = Some pn) by (vm_compute; reflexivity).
  assert (H8 : _responseBodyChunks r = Some chunks) by (vm_compute; reflexivity).
  assert (H9 : requests w !! _finalRequest interceptor = Some final) by (vm_compute;
    reflexivity).
  assert (H10 : _pageNetwork final = Some pf) by (vm_compute; reflexivity).
  assert (H11 : _sentOnResponse final = false) by (vm_compute; reflexivity).
  split; [exact H1|].
  split; [exact H2|].
  split; [exact H3|].
  split; [exact H4|].
  split; [exact H5|].
  split; [exact H6|].
  split; [exact H7|].
  split; [exact H8|].
  split; [exact H9|].
  split; [exact H10|].
  split; [exact H11|].
  exact (fulfilled_interception_is_reported_on_the_final_exchange w i interceptor upstream_ this
    r p pn chunks final pf H1 H2 H3 H4 H5 H6 H7 H8 H9 H10 H11).
Defined.

(** ** Authentication *)

(** X22. Credentials configured for the context, or for the proxy of the
    channel when the proxy asks, answer a challenge once: [promptAuth]
    fills them in and expects the retried request, which has the channel
    id of the challenged one, as a redirect; that request becomes an
    exchange redirected from the challenged exchange, which is finished
    first. A challenge that follows failed credentials is declined and
    nothing is expected, so wrong credentials are not retried. *)
Theorem auth_retry_is_a_redirect
    getProxyInfo httpCredentials w this r p pn aChannel authInfo credentials retry :
  requests w !! this = Some r ->
  _responseInterceptor r = None ->
  Js.nonempty (requestId r) = true ->
  _pageNetwork r = Some p ->
  pageNetworks w !! p = Some pn ->
  channelId (channel w retry) = channelId (channel w (httpChannel r)) ->
  retry ∉ _responseInterceptionChannels w ->
  (N.land (AuthInfo.flags authInfo) PREVIOUS_FAILED <> 0%N ->
   promptAuth getProxyInfo httpCredentials this aChannel authInfo w
   = (Ok (false, authInfo), w))
  /\ (N.land (AuthInfo.flags authInfo) PREVIOUS_FAILED = 0%N ->
      challenge_credentials getProxyInfo httpCredentials aChannel (_target pn) authInfo
      = None ->
      promptAuth getProxyInfo httpCredentials this aChannel authInfo w
      = (Ok (false, authInfo), w))
  /\ (N.land (AuthInfo.flags authInfo) PREVIOUS_FAILED = 0%N ->
      challenge_credentials getProxyInfo httpCredentials aChannel (_target pn) authInfo
      = Some credentials ->
      exists w1 w2 r' e,
        promptAuth getProxyInfo httpCredentials this aChannel authInfo w
        = (Ok (true,
               AuthInfo.mk (AuthInfo.flags authInfo) (Credentials.username credentials)
                 (Credentials.password credentials)), w1)
        /\ emitted w1 = emitted w
        /\ calls w1 = calls w
        /\ _onRequest retry w1 = (Ok tt, w2)
        /\ requests w2 !! next w = Some r'
        /\ requestId r'
           = redirect_id (channelId (channel w (httpChannel r))) (_redirectedIndex r + 1)
        /\ redirectedFromId r' = Some (requestId r)
        /\ emitted w2 = emitted w ++ [(p, Events.RequestFinished (requestId r)); (p, e)]
        /\ is_request (requestId r') false (Some (requestId r)) (navigationId r) e).
Proof.
  intros Hr Hi Hid Hp Hpn Hsame Hex.
  split; [|split].
  - intros Hfailed. unfold promptAuth. apply N.eqb_neq in Hfailed. now rewrite Hfailed.
  - intros Hfresh Hnone. unfold promptAuth, challenge_credentials in *.
    rewrite Hfresh. cbn [N.eqb negb].
    destruct (negb (N.land (AuthInfo.flags authInfo) AUTH_PROXY =? 0)%N); mrun;
      reflexivity.
  - intros Hfresh Hsome.
    set (key := Js.numeral (channelId (channel w (httpChannel r)))).
    set (w1 := with_expectedRedirect (fun m => JsMap.set m key this) w).
    assert (Hrun1 : promptAuth getProxyInfo httpCredentials this aChannel authInfo w
                    = (Ok (true,
                           AuthInfo.mk (AuthInfo.flags authInfo)
                             (Credentials.username credentials)
                             (Credentials.password credentials)), w1)).
    { unfold promptAuth, challenge_credentials, promptAuth_expect, _expectRedirect in *.
      rewrite Hfresh. cbn [N.eqb negb].
      destruct (negb (N.land (AuthInfo.flags authInfo) AUTH_PROXY =? 0)%N); mrun;
        reflexivity. }
    assert (Hget : JsMap.get (_expectedRedirect w1) key = Some this)
      by (subst w1; simpl; apply get_set_eq).
    set (w1' := with_expectedRedirect (fun m => JsMap.delete m key) w1).
    destruct (new_NetworkRequest_successor w1' retry this r p pn Hr Hi Hid Hp Hpn)
      as (w2 & r' & e & Hrun & Hreqs & (C1 & C2 & C3 & C4) & _ & _ & _ & _ & _
          & _ & _ & Hem & He & _).
    cbn [identify id_requestId id_navigationId id_redirectedFromId id_redirectedIndex]
      in C1, C2, C3, C4.
    change (channel w1' retry) with (channel w retry) in C1. rewrite Hsame in C1.
    exists w1, w2, r', e. split; [exact Hrun1|]. split; [reflexivity|]. split; [reflexivity|].
    split.
    { unfold _onRequest. unfold bind at 1. unfold read at 1.
      change (_responseInterceptionChannels w1) with (_responseInterceptionChannels w).
      rewrite bool_decide_eq_false_2 by exact Hex.
      unfold bind at 1. unfold read at 1. unfold bind at 1. unfold read at 1.
      change (channel w1 retry) with (channel w retry). rewrite Hsame. fold key.
      rewrite Hget. unfold bind at 1. unfold modify at 1. fold w1'.
      unfold bind. rewrite Hrun. reflexivity. }
    split; [rewrite Hreqs; apply lookup_insert_eq|].
    split; [exact C1|]. split; [exact C3|]. split; [exact Hem|exact He].
Qed.

(** The server of channel 10 asks for credentials; channel 16 retries with the channel id of
    channel 10. *)
Lemma auth_retry_is_a_redirect_witness :
  let getProxyInfo := Scene.getProxyInfo in
  let httpCredentials := Scene.httpCredentials in
  let w := Sample.after (_onRequest 10) (Scene.browser Scene.channels (fun _ => None)) in
  let this := 0%nat in
  let r := Sample.exchange w 0 in
  let p := 1%nat in
  let pn := Sample.tracker w in
  let aChannel := 10%nat in
  let authInfo := AuthInfo.mk 0 EmptyString EmptyString in
  let credentials := Credentials.mk "user" "secret" in
  let retry := 16%nat in
  (requests w !! this = Some r)
  /\ (_responseInterceptor r = None)
  /\ (Js.nonempty (requestId r) = true)
  /\ (_pageNetwork r = Some p)
  /\ (pageNetworks w !! p = Some pn)
  /\ (channelId (channel w retry) = channelId (channel w (httpChannel r)))
  /\ (retry ∉ _responseInterceptionChannels w)
  /\ ((N.land (AuthInfo.flags authInfo) PREVIOUS_FAILED <> 0%N ->
      promptAuth getProxyInfo httpCredentials this aChannel authInfo w
      = (Ok (false, authInfo), w))
     /\ (N.land (AuthInfo.flags authInfo) PREVIOUS_FAILED = 0%N ->
         challenge_credentials getProxyInfo httpCredentials aChannel (_target pn) authInfo
         = None ->
         promptAuth getProxyInfo httpCredentials this aChannel authInfo w
         = (Ok (false, authInfo), w))
     /\ (N.land (AuthInfo.flags authInfo) PREVIOUS_FAILED = 0%N ->
         challenge_credentials getProxyInfo httpCredentials aChannel (_target pn) authInfo
         = Some credentials ->
         exists w1 w2 r' e,
           promptAuth getProxyInfo httpCredentials this aChannel authInfo w
           = (Ok (true,
                  AuthInfo.mk (AuthInfo.flags authInfo) (Credentials.username credentials)
                    (Credentials.password credentials)), w1)
           /\ emitted w1 = emitted w
           /\ calls w1 = calls w
           /\ _onRequest retry w1 = (Ok tt, w2)
           /\ requests w2 !! next w = Some r'
           /\ requestId r'
              = redirect_id (channelId (channel w (httpChannel r))) (_redirectedIndex r + 1)
           /\ redirectedFromId r' = Some (requestId r)
           /\ emitted w2 = emitted w ++ [(p, Events.RequestFinished (requestId r)); (p, e)]
           /\ is_request (requestId r') false (Some (requestId r)) (navigationId r) e)).
Proof.
  intros getProxyInfo httpCredentials w this r p pn aChannel authInfo credentials retry.
  assert (H1 : requests w !! this = Some r) by (vm_compute; reflexivity).
  assert (H2 : _responseInterceptor r = None) by (vm_compute; reflexivity).
  assert (H3 : Js.nonempty (requestId r) = true) by (vm_compute; reflexivity).
  assert (H4 : _pageNetwork r = Some p) by (vm_compute; reflexivity).
  assert (H5 : pageNetworks w !! p = Some pn) by (vm_compute; reflexivity).
  assert (H6 : channelId (channel w retry) = channelId (channel w (httpChannel r))) by
    (vm_compute; reflexivity).
  assert (H7 : retry ∉ _responseInterceptionChannels w) by (absent).
  split; [exact H1|].
  split; [exact H2|].
  split; [exact H3|].
  split; [exact H4|].
  split; [exact H5|].
  split; [exact H6|].
  split; [exact H7|].
  exact (auth_retry_is_a_redirect getProxyInfo httpCredentials w this r p pn aChannel authInfo
    credentials retry H1 H2 H3 H4 H5 H6 H7).
Defined.

(** ** Converted strings *)

Lemma of_bytes_app l1 l2 : Js.of_bytes (l1 ++ l2) = (Js.of_bytes l1 ++ Js.of_bytes l2)%string.
Proof.
  induction l1 as [|b l1 IH]; cbn [app Js.of_bytes]; [reflexivity|].
  now rewrite append_cons, IH.
Qed.

Lemma of_bytes_length l : String.length (Js.of_bytes l) = length l.
Proof. induction l as [|b l IH]; simpl; auto. Qed.

Lemma chunk_loop_joins array size i :
  Js.join (chunk_loop array size i)
  = Js.of_bytes (take (N.to_nat (size - i)) (drop (N.to_nat i) array))
  /\ Forall (fun chunk => (N.of_nat (String.length chunk) <= kChunk)%N)
       (chunk_loop array size i).
Proof.
  funelim (chunk_loop array size i).
  - destruct H as [Hjoin Hall]. cbn zeta. cbn [Js.join]. rewrite Hjoin. split.
    + rewrite <- of_bytes_app. f_equal.
      replace (N.to_nat (i + kChunk)) with (N.to_nat i + N.to_nat kChunk)%nat by lia.
      rewrite <- drop_drop.
      destruct (N.le_gt_cases kChunk (size - i)) as [Hle|Hgt].
      * rewrite N.min_l by exact Hle.
        replace (N.to_nat (size - (i + kChunk)))
          with (N.to_nat (size - i) - N.to_nat kChunk)%nat by lia.
        rewrite take_take_drop. f_equal. lia.
      * rewrite N.min_r by lia.
        replace (N.to_nat (size - (i + kChunk))) with 0%nat by lia.
        rewrite take_0. apply app_nil_r.
    + constructor; [|exact Hall].
      rewrite of_bytes_length, length_take. lia.
  - split; [|constructor].
    replace (N.to_nat (size - i)) with 0%nat by lia. reflexivity.
Qed.

(** X23. [convertString] loses nothing to its chunking: the string built
    by [onStreamComplete] is the first [length] code units of the data of
    the converter, in order, whatever their number, so it is the whole
    data when [length] is its length; no chunk handed to
    [String.fromCharCode] is longer than [kChunk]. *)
Theorem onStreamComplete_reassembles_the_data size data :
  onStreamComplete size data = Js.of_bytes (take (N.to_nat size) data)
  /\ (size = N.of_nat (length data) -> onStreamComplete size data = Js.of_bytes data)
  /\ Forall (fun chunk => (N.of_nat (String.length chunk) <= kChunk)%N) (chunk_loop data size 0).
Proof.
  destruct (chunk_loop_joins data size 0) as [Hjoin Hall].
  assert (Hall' : onStreamComplete size data = Js.of_bytes (take (N.to_nat size) data)).
  { unfold onStreamComplete. rewrite Hjoin, N.sub_0_r. reflexivity. }
  split; [exact Hall'|]. split.
  - intros ->. rewrite Hall', Nat2N.id. now rewrite firstn_all.
  - exact Hall.
Qed.

(** X24. When the fetch of the upstream response succeeds, its body is
    stored under the id of the final exchange, where [getResponseBody]
    serves it before any fulfilment, and its status line and headers, read
    from the substitute channel or from the channel of the final exchange
    when the fetch was redirected, are returned and kept for the defaults
    of [fulfill]. No event is emitted and the exchange stays paused. *)
Theorem upstream_body_is_served_before_fulfilment
    converter w i interceptor r final p pn substitute body :
  interceptors w !! i = Some interceptor ->
  _responseChannel interceptor = Some substitute ->
  requests w !! _originalRequest interceptor = Some r ->
  requests w !! _finalRequest interceptor = Some final ->
  _pageNetwork r = Some p ->
  pageNetworks w !! p = Some pn ->
  let c := upstream_channel interceptor substitute final in
  let head := responseHead (channel w c) None None in
  let store := addResponseBody (_responseStorage pn) (requestId final) (channel w c) body in
  exists w',
    interceptResponse_resolved i body w = (Ok head, w')
    /\ interceptors w' !! i
       = Some (set_interceptedResponse
                 (Some (Intercepted.mk body (Head.status head) (Head.statusText head)
                          (Head.headers head))) interceptor)
    /\ pageNetworks w' !! p = Some (set_responseStorage store pn)
    /\ requests w' = requests w
    /\ emitted w' = emitted w
    /\ calls w' = calls w
    /\ (Js.len body <= _maxResponseSize (_responseStorage pn) ->
        _totalSize (_responseStorage pn) + Js.len body <= _maxTotalSize (_responseStorage pn) ->
        exists w'',
          getResponseBody converter p (requestId final) w'
          = (Ok (Reply.mk
                   (Js.btoa (decoded converter (channel_encodings (channel w c)) body))
                   false), w'')).
Proof.
  intros Hi Hsc Hr Hf Hp Hpn c head store.
  assert (Hrun : exists w',
             interceptResponse_resolved i body w = (Ok head, w')
             /\ interceptors w' !! i
                = Some (set_interceptedResponse
                          (Some (Intercepted.mk body (Head.status head) (Head.statusText head)
                                   (Head.headers head))) interceptor)
             /\ pageNetworks w' !! p = Some (set_responseStorage store pn)
             /\ requests w' = requests w
             /\ emitted w' = emitted w
             /\ calls w' = calls w).
  { subst c head store. unfold upstream_channel, interceptResponse_resolved, storeResponseBody.
    destruct (Nat.eqb (_finalRequest interceptor) (_originalRequest interceptor)) eqn:E; mrun;
      (eexists; split; [reflexivity|]); simpl; rewrite !lookup_insert_eq; auto 10. }
  destruct Hrun as (w' & Hrun & Hint & Hstore & Hreqs & Hem & Hcalls).
  exists w'. repeat (split; [assumption|]).
  intros Hlen Hfit.
  destruct (getResponseBody_run converter w' p _ (requestId final) Hstore) as (w'' & Hget & _).
  exists w''. rewrite Hget. f_equal. cbn [_responseStorage set_responseStorage].
  destruct (addResponseBody_same (_responseStorage pn) (requestId final) (channel w c) body Hlen)
    as [_ Hsame].
  destruct (getBase64EncodedResponse_present converter _ _ _ (Hsame Hfit) eq_refl) as (H & _).
  exact H.
Qed.

(** The substitute fetch, redirected to channel 22, gives its body. *)
Lemma upstream_body_is_served_before_fulfilment_witness :
  let converter := Sample.marking in
  let w := Sample.after (interceptResponse_fetched 1 21) (Sample.after (_onRedirect 21 22 0 ;;
    _onRequest 22) Scene.fetching_redirect) in
  let i := 1%nat in
  let interceptor := {| _originalRequest := 0; _finalRequest := 2; _responseChannel := Some
    21%nat; _interceptedResponse := None |} in
  let r := Sample.exchange w 0 in
  let final := Sample.exchange w 2 in
  let p := 1%nat in
  let pn := Sample.tracker w in
  let substitute := 21%nat in
  let body := "upstream" in
  (interceptors w !! i = Some interceptor)
  /\ (_responseChannel interceptor = Some substitute)
  /\ (requests w !! _originalRequest interceptor = Some r)
  /\ (requests w !! _finalRequest interceptor = Some final)
  /\ (_pageNetwork r = Some p)
  /\ (pageNetworks w !! p = Some pn)
  /\ (let c := upstream_channel interceptor substitute final in
     let head := responseHead (channel w c) None None in
     let store := addResponseBody (_responseStorage pn) (requestId final) (channel w c) body in
     exists w',
       interceptResponse_resolved i body w = (Ok head, w')
       /\ interceptors w' !! i
          = Some (set_interceptedResponse
                    (Some (Intercepted.mk body (Head.status head) (Head.statusText head)
                             (Head.headers head))) interceptor)
       /\ pageNetworks w' !! p = Some (set_responseStorage store pn)
       /\ requests w' = requests w
       /\ emitted w' = emitted w
       /\ calls w' = calls w
       /\ (Js.len body <= _maxResponseSize (_responseStorage pn) ->
           _totalSize (_responseStorage pn) + Js.len body <= _maxTotalSize (_responseStorage pn)
             ->
           exists w'',
             getResponseBody converter p (requestId final) w'
             = (Ok (Reply.mk
                      (Js.btoa (decoded converter (channel_encodings (channel w c)) body))
                      false), w''))).
Proof.
  intros converter w i interceptor r final p pn substitute body.
  assert (H1 : interceptors w !! i = Some interceptor) by (vm_compute; reflexivity).
  assert (H2 : _responseChannel interceptor = Some substitute) by (vm_compute; reflexivity).
  assert (H3 : requests w !! _originalRequest interceptor = Some r) by (vm_compute;
    reflexivity).
  assert (H4 : requests w !! _finalRequest interceptor = Some final) by (vm_compute;
    reflexivity).
  assert (H5 : _pageNetwork r = Some p) by (vm_compute; reflexivity).
  assert (H6 : pageNetworks w !! p = Some pn) by (vm_compute; reflexivity).
  split; [exact H1|].
  split; [exact H2|].
  split; [exact H3|].
  split; [exact H4|].
  split; [exact H5|].
  split; [exact H6|].
  exact (upstream_body_is_served_before_fulfilment converter w i interceptor r final p pn
    substitute body H1 H2 H3 H4 H5 H6).
Defined.

(** X25. The running total of a store is not lowered when a body is
    replaced: after two insertions under one id, as response interception
    makes them for the upstream body and then for the fulfilled one, the
    store holds the second body only, while the running total exceeds the
    bytes held by the length of the first. *)
Theorem replaced_body_stays_in_the_running_total s requestId ch1 body1 ch2 body2 :
  _totalSize s = body_bytes (_responses s) ->
  requestId ∉ JsMap.keys (_responses s) ->
  Js.len body1 <= _maxResponseSize s ->
  Js.len body2 <= _maxResponseSize s ->
  _totalSize s + Js.len body1 + Js.len body2 <= _maxTotalSize s ->
  let s' := addResponseBody (addResponseBody s requestId ch1 body1) requestId ch2 body2 in
  JsMap.get (_responses s') requestId
  = Some (Stored.mk body2 false (Some (channel_encodings ch2)))
  /\ JsMap.keys (_responses s') = JsMap.keys (_responses s) ++ [requestId]
  /\ body_bytes (_responses s') = body_bytes (_responses s) + Js.len body2
  /\ _totalSize s' = body_bytes (_responses s') + Js.len body1.
Proof.
  intros Hexact Hfresh Hlen1 Hlen2 Hfit s'.
  pose proof (len_nonneg body1) as Hn1. pose proof (len_nonneg body2) as Hn2.
  destruct (addResponseBody_within s requestId ch1 body1 Hlen1) as (Hmax1 & Hresp1 & Hfit1 & _).
  destruct (Hfit1 ltac:(lia)) as [Hl1 Ht1].
  set (s1 := addResponseBody s requestId ch1 body1) in *.
  destruct (addResponseBody_within s1 requestId ch2 body2 ltac:(lia))
    as (_ & _ & Hfit2 & _).
  destruct (Hfit2 ltac:(lia)) as [Hl2 Ht2]. fold s' in Hl2, Ht2.
  rewrite Hl2, Hl1, Ht2, Ht1. rewrite (set_fresh (_responses s)) by assumption.
  set (v1 := Stored.mk body1 false _). set (v2 := Stored.mk body2 false _).
  assert (Hset : JsMap.set (_responses s ++ [(requestId, v1)]) requestId v2
                 = _responses s ++ [(requestId, v2)]).
  { clear -Hfresh. induction (_responses s) as [|[k v] l IH]; simpl.
    - now rewrite String.eqb_refl.
    - simpl in Hfresh. apply not_elem_of_cons in Hfresh as [Hne Hl].
      destruct (String.eqb_spec k requestId) as [->|_]; [congruence|]. now rewrite IH. }
  rewrite Hset. split.
  - rewrite get_app_fresh by assumption. simpl. now rewrite String.eqb_refl.
  - unfold JsMap.keys. rewrite map_app, body_bytes_app. simpl.
    repeat split; lia.
Qed.

(** An upstream body of eight bytes is replaced by a fulfilled one of nine. *)
Lemma replaced_body_stays_in_the_running_total_witness :
  let s := new_ResponseStorage 100 10 in
  let requestId := "10" in
  let ch1 := Sample.plainChannel 21 false in
  let body1 := "upstream" in
  let ch2 := Sample.plainChannel 10 true in
  let body2 := "fulfilled" in
  (_totalSize s = body_bytes (_responses s))
  /\ (requestId ∉ JsMap.keys (_responses s))
  /\ (Js.len body1 <= _maxResponseSize s)
  /\ (Js.len body2 <= _maxResponseSize s)
  /\ (_totalSize s + Js.len body1 + Js.len body2 <= _maxTotalSize s)
  /\ (let s' := addResponseBody (addResponseBody s requestId ch1 body1) requestId ch2 body2 in
     JsMap.get (_responses s') requestId
     = Some (Stored.mk body2 false (Some (channel_encodings ch2)))
     /\ JsMap.keys (_responses s') = JsMap.keys (_responses s) ++ [requestId]
     /\ body_bytes (_responses s') = body_bytes (_responses s) + Js.len body2
     /\ _totalSize s' = body_bytes (_responses s') + Js.len body1).
Proof.
  intros s requestId ch1 body1 ch2 body2.
  assert (H1 : _totalSize s = body_bytes (_responses s)) by (vm_compute; reflexivity).
  assert (H2 : requestId ∉ JsMap.keys (_responses s)) by (absent).
  assert (H3 : Js.len body1 <= _maxResponseSize s) by (vm_compute; discriminate).
  assert (H4 : Js.len body2 <= _maxResponseSize s) by (vm_compute; discriminate).
  assert (H5 : _totalSize s + Js.len body1 + Js.len body2 <= _maxTotalSize s) by (vm_compute;
    discriminate).
  split; [exact H1|].
  split; [exact H2|].
  split; [exact H3|].
  split; [exact H4|].
  split; [exact H5|].
  exact (replaced_body_stays_in_the_running_total s requestId ch1 body1 ch2 body2 H1 H2 H3 H4
    H5).
Defined.

(** X26. While the upstream response is being fetched, the events of the
    paused exchange are reported only for a redirect of the substitute
    channel: with a status from 300 to 399 on that channel, the response
    of the exchange is emitted with the status line and headers of the
    substitute channel and [RequestFinished] follows; with any other
    status both are dropped, to be reported at fulfilment. *)
Theorem pending_interception_reports_only_redirects
    w i interceptor this r p substitute status fromCache :
  interceptors w !! i = Some interceptor ->
  _originalRequest interceptor = this ->
  _interceptedResponse interceptor = None ->
  _responseChannel interceptor = Some substitute ->
  requests w !! this = Some r ->
  _responseInterceptor r = Some i ->
  _pageNetwork r = Some p ->
  _sentOnResponse r = false ->
  responseStatus (channel w substitute) = Some status ->
  (is_redirect_status status = true ->
   exists w' w'',
     _sendOnResponse this fromCache None None w = (Ok tt, w')
     /\ emitted w'
        = emitted w
          ++ [(p, Events.Response (requestId r) fromCache
                    (responseHeaders (channel w substitute)) status
                    (responseStatusText (channel w substitute)))]
     /\ _sendOnRequestFinished this w' = (Ok tt, w'')
     /\ emitted w'' = emitted w' ++ [(p, Events.RequestFinished (requestId r))]
     /\ _channelToRequest w'' = delete substitute (_channelToRequest w))
  /\ (is_redirect_status status = false ->
      _sendOnResponse this fromCache None None w = (Ok tt, w)
      /\ _sendOnRequestFinished this w = (Ok tt, w)).
Proof.
  intros Hi Horig Hnone Hsc Hr Hri Hp Hsent Hstatus.
  unfold is_redirect_status.
  unfold _sendOnResponse, interceptOnResponse, _sendOnRequestFinished,
    interceptOnRequestFinished, _isRedirectResponse, _sendOnResponseImpl,
    _sendOnRequestFinishedImpl.
  split; intros Hred.
  - mrun. rewrite Nat.eqb_refl. mrun. unfold responseHead. rewrite Hstatus.
    eexists. eexists. split; [reflexivity|]. simpl. split; [reflexivity|].
    mrun. rewrite Nat.eqb_refl. mrun. auto.
  - mrun. rewrite Nat.eqb_refl. mrun. auto.
Qed.

(** Substitute channel 21 holds a redirect response. *)
Lemma pending_interception_reports_only_redirects_witness :
  let w := Scene.fetching_redirect in
  let i := 1%nat in
  let interceptor := {| _originalRequest := 0; _finalRequest := 0; _responseChannel := Some
    21%nat; _interceptedResponse := None |} in
  let this := 0%nat in
  let r := Sample.exchange w 0 in
  let p := 1%nat in
  let substitute := 21%nat in
  let status := 302 in
  let fromCache := false in
  (interceptors w !! i = Some interceptor)
  /\ (_originalRequest interceptor = this)
  /\ (_interceptedResponse interceptor = None)
  /\ (_responseChannel interceptor = Some substitute)
  /\ (requests w !! this = Some r)
  /\ (_responseInterceptor r = Some i)
  /\ (_pageNetwork r = Some p)
  /\ (_sentOnResponse r = false)
  /\ (responseStatus (channel w substitute) = Some status)
  /\ ((is_redirect_status status = true ->
      exists w' w'',
        _sendOnResponse this fromCache None None w = (Ok tt, w')
        /\ emitted w'
           = emitted w
             ++ [(p, Events.Response (requestId r) fromCache
                       (responseHeaders (channel w substitute)) status
                       (responseStatusText (channel w substitute)))]
        /\ _sendOnRequestFinished this w' = (Ok tt, w'')
        /\ emitted w'' = emitted w' ++ [(p, Events.RequestFinished (requestId r))]
        /\ _channelToRequest w'' = delete substitute (_channelToRequest w))
     /\ (is_redirect_status status = false ->
         _sendOnResponse this fromCache None None w = (Ok tt, w)
         /\ _sendOnRequestFinished this w = (Ok tt, w))).
Proof.
  intros w i interceptor this r p substitute status fromCache.
  assert (H1 : interceptors w !! i = Some interceptor) by (vm_compute; reflexivity).
  assert (H2 : _originalRequest interceptor = this) by (vm_compute; reflexivity).
  assert (H3 : _interceptedResponse interceptor = None) by (vm_compute; reflexivity).
  assert (H4 : _responseChannel interceptor = Some substitute) by (vm_compute; reflexivity).
  assert (H5 : requests w !! this = Some r) by (vm_compute; reflexivity).
  assert (H6 : _responseInterceptor r = Some i) by (vm_compute; reflexivity).
  assert (H7 : _pageNetwork r = Some p) by (vm_compute; reflexivity).
  assert (H8 : _sentOnResponse r = false) by (vm_compute; reflexivity).
  assert (H9 : responseStatus (channel w substitute) = Some status) by (vm_compute;
    reflexivity).
  split; [exact H1|].
  split; [exact H2|].
  split; [exact H3|].
  split; [exact H4|].
  split; [exact H5|].
  split; [exact H6|].
  split; [exact H7|].
  split; [exact H8|].
  split; [exact H9|].
  exact (pending_interception_reports_only_redirects w i interceptor this r p substitute status
    fromCache H1 H2 H3 H4 H5 H6 H7 H8 H9).
Defined.

(** ** Redirects of the substitute fetch *)

Lemma bind_run {A B : Type} (c : M A) (k : A -> M B) w a w1 :
  c w = (Ok a, w1) -> bind c k w = k a w1.
Proof. intros H. unfold bind. now rewrite H. Qed.

(** Finishing a paused exchange whose response interceptor is fetching
    the upstream response through a substitute channel that holds a
    redirect. *)
Lemma sendOnRequestFinished_substitute_redirect
    w i interceptor this r p substitute status :
  interceptors w !! i = Some interceptor ->
  _originalRequest interceptor = this ->
  _interceptedResponse interceptor = None ->
  _responseChannel interceptor = Some substitute ->
  requests w !! this = Some r ->
  _responseInterceptor r = Some i ->
  _pageNetwork r = Some p ->
  responseStatus (channel w substitute) = Some status ->
  is_redirect_status status = true ->
  _sendOnRequestFinished this w
  = (Ok tt, with_channelToRequest (delete substitute)
              (with_emitted (fun l => l ++ [(p, Events.RequestFinished (requestId r))]) w)).
Proof.
  intros Hi Horig Hnone Hsc Hr Hri Hp Hstatus Hred.
  unfold is_redirect_status in Hred.
  unfold _sendOnRequestFinished, interceptOnRequestFinished,
    _isRedirectResponse, _sendOnRequestFinishedImpl.
  mrun. rewrite Nat.eqb_refl. mrun. reflexivity.
Qed.

(** The constructor for a redirect of such an exchange. *)
Lemma new_NetworkRequest_substitute_successor
    w i interceptor this r p pn substitute c status :
  interceptors w !! i = Some interceptor ->
  _originalRequest interceptor = this ->
  _interceptedResponse interceptor = None ->
  _responseChannel interceptor = Some substitute ->
  requests w !! this = Some r ->
  _responseInterceptor r = Some i ->
  Js.nonempty (requestId r) = true ->
  _pageNetwork r = Some p ->
  pageNetworks w !! p = Some pn ->
  responseStatus (channel w substitute) = Some status ->
  is_redirect_status status = true ->
  exists w' r' e,
    new_NetworkRequest c (Some this) w = (Ok (next w), w')
    /\ requests w' !! next w = Some r'
    /\ emitted w' = emitted w ++ [(p, Events.RequestFinished (requestId r)); (p, e)]
    /\ is_request (requestId r') false (Some (requestId r)) (navigationId r) e
    /\ requestId r' = redirect_id (channelId (channel w c)) (_redirectedIndex r + 1)
    /\ _responseInterceptor r' = Some i
    /\ _originalListener r' = channelListener w c
    /\ httpChannel r' = c
    /\ interceptors w' !! i = Some (set_finalRequest (next w) interceptor).
Proof.
  intros Hi Horig Hnone Hsc Hr Hri Hid Hp Hpn Hstatus Hred.
  unfold new_NetworkRequest.
  rewrite (bind_run _ _ w (next w) w) by reflexivity.
  rewrite (bind_run _ _ w tt (with_next S w)) by reflexivity.
  rewrite (bind_run _ _ _ tt (with_channelToRequest (insert c (next w)) (with_next S w)))
    by reflexivity.
  set (w1 := with_channelToRequest _ _).
  rewrite (bind_run _ _ w1 (channel w c) w1) by reflexivity.
  rewrite (bind_run _ _ w1 (Some r) w1)
    by (unfold bind, the_request, ret; change (requests w1) with (requests w); now rewrite Hr).
  cbv beta.
  set (w2 := with_channelToRequest (delete substitute)
               (with_emitted
                  (fun l => l ++ [(p, Events.RequestFinished (requestId r))]) w1)).
  set (w3 := with_interceptors (insert i (set_finalRequest (next w) interceptor)) w2).
  rewrite (bind_run _ _ w1 (Some i) w3).
  2:{ rewrite (bind_run _ _ w1 tt w2
                 (sendOnRequestFinished_substitute_redirect w1 i interceptor this r p
                    substitute status Hi Horig Hnone Hsc Hr Hri Hp Hstatus Hred)).
      rewrite Hri. unfold update_interceptor.
      rewrite (bind_run _ _ w2 tt w3); [reflexivity|].
      unfold bind, the_interceptor. change (interceptors w2) with (interceptors w).
      now rewrite Hi. }
  rewrite (bind_run _ _ w3 (Some p) w3) by (now rewrite Hp). cbv beta iota.
  set (w4 := with_calls
               (fun _ =>
                  calls (with_calls
                           (fun _ => calls w3
                                     ++ header_sets c
                                          (default [] (extraHTTPHeaders
                                                         (browserContext w (_target pn)))))
                           w3)
                  ++ header_sets c (default [] (_extraHTTPHeaders pn)))
               (with_calls
                  (fun _ => calls w3
                            ++ header_sets c
                                 (default [] (extraHTTPHeaders
                                                (browserContext w (_target pn)))))
                  w3)).
  rewrite (bind_run _ _ w3 tt w4).
  2:{ rewrite (bind_run _ _ w3 pn w3)
        by (unfold the_pageNetwork; change (pageNetworks w3) with (pageNetworks w);
            now rewrite Hpn).
      rewrite (bind_run _ _ w3 (browserContext w (_target pn)) w3) by reflexivity.
      rewrite (bind_run _ _ w3 tt _ (appendExtraHTTPHeaders_calls _ _ _)).
      apply appendExtraHTTPHeaders_calls. }
  rewrite (bind_run _ _ w4 (channelListener w c) w4) by reflexivity.
  set (w5 := with_calls (fun l => l ++ [setNewListener c (next w)]) w4).
  rewrite (bind_run _ _ w4 tt w5) by reflexivity.
  rewrite (bind_run _ _ w5 (channelListener w c) w5).
  2:{ rewrite Hri. rewrite (bind_run _ _ w5 true w5); [reflexivity|].
      unfold isInterceptedRequest, bind, the_interceptor, ret.
      change (interceptors w5) with (<[i := set_finalRequest (next w) interceptor]> (interceptors w)).
      rewrite lookup_insert_eq. cbn [_originalRequest set_finalRequest].
      now rewrite Horig, Nat.eqb_refl. }
  rewrite (bind_run _ _ w5 (channelCallbacks w c) w5) by reflexivity.
  set (w6 := with_calls (fun l => l ++ [setNotificationCallbacks c (next w)]) w5).
  rewrite (bind_run _ _ w5 tt w6) by reflexivity.
  cbn [identify id_requestId id_navigationId id_redirectedFromId id_redirectedIndex].
  set (r' := {| httpChannel := c; requestId := _; navigationId := _; redirectedFromId := _;
                _redirectedIndex := _; _frameId := _; _pageNetwork := _;
                _expectingInterception := _; _expectingResumedRequest := _;
                _sentOnResponse := _; _interceptedChannel := _; _responseInterceptor := _;
                _responseBodyChunks := _; _originalListener := _; _previousCallbacks := _ |}).
  set (w7 := with_requests (insert (next w) r') w6).
  rewrite (bind_run _ _ w6 tt w7) by reflexivity.
  rewrite Hid.
  set (e := Events.Request (URI (channel w c)) (frameId (channel w c)) false (requestId r')
              (Some (requestId r)) (navigationId r)).
  rewrite (bind_run _ _ w7 tt (with_emitted (fun l => l ++ [(p, e)]) w7)).
  2:{ unfold _sendOnRequest.
      rewrite (bind_run _ _ w7 r' w7)
        by (unfold the_request; change (requests w7) with (<[next w := r']> (requests w));
            now rewrite lookup_insert_eq).
      reflexivity. }
  exists (with_emitted (fun l => l ++ [(p, e)]) w7), r', e.
  split; [reflexivity|].
  split; [change (<[next w := r']> (requests w) !! next w = Some r'); apply lookup_insert_eq|].
  split; [change (emitted w) with (emitted w1); unfold w2;
          change ((emitted w1 ++ [(p, Events.RequestFinished (requestId r))]) ++ [(p, e)]
                  = emitted w1 ++ [(p, Events.RequestFinished (requestId r)); (p, e)]);
          now rewrite <- app_assoc|].
  split; [simpl; auto|].
  repeat (split; [reflexivity|]).
  change (<[i := set_finalRequest (next w) interceptor]> (interceptors w) !! i
          = Some (set_finalRequest (next w) interceptor)).
  apply lookup_insert_eq.
Qed.

(** X27. A redirect of the substitute fetch is reported on the paused
    exchange and moves the interception to a new exchange: the paused
    exchange is finished, with the redirect status found on the substitute
    channel, the request on the new channel becomes an exchange redirected
    from it that is announced as not intercepted, inherits the response
    interceptor and becomes its final exchange, keeps the listener of its
    own channel instead of inheriting the one of the paused exchange, and
    the upstream response will be read from its channel. *)
Theorem redirect_of_the_substitute_fetch
    w i interceptor this r p pn substitute newChannel flags status :
  interceptors w !! i = Some interceptor ->
  _originalRequest interceptor = this ->
  _interceptedResponse interceptor = None ->
  _responseChannel interceptor = Some substitute ->
  _channelToRequest w !! substitute = Some this ->
  requests w !! this = Some r ->
  _responseInterceptor r = Some i ->
  Js.nonempty (requestId r) = true ->
  _pageNetwork r = Some p ->
  pageNetworks w !! p = Some pn ->
  responseStatus (channel w substitute) = Some status ->
  is_redirect_status status = true ->
  N.land flags REDIRECT_INTERNAL = 0%N ->
  N.land flags REDIRECT_STS_UPGRADE = 0%N ->
  newChannel ∉ _responseInterceptionChannels w ->
  (this < next w)%nat ->
  exists w' r' e,
    (_onRedirect substitute newChannel flags ;; _onRequest newChannel) w = (Ok tt, w')
    /\ emitted w' = emitted w ++ [(p, Events.RequestFinished (requestId r)); (p, e)]
    /\ is_request (requestId r') false (Some (requestId r)) (navigationId r) e
    /\ requests w' !! next w = Some r'
    /\ requestId r'
       = redirect_id (channelId (channel w newChannel)) (_redirectedIndex r + 1)
    /\ _responseInterceptor r' = Some i
    /\ _originalListener r' = channelListener w newChannel
    /\ interceptors w' !! i = Some (set_finalRequest (next w) interceptor)
    /\ upstream_channel (set_finalRequest (next w) interceptor) substitute r' = newChannel.
Proof.
  intros Hi Horig Hnone Hsc Hmap Hr Hri Hid Hp Hpn Hstatus Hred Hint Hsts Hex Hlt.
  unfold _onRedirect. unfold bind at 1. unfold bind at 1. unfold read at 1.
  rewrite Hmap, Hint, Hsts. cbn [N.eqb negb].
  unfold bind at 1. unfold read at 1. unfold _expectRedirect, modify.
  set (key := Js.numeral (channelId (channel w newChannel))).
  set (w1 := with_expectedRedirect _ w).
  unfold _onRequest. unfold bind at 1. unfold read at 1.
  change (_responseInterceptionChannels w1) with (_responseInterceptionChannels w).
  rewrite bool_decide_eq_false_2 by exact Hex.
  unfold bind at 1. unfold read at 1. unfold bind at 1. unfold read at 1.
  change (channel w1 newChannel) with (channel w newChannel). fold key.
  assert (Hget : JsMap.get (_expectedRedirect w1) key = Some this)
    by (subst w1; simpl; apply get_set_eq).
  rewrite Hget. unfold bind at 1. unfold modify at 1.
  set (w2 := with_expectedRedirect _ w1).
  destruct (new_NetworkRequest_substitute_successor w2 i interceptor this r p pn substitute
              newChannel status Hi Horig Hnone Hsc Hr Hri Hid Hp Hpn Hstatus Hred)
    as (w' & r' & e & Hrun & Hr' & Hem & He & Hid' & Hri' & Hl' & Hc' & Hi').
  rewrite (bind_run _ _ w2 (next w) w' Hrun).
  exists w', r', e. split; [reflexivity|].
  repeat (split; [assumption|]).
  unfold upstream_channel. cbn [_finalRequest _originalRequest set_finalRequest].
  rewrite Horig. destruct (Nat.eqb_spec (next w) this) as [E|_]; [exfalso; lia|exact Hc'].
Qed.

(** Substitute channel 21 is redirected to channel 22. *)
Lemma redirect_of_the_substitute_fetch_witness :
  let w := Scene.fetching_redirect in
  let i := 1%nat in
  let interceptor := {| _originalRequest := 0; _finalRequest := 0; _responseChannel := Some
    21%nat; _interceptedResponse := None |} in
  let this := 0%nat in
  let r := Sample.exchange w 0 in
  let p := 1%nat in
  let pn := Sample.tracker w in
  let substitute := 21%nat in
  let newChannel := 22%nat in
  let flags := 0%N in
  let status := 302 in
  (interceptors w !! i = Some interceptor)
  /\ (_originalRequest interceptor = this)
  /\ (_interceptedResponse interceptor = None)
  /\ (_responseChannel interceptor = Some substitute)
  /\ (_channelToRequest w !! substitute = Some this)
  /\ (requests w !! this = Some r)
  /\ (_responseInterceptor r = Some i)
  /\ (Js.nonempty (requestId r) = true)
  /\ (_pageNetwork r = Some p)
  /\ (pageNetworks w !! p = Some pn)
  /\ (responseStatus (channel w substitute) = Some status)
  /\ (is_redirect_status status = true)
  /\ (N.land flags REDIRECT_INTERNAL = 0%N)
  /\ (N.land flags REDIRECT_STS_UPGRADE = 0%N)
  /\ (newChannel ∉ _responseInterceptionChannels w)
  /\ ((this < next w)%nat)
  /\ (exists w' r' e,
       (_onRedirect substitute newChannel flags ;; _onRequest newChannel) w = (Ok tt, w')
       /\ emitted w' = emitted w ++ [(p, Events.RequestFinished (requestId r)); (p, e)]
       /\ is_request (requestId r') false (Some (requestId r)) (navigationId r) e
       /\ requests w' !! next w = Some r'
       /\ requestId r'
          = redirect_id (channelId (channel w newChannel)) (_redirectedIndex r + 1)
       /\ _responseInterceptor r' = Some i
       /\ _originalListener r' = channelListener w newChannel
       /\ interceptors w' !! i = Some (set_finalRequest (next w) interceptor)
       /\ upstream_channel (set_finalRequest (next w) interceptor) substitute r' = newChannel).
Proof.
  intros w i interceptor this r p pn substitute newChannel flags status.
  assert (H1 : interceptors w !! i = Some interceptor) by (vm_compute; reflexivity).
  assert (H2 : _originalRequest interceptor = this) by (vm_compute; reflexivity).
  assert (H3 : _interceptedResponse interceptor = None) by (vm_compute; reflexivity).
  assert (H4 : _responseChannel interceptor = Some substitute) by (vm_compute; reflexivity).
  assert (H5 : _channelToRequest w !! substitute = Some this) by (vm_compute; reflexivity).
  assert (H6 : requests w !! this = Some r) by (vm_compute; reflexivity).
  assert (H7 : _responseInterceptor r = Some i) by (vm_compute; reflexivity).
  assert (H8 : Js.nonempty (requestId r) = true) by (vm_compute; reflexivity).
  assert (H9 : _pageNetwork r = Some p) by (vm_compute; reflexivity).
  assert (H10 : pageNetworks w !! p = Some pn) by (vm_compute; reflexivity).
  assert (H11 : responseStatus (channel w substitute) = Some status) by (vm_compute;
    reflexivity).
  assert (H12 : is_redirect_status status = true) by (vm_compute; reflexivity).
  assert (H13 : N.land flags REDIRECT_INTERNAL = 0%N) by (vm_compute; reflexivity).
  assert (H14 : N.land flags REDIRECT_STS_UPGRADE = 0%N) by (vm_compute; reflexivity).
  assert (H15 : newChannel ∉ _responseInterceptionChannels w) by (absent).
  assert (H16 : (this < next w)%nat) by (vm_compute; lia).
  split; [exact H1|].
  split; [exact H2|].
  split; [exact H3|].
  split; [exact H4|].
  split; [exact H5|].
  split; [exact H6|].
  split; [exact H7|].
  split; [exact H8|].
  split; [exact H9|].
  split; [exact H10|].
  split; [exact H11|].
  split; [exact H12|].
  split; [exact H13|].
  split; [exact H14|].
  split; [exact H15|].
  split; [exact H16|].
  exact (redirect_of_the_substitute_fetch w i interceptor this r p pn substitute newChannel
    flags status H1 H2 H3 H4 H5 H6 H7 H8 H9 H10 H11 H12 H13 H14 H15 H16).
Defined.
